(** * sales-bonus: the seller report of [analyzeSalesData]

    A shallow embedding of the two source variants of the repository,
    [src/src/main.js] (module [Main]) and [src/unnamed/part_000] (module
    [Part000]), and the properties of the report they compute.

    Conventions of the embedding.
    - The arithmetic of JavaScript numbers is a parameter: the class [Number]
      lists the constants and operations the source uses, and the definitions
      and theorems hold for every arithmetic, that of IEEE 754 doubles
      included.  What a theorem needs of the arithmetic beyond its
      operations is a hypothesis of that theorem ([NumberOrder],
      [NumberZero]).  The instance [exact] (rationals without rounding, and
      NaN) serves the examples.
    - A numeric property that the source reads behind a guard
      ([total_amount], [quantity], [discount]) or a collection that it tests
      is an [option]; an absent operand of an arithmetic operation is NaN.
    - An object used as a dictionary ([sellerIndex], [productIndex],
      [products_sold]) is a plain object: a key that is not an own property
      is looked up in [Object.prototype], whose properties are functions (and
      the object itself under ["__proto__"]), all truthy.
    - The accumulators are objects shared between the array [sellerStats] and
      the dictionary [sellerIndex]: the array is the store and the dictionary
      holds positions in it.
    - The two policies passed in [options] are functions that return a
      number.
    - [throw] is a result in [outcome]; so is [Unrepresented], for a run in
      which a seller or a product keyed ["__proto__"] replaces the prototype
      of a dictionary that is read afterwards. *)

From Stdlib Require Import QArith Qcanon Qround Lqa Ascii String.
From stdpp Require Import gmap strings list fin_maps numbers sorting.

Local Open Scope Z_scope.

(** ** Numbers *)

(** The constants and operations on numbers that the source uses: the
    literals [0], [1], [100], [0.15], [0.1], [0.05]; NaN, the number that
    [undefined] is converted to; the four arithmetic operators; the tests
    [isNaN], [x === 0] and [a > b]; and [+(x.toFixed(2))]. *)
Class Number (num : Type) : Type := {
  n0 : num;
  n1 : num;
  n100 : num;
  n0_15 : num;
  n0_1 : num;
  n0_05 : num;
  NaN : num;
  num_add : num → num → num;
  num_sub : num → num → num;
  num_mul : num → num → num;
  num_div : num → num → num;
  is_NaN : num → bool;
  is_zero : num → bool;
  gt : num → num → bool;
  toFixed2 : num → num
}.

Declare Scope num_scope.
Delimit Scope num_scope with num.
Infix "+" := num_add : num_scope.
Infix "-" := num_sub : num_scope.
Infix "*" := num_mul : num_scope.
Infix "/" := num_div : num_scope.
Local Open Scope num_scope.

Section Numbers.
Context {num : Type} `{!Number num}.

(** ToBoolean on a number: zero and NaN are falsy. *)
Definition truthy (x : num) : bool := negb (is_zero x || is_NaN x).

(** ToNumber on a numeric property that may be absent. *)
Definition to_number (x : option num) : num := default NaN x.

(** [x || 0] on a numeric property that may be absent. *)
Definition or0 (x : option num) : num :=
  match x with
  | Some x => if truthy x then x else n0
  | None => n0
  end.

(** [a >= b]: neither is NaN and [b > a] is false. *)
Definition ge (a b : num) : Prop :=
  is_NaN a = false ∧ is_NaN b = false ∧ gt b a = false.

(** [a] and [b] compare as equal: neither is greater. *)
Definition same (a b : num) : Prop := gt a b = false ∧ gt b a = false.
End Numbers.

(** What the order of the report needs of the arithmetic: the sign of a
    difference of two numbers tells which is greater, and [>] is a strict
    weak order on the numbers that are not NaN.  Doubles satisfy it (a
    difference of distinct doubles is not zero, by gradual underflow). *)
Class NumberOrder (num : Type) `{!Number num} : Prop := {
  gt_sub (a b : num) :
    is_NaN a = false → is_NaN b = false → gt (b - a) n0 = gt b a;
  gt_asym (a b : num) : gt a b = true → gt b a = false;
  gt_cotrans (a b c : num) :
    is_NaN b = false → gt a c = true → gt a b = true ∨ gt b c = true
}.

(** What the reports of sellers without sales need of the arithmetic:
    [0] is not NaN, [(0).toFixed(2)] reads back as [0], and [0] times each
    rate of the bonus policy is [0]. *)
Class NumberZero (num : Type) `{!Number num} : Prop := {
  n0_number : is_NaN n0 = false;
  toFixed2_n0 : toFixed2 n0 = n0;
  n0_mul_n0_15 : n0 * n0_15 = n0;
  n0_mul_n0_1 : n0 * n0_1 = n0;
  n0_mul_n0_05 : n0 * n0_05 = n0
}.

(** *** An arithmetic without rounding

    Rationals ([Qc], canonical fractions, so that equal numbers are equal
    terms) and NaN.  There are no infinities: a division by zero gives NaN;
    the source divides by 100 only. *)

Inductive exact : Type :=
| Fin (q : Qc)
| NotANumber.

Definition lit (n : Z) (d : positive) : exact := Fin (Q2Qc (n # d)).

Definition exact_op (f : Qc → Qc → Qc) (a b : exact) : exact :=
  match a, b with
  | Fin x, Fin y => Fin (f x y)
  | _, _ => NotANumber
  end.

Definition exact_div (a b : exact) : exact :=
  match a, b with
  | Fin x, Fin y => if decide (y = 0%Qc) then NotANumber else Fin (x / y)%Qc
  | _, _ => NotANumber
  end.

Definition Qc_abs (x : Qc) : Qc := if bool_decide (x < 0)%Qc then (- x)%Qc else x.

(** [+(x.toFixed(2))].  Number.prototype.toFixed works on the absolute value:
    at or above 10^21 the digits of the number itself are printed; below, the
    integer [n] with [n / 100] closest to the value is taken, the larger one
    when two are as close.  The unary plus reads the decimal string back. *)
Definition hundredths (a : Qc) : Z := Qfloor (a * Q2Qc 100 + Q2Qc (1 # 2))%Qc.

Definition Qc_toFixed2 (x : Qc) : Qc :=
  let a := Qc_abs x in
  if bool_decide (Q2Qc (10 ^ 21 # 1) ≤ a)%Qc then x
  else
    let n := hundredths a in
    if bool_decide (x < 0)%Qc then (- Q2Qc (n # 100))%Qc else Q2Qc (n # 100).

Definition exact_toFixed2 (a : exact) : exact :=
  match a with
  | Fin x => Fin (Qc_toFixed2 x)
  | NotANumber => NotANumber
  end.

#[global] Instance exact_number : Number exact := {|
  n0 := lit 0 1;
  n1 := lit 1 1;
  n100 := lit 100 1;
  n0_15 := lit 15 100;
  n0_1 := lit 1 10;
  n0_05 := lit 5 100;
  NaN := NotANumber;
  num_add := exact_op Qcplus;
  num_sub := exact_op Qcminus;
  num_mul := exact_op Qcmult;
  num_div := exact_div;
  is_NaN a := match a with Fin _ => false | NotANumber => true end;
  is_zero a := match a with Fin x => bool_decide (x = 0%Qc) | NotANumber => false end;
  gt a b := match a, b with Fin x, Fin y => bool_decide (y < x)%Qc | _, _ => false end;
  toFixed2 := exact_toFixed2
|}.

(** ** Input data *)

Record Seller : Type := {
  id : string;
  first_name : string;
  last_name : string
}.

Record Product (num : Type) : Type := {
  sku : string;
  purchase_price : num
}.
Arguments sku {num} _.
Arguments purchase_price {num} _.

(** A line of a receipt; its SKU is [item_sku] ([item.sku] in the source).
    [quantity] and [discount] are [None] when the property is absent. *)
Record Item (num : Type) : Type := {
  item_sku : string;
  quantity : option num;
  discount : option num;
  sale_price : num
}.
Arguments item_sku {num} _.
Arguments quantity {num} _.
Arguments discount {num} _.
Arguments sale_price {num} _.

(** A receipt; [record_seller_id] is [record.seller_id]; [total_amount] is
    [None] when the property is absent; [items] is [None] when the property
    is absent or holds a value that is not an array and has no method
    [forEach] (main.js tests [Array.isArray], part_000 calls [forEach]). *)
Record PurchaseRecord (num : Type) : Type := {
  record_seller_id : string;
  total_amount : option num;
  items : option (list (Item num))
}.
Arguments record_seller_id {num} _.
Arguments total_amount {num} _.
Arguments items {num} _.

(** [data]; a collection is [None] when absent or not an array. *)
Record Data (num : Type) : Type := {
  sellers : option (list Seller);
  products : option (list (Product num));
  purchase_records : option (list (PurchaseRecord num))
}.
Arguments sellers {num} _.
Arguments products {num} _.
Arguments purchase_records {num} _.

(** ** Plain objects used as dictionaries

    A read [o[k]] of a plain object gives the own property [k] when there is
    one, and otherwise the property [k] of [Object.prototype] when there is
    one: a built-in function, or under ["__proto__"] the prototype itself.
    All of these are truthy objects without a property [purchase_price] or
    [products_sold]. *)

Definition Object_prototype_keys : list string :=
  ["constructor"; "hasOwnProperty"; "isPrototypeOf"; "propertyIsEnumerable";
   "toLocaleString"; "toString"; "valueOf";
   "__defineGetter__"; "__defineSetter__";
   "__lookupGetter__"; "__lookupSetter__"; "__proto__"].

Inductive found (A : Type) : Type :=
| Own (a : A)
| Inherited (k : string)
| Missing.
Arguments Own {A} a.
Arguments Inherited {A} k.
Arguments Missing {A}.

(** [o[k]] where the own properties of [o] are those of a finite map. *)
Definition js_get {A : Type} (own : gmap string A) (k : string) : found A :=
  match own !! k with
  | Some a => Own a
  | None => if decide (k ∈ Object_prototype_keys) then Inherited k else Missing
  end.

(** *** Objects with enumerable keys

    [products_sold] starts as [{}], is written by key and is enumerated by
    [Object.entries].  Own string keys are listed by an object in two groups:
    array indices (canonical decimal numerals below 2^32 - 1) in ascending
    numeric order, then the other keys in the order of their creation. *)

Abbreviation jsobj V := (list (string * V)).

Definition digit_of (c : ascii) : option N :=
  let n := N_of_ascii c in
  if bool_decide (48 ≤ n ∧ n ≤ 57)%N then Some (n - 48)%N else None.

Fixpoint digits_value (acc : N) (s : string) : option N :=
  match s with
  | EmptyString => Some acc
  | String c s' =>
      match digit_of c with
      | Some d => digits_value (10 * acc + d)%N s'
      | None => None
      end
  end.

(** The array index a key denotes, if any: a decimal numeral without a
    superfluous leading zero whose value is at most 2^32 - 2. *)
Definition array_index (k : string) : option N :=
  match k with
  | EmptyString => None
  | String c rest =>
      if bool_decide (c = "0"%char ∧ rest ≠ EmptyString) then None
      else
        match digits_value 0 k with
        | Some n => if bool_decide (n < 4294967295)%N then Some n else None
        | None => None
        end
  end.

Definition is_index (k : string) : bool :=
  match array_index k with Some _ => true | None => false end.

Section JsObj.
Context {V : Type}.

Fixpoint obj_get (k : string) (o : jsobj V) : option V :=
  match o with
  | [] => None
  | (k', v) :: o' => if decide (k' = k) then Some v else obj_get k o'
  end.

(** [o[k]] on an object with enumerable keys. *)
Definition obj_read (k : string) (o : jsobj V) : found V :=
  match obj_get k o with
  | Some v => Own v
  | None => if decide (k ∈ Object_prototype_keys) then Inherited k else Missing
  end.

(** [o[k] = v] for a key other than ["__proto__"]: an existing property
    keeps its place, a new one is created last. *)
Fixpoint obj_set (k : string) (v : V) (o : jsobj V) : jsobj V :=
  match o with
  | [] => [(k, v)]
  | (k', v') :: o' =>
      if decide (k' = k) then (k', v) :: o' else (k', v') :: obj_set k v o'
  end.

Fixpoint insert_index (e : N * (string * V)) (l : list (N * (string * V)))
  : list (N * (string * V)) :=
  match l with
  | [] => [e]
  | e' :: l' =>
      if bool_decide (e.1 < e'.1)%N then e :: e' :: l'
      else e' :: insert_index e l'
  end.

Definition index_entries (o : jsobj V) : list (N * (string * V)) :=
  omap (λ kv, n ← array_index kv.1; Some (n, kv)) o.

Definition Object_entries (o : jsobj V) : list (string * V) :=
  (snd <$> foldr insert_index [] (index_entries o))
  ++ filter (λ kv, is_index kv.1 = false) o.
End JsObj.

(** ** The accumulator of a seller and the report *)

(** A value of [products_sold]: a number, or the string that [+=] makes of
    an inherited property: the text of [Object.prototype[k]] followed by the
    texts of the quantities appended since ([None] for [undefined]). *)
Inductive sold_value (num : Type) : Type :=
| Count (x : num)
| Text (k : string) (appended : list (option num)).
Arguments Count {num} x.
Arguments Text {num} k appended.

Record SellerStat (num : Type) : Type := {
  seller_id : string;
  name : string;
  revenue : num;
  profit : num;
  sales_count : nat;
  products_sold : jsobj (sold_value num)
}.
Arguments seller_id {num} _.
Arguments name {num} _.
Arguments revenue {num} _.
Arguments profit {num} _.
Arguments sales_count {num} _.
Arguments products_sold {num} _.

Record TopProduct (num : Type) : Type := {
  top_sku : string;
  top_quantity : sold_value num
}.
Arguments top_sku {num} _.
Arguments top_quantity {num} _.

Record SellerReport (num : Type) : Type := {
  report_seller_id : string;
  report_name : string;
  report_revenue : num;
  report_profit : num;
  report_sales_count : nat;
  report_top_products : list (TopProduct num);
  report_bonus : num
}.
Arguments report_seller_id {num} _.
Arguments report_name {num} _.
Arguments report_revenue {num} _.
Arguments report_profit {num} _.
Arguments report_sales_count {num} _.
Arguments report_top_products {num} _.
Arguments report_bonus {num} _.

(** The product that [productIndex[item.sku]] gives to the body of the loop
    over the items: a product of the input, or a built-in object inherited
    from [Object.prototype]. *)
Inductive product_arg (num : Type) : Type :=
| OwnProduct (product : Product num)
| BuiltIn (k : string).
Arguments OwnProduct {num} product.
Arguments BuiltIn {num} k.

(** The two policies passed in [options], as functions that return. *)
Definition RevenuePolicy (num : Type) : Type := Item num → product_arg num → num.
Definition BonusPolicy (num : Type) : Type := Z → Z → SellerStat num → num.

(** A property of [options] as the validation sees it: a falsy value (also
    when the property is absent), a truthy value that is not a function, or
    a function. *)
Inductive property (F : Type) : Type :=
| Falsy
| NotFunction
| Function (f : F).
Arguments Falsy {F}.
Arguments NotFunction {F}.
Arguments Function {F} f.

(** [options] as the validation sees it: a falsy value; a truthy primitive,
    which has neither property; a function (for instance a class with two
    static methods), whose [typeof] is not "object" whatever properties it
    has; or an object. *)
Inductive Options (num : Type) : Type :=
| OptionsFalsy
| OptionsPrimitive
| OptionsFunction (calculateRevenue : property (RevenuePolicy num))
                  (calculateBonus : property (BonusPolicy num))
| OptionsObject (calculateRevenue : property (RevenuePolicy num))
                (calculateBonus : property (BonusPolicy num)).
Arguments OptionsFalsy {num}.
Arguments OptionsPrimitive {num}.
Arguments OptionsFunction {num} calculateRevenue calculateBonus.
Arguments OptionsObject {num} calculateRevenue calculateBonus.

(** The two messages of [new Error(...)], and the built-in TypeError of a
    read of a property of [undefined]. *)
Inductive Error : Type :=
| InvalidInput
| InvalidOptions
| TypeError.

(** The result of a call.  A seller or a product keyed ["__proto__"] is
    stored through the accessor of [Object.prototype]: the assignment
    replaces the prototype of the dictionary instead of creating a property,
    and every later read of the dictionary sees the properties of that
    seller or product.  The embedding does not follow such a run: it
    answers [Unrepresented], which no property below takes for a result of
    the code. *)
Inductive outcome (A : Type) : Type :=
| Returned (a : A)
| Threw (e : Error)
| Unrepresented.
Arguments Returned {A} a.
Arguments Threw {A} e.
Arguments Unrepresented {A}.

#[global] Instance outcome_bind : MBind outcome := λ A B k m,
  match m with
  | Returned a => k a
  | Threw e => Threw e
  | Unrepresented => Unrepresented
  end.

(** [xs.forEach(x => ...)] where the body works on a state and may throw. *)
Fixpoint forEach {S X : Type} (body : S → X → outcome S) (xs : list X) (s : S)
  : outcome S :=
  match xs with
  | [] => Returned s
  | x :: xs' => s' ← body s x; forEach body xs' s'
  end.

(** A seller after the ranking pass: the accumulator with the two properties
    that pass adds to it. *)
Record RankedSeller (num : Type) : Type := {
  stat : SellerStat num;
  bonus : num;
  top_products : list (TopProduct num)
}.
Arguments stat {num} _.
Arguments bonus {num} _.
Arguments top_products {num} _.

Section Embedding.
Context {num : Type} `{!Number num}.

(** ** Array.prototype.sort

    The sort of an array by a comparator is stable (ECMAScript 2019): an
    element moves behind another one only where the comparator is positive
    on the pair; a comparator that gives NaN counts as giving 0.  For a
    comparator that is a difference of keys none of which is NaN, as both
    comparators of the source are, this determines the result. *)

Section Sort.
Context {A : Type} (cmp : A → A → num).

Fixpoint sort_insert (x : A) (l : list A) : list A :=
  match l with
  | [] => [x]
  | y :: l' =>
      if gt (cmp x y) n0 then y :: sort_insert x l'
      else x :: y :: l'
  end.

Definition sort_by (l : list A) : list A := foldr sort_insert [] l.
End Sort.

(** ** Parts that are the same text in both variants *)

(** [data.sellers.map(seller => ({ seller_id: seller.id, ... }))] *)
Definition makeSellerStats (sellers : list Seller) : list (SellerStat num) :=
  (λ seller,
     {| seller_id := id seller;
        name := first_name seller +:+ " " +:+ last_name seller;
        revenue := n0;
        profit := n0;
        sales_count := 0;
        products_sold := [] |}) <$> sellers.

(** [sellerStats.forEach(seller => { sellerIndex[seller.seller_id] = seller })]:
    the dictionary maps an identifier to the position of the accumulator it
    refers to; a later seller with the same identifier replaces an earlier
    one. *)
Definition build_sellerIndex (sellerStats : list (SellerStat num))
  : gmap string nat :=
  fold_left (λ sellerIndex e, <[seller_id e.2 := e.1]> sellerIndex)
            (imap pair sellerStats) ∅.

(** [products.forEach(product => { productIndex[product.sku] = product })] *)
Definition build_productIndex (products : list (Product num))
  : gmap string (Product num) :=
  fold_left (λ productIndex product, <[sku product := product]> productIndex)
            products ∅.

(** [productIndex[item.sku]] as the test [if (!product)] sees it: [None]
    when the read gives [undefined]. *)
Definition product_of (productIndex : gmap string (Product num)) (k : string)
  : option (product_arg num) :=
  match js_get productIndex k with
  | Own product => Some (OwnProduct product)
  | Inherited k' => Some (BuiltIn k')
  | Missing => None
  end.

(** [product.purchase_price]: [undefined] on a built-in object. *)
Definition purchase_price_of (product : product_arg num) : option num :=
  match product with
  | OwnProduct product => Some (purchase_price product)
  | BuiltIn _ => None
  end.

(** The data hold a purchase record, and a seller or a product is keyed
    ["__proto__"]: the run replaces the prototype of a dictionary that is
    read afterwards. *)
Definition rewires_prototype (data : Data num) : Prop :=
  default [] (purchase_records data) ≠ []
  ∧ ("__proto__" ∈ id <$> default [] (sellers data)
     ∨ "__proto__" ∈ sku <$> default [] (products data)).

#[global] Instance rewires_prototype_dec (data : Data num) :
  Decision (rewires_prototype data).
Proof. unfold rewires_prototype. apply _. Defined.

(** ToNumber on a value of [products_sold]: the strings are not numerals. *)
Definition value_number (v : sold_value num) : num :=
  match v with
  | Count x => x
  | Text _ _ => NaN
  end.

(** ToBoolean on a value of [products_sold]: the strings are not empty. *)
Definition value_truthy (v : sold_value num) : bool :=
  match v with
  | Count x => truthy x
  | Text _ _ => true
  end.

(** [(a, b) => b.profit - a.profit] *)
Definition by_profit (a b : SellerStat num) : num := profit b - profit a.

(** The [quantity] of an entry of [top_products] as a number. *)
Definition quantity_number (t : TopProduct num) : num :=
  value_number (top_quantity t).

(** [(a, b) => b.quantity - a.quantity] *)
Definition by_quantity (a b : TopProduct num) : num :=
  quantity_number b - quantity_number a.

(** [([sku, quantity]) => ({ sku: sku, quantity: quantity })] *)
Definition to_top (e : string * sold_value num) : TopProduct num :=
  {| top_sku := e.1; top_quantity := e.2 |}.

(** [Object.entries(seller.products_sold).map(...).sort(...).slice(0, 10)] *)
Definition top_products_of (seller : SellerStat num) : list (TopProduct num) :=
  take 10 (sort_by by_quantity (to_top <$> Object_entries (products_sold seller))).

(** [sortedSellers.forEach((seller, index) => { seller.bonus = ...;
    seller.top_products = ... })] *)
Definition rank (calculateBonus : BonusPolicy num)
    (sortedSellers : list (SellerStat num)) : list (RankedSeller num) :=
  let totalSellers := Z.of_nat (length sortedSellers) in
  imap (λ index seller,
          {| stat := seller;
             bonus := calculateBonus (Z.of_nat index) totalSellers seller;
             top_products := top_products_of seller |})
       sortedSellers.

(** [sortedSellers.map(seller => ({ ..., revenue: +(seller.revenue.toFixed(2)), ... }))] *)
Definition to_report (seller : RankedSeller num) : SellerReport num :=
  {| report_seller_id := seller_id (stat seller);
     report_name := name (stat seller);
     report_revenue := toFixed2 (revenue (stat seller));
     report_profit := toFixed2 (profit (stat seller));
     report_sales_count := sales_count (stat seller);
     report_top_products := top_products seller;
     report_bonus := toFixed2 (bonus seller) |}.

(** The guard and the update of [products_sold] for one item:
    [if (!seller.products_sold[item.sku]) seller.products_sold[item.sku] = 0;
     seller.products_sold[item.sku] += q], where [q] is [undefined] when it
    is [None].  The guard reads inherited properties too: under the key of a
    built-in function nothing is set to 0, and [+=] appends the text of [q]
    to the text of the function.  Under ["__proto__"] the read gives
    [Object.prototype] and the write of the string goes to the accessor,
    which ignores it. *)
Definition add_sold (k : string) (q : option num)
    (sold : jsobj (sold_value num)) : jsobj (sold_value num) :=
  if decide (k = "__proto__") then sold
  else
    let sold :=
      match obj_read k sold with
      | Own v => if value_truthy v then sold else obj_set k (Count n0) sold
      | Inherited _ => sold
      | Missing => obj_set k (Count n0) sold
      end in
    match obj_read k sold with
    | Own (Count x) => obj_set k (Count (x + to_number q)) sold
    | Own (Text k' appended) => obj_set k (Text k' (appended ++ [q])) sold
    | Inherited k' => obj_set k (Text k' [q]) sold
    | Missing => obj_set k (Count (NaN + to_number q)) sold
    end.

(** An item whose product lookup gives an object: the body of the loop over
    the items goes on to read [seller.products_sold]. *)
Definition finds_product (productIndex : gmap string (Product num))
    (item : Item num) : bool :=
  bool_decide (is_Some (product_of productIndex (item_sku item))).
End Embedding.

(** ** src/src/main.js *)

Module Main.
Section WithNumbers.
Context {num : Type} `{!Number num}.

Definition calculateSimpleRevenue (purchase : Item num) (_product : product_arg num)
  : num :=
  match discount purchase with
  | Some d =>
      if truthy d && gt d n0 then
        let total := sale_price purchase * to_number (quantity purchase) in
        let rebate := total * (n1 - d / n100) in
        rebate
      else sale_price purchase * to_number (quantity purchase)
  | None => sale_price purchase * to_number (quantity purchase)
  end.

Definition calculateBonusByProfit (index total : Z) (seller : SellerStat num) : num :=
  if bool_decide (index = 0)%Z then profit seller * n0_15
  else if bool_decide (index < 3)%Z then profit seller * n0_1
  else if bool_decide (index = total - 1)%Z then n0
  else profit seller * n0_05.

(** The body of [record.items.forEach(item => ...)] on the accumulator of
    the record's seller. *)
Definition process_item (calculateRevenue : RevenuePolicy num)
    (productIndex : gmap string (Product num)) (seller : SellerStat num)
    (item : Item num) : SellerStat num :=
  match product_of productIndex (item_sku item) with
  | None => seller
  | Some product =>
      let cost := to_number (purchase_price_of product) * or0 (quantity item) in
      let revenue_ := calculateRevenue item product in
      let itemProfit := revenue_ - cost in
      {| seller_id := seller_id seller;
         name := name seller;
         revenue := revenue seller;
         profit := profit seller + itemProfit;
         sales_count := sales_count seller;
         products_sold :=
           add_sold (item_sku item) (Some (or0 (quantity item)))
                    (products_sold seller) |}
  end.

(** The body of [data.purchase_records.forEach(record => ...)] on the
    store of accumulators.  When [sellerIndex[record.seller_id]] is a
    built-in object, the counters of the record are written to that object,
    and the first item whose product lookup gives an object reads
    [seller.products_sold[...]], where [seller.products_sold] is
    [undefined]: a TypeError. *)
Definition process_record (calculateRevenue : RevenuePolicy num)
    (sellerIndex : gmap string nat) (productIndex : gmap string (Product num))
    (sellerStats : list (SellerStat num)) (record : PurchaseRecord num)
  : outcome (list (SellerStat num)) :=
  match js_get sellerIndex (record_seller_id record) with
  | Missing => Returned sellerStats
  | Own p =>
      match sellerStats !! p with
      | None => Returned sellerStats
      | Some seller =>
          let seller :=
            {| seller_id := seller_id seller;
               name := name seller;
               revenue := revenue seller + or0 (total_amount record);
               profit := profit seller;
               sales_count := S (sales_count seller);
               products_sold := products_sold seller |} in
          let seller :=
            match items record with
            | Some its =>
                fold_left (process_item calculateRevenue productIndex) its seller
            | None => seller
            end in
          Returned (<[p := seller]> sellerStats)
      end
  | Inherited _ =>
      match items record with
      | Some its =>
          if existsb (finds_product productIndex) its then Threw TypeError
          else Returned sellerStats
      | None => Returned sellerStats
      end
  end.

(** The accumulators after all records, in the order of [data.sellers]. *)
Definition aggregate (calculateRevenue : RevenuePolicy num) (data : Data num)
    (sellers_ : list Seller) : outcome (list (SellerStat num)) :=
  let sellerStats := makeSellerStats sellers_ in
  let sellerIndex := build_sellerIndex sellerStats in
  let productIndex :=
    match products data with
    | Some ps => build_productIndex ps
    | None => ∅
    end in
  match purchase_records data with
  | Some records =>
      forEach (process_record calculateRevenue sellerIndex productIndex)
              records sellerStats
  | None => Returned sellerStats
  end.

Definition analyzeSalesData (data : option (Data num)) (options : Options num)
  : outcome (list (SellerReport num)) :=
  match data with
  | None => Threw InvalidInput
  | Some data =>
      match sellers data with
      | None | Some [] => Threw InvalidInput
      | Some sellers_ =>
          match options with
          | OptionsObject (Function calculateRevenue) (Function calculateBonus) =>
              if decide (rewires_prototype data) then Unrepresented
              else
                sellerStats ← aggregate calculateRevenue data sellers_;
                let sortedSellers := sort_by by_profit sellerStats in
                Returned (to_report <$> rank calculateBonus sortedSellers)
          | _ => Threw InvalidOptions
          end
      end
  end.

End WithNumbers.
End Main.

(** ** src/unnamed/part_000

    This variant reads [record.items] without a test, so a record without an
    array of items makes [record.items.forEach] throw a TypeError, and it
    reads [total_amount] and [quantity] without the default [|| 0]. *)

Module Part000.
Section WithNumbers.
Context {num : Type} `{!Number num}.

Definition calculateSimpleRevenue (purchase : Item num) (_product : product_arg num)
  : num :=
  match discount purchase with
  | Some d =>
      if truthy d && gt d n0 then
        sale_price purchase * to_number (quantity purchase) * (n1 - d / n100)
      else sale_price purchase * to_number (quantity purchase)
  | None => sale_price purchase * to_number (quantity purchase)
  end.

Definition calculateBonusByProfit (index total : Z) (seller : SellerStat num) : num :=
  if bool_decide (index = 0)%Z then profit seller * n0_15
  else if bool_decide (index < 3)%Z then profit seller * n0_1
  else if bool_decide (index = total - 1)%Z then n0
  else profit seller * n0_05.

Definition process_item (calculateRevenue : RevenuePolicy num)
    (productIndex : gmap string (Product num)) (seller : SellerStat num)
    (item : Item num) : SellerStat num :=
  match product_of productIndex (item_sku item) with
  | None => seller
  | Some product =>
      let cost := to_number (purchase_price_of product) * to_number (quantity item) in
      let revenue_ := calculateRevenue item product in
      let itemProfit := revenue_ - cost in
      {| seller_id := seller_id seller;
         name := name seller;
         revenue := revenue seller;
         profit := profit seller + itemProfit;
         sales_count := sales_count seller;
         products_sold :=
           add_sold (item_sku item) (quantity item) (products_sold seller) |}
  end.

Definition process_record (calculateRevenue : RevenuePolicy num)
    (sellerIndex : gmap string nat) (productIndex : gmap string (Product num))
    (sellerStats : list (SellerStat num)) (record : PurchaseRecord num)
  : outcome (list (SellerStat num)) :=
  match js_get sellerIndex (record_seller_id record) with
  | Missing => Returned sellerStats
  | Own p =>
      match sellerStats !! p with
      | None => Returned sellerStats
      | Some seller =>
          let seller :=
            {| seller_id := seller_id seller;
               name := name seller;
               revenue := revenue seller + to_number (total_amount record);
               profit := profit seller;
               sales_count := S (sales_count seller);
               products_sold := products_sold seller |} in
          match items record with
          | None => Threw TypeError
          | Some its =>
              let seller :=
                fold_left (process_item calculateRevenue productIndex) its seller in
              Returned (<[p := seller]> sellerStats)
          end
      end
  | Inherited _ =>
      match items record with
      | None => Threw TypeError
      | Some its =>
          if existsb (finds_product productIndex) its then Threw TypeError
          else Returned sellerStats
      end
  end.

Definition aggregate (calculateRevenue : RevenuePolicy num)
    (sellers_ : list Seller) (products_ : list (Product num))
    (records : list (PurchaseRecord num)) : outcome (list (SellerStat num)) :=
  let sellerStats := makeSellerStats sellers_ in
  let sellerIndex := build_sellerIndex sellerStats in
  let productIndex := build_productIndex products_ in
  forEach (process_record calculateRevenue sellerIndex productIndex)
          records sellerStats.

Definition analyzeSalesData (data : option (Data num)) (options : Options num)
  : outcome (list (SellerReport num)) :=
  match data with
  | None => Threw InvalidInput
  | Some data =>
      match sellers data, products data, purchase_records data with
      | Some (seller :: sellers_), Some (product :: products_),
        Some (record :: records) =>
          match options with
          | OptionsObject (Function calculateRevenue) (Function calculateBonus) =>
              if decide (rewires_prototype data) then Unrepresented
              else
                sellerStats ← aggregate calculateRevenue (seller :: sellers_)
                                 (product :: products_) (record :: records);
                let sortedSellers := sort_by by_profit sellerStats in
                Returned (to_report <$> rank calculateBonus sortedSellers)
          | _ => Threw InvalidOptions
          end
      | _, _, _ => Threw InvalidInput
      end
  end.

End WithNumbers.
End Part000.

(** ** The two variants side by side *)

Inductive Variant : Type :=
| main_js
| part_000.

Section Variants.
Context {num : Type} `{!Number num}.

Definition analyzeSalesData_in (v : Variant)
  : option (Data num) → Options num → outcome (list (SellerReport num)) :=
  match v with
  | main_js => Main.analyzeSalesData
  | part_000 => Part000.analyzeSalesData
  end.

Definition process_item_in (v : Variant)
  : RevenuePolicy num → gmap string (Product num) → SellerStat num → Item num
    → SellerStat num :=
  match v with
  | main_js => Main.process_item
  | part_000 => Part000.process_item
  end.

Definition process_record_in (v : Variant)
  : RevenuePolicy num → gmap string nat → gmap string (Product num)
    → list (SellerStat num) → PurchaseRecord num
    → outcome (list (SellerStat num)) :=
  match v with
  | main_js => Main.process_record
  | part_000 => Part000.process_record
  end.

(** What a record adds to the revenue of its seller:
    [record.total_amount || 0] in main.js, [record.total_amount] in
    part_000. *)
Definition amount_in (v : Variant) (x : option num) : num :=
  match v with
  | main_js => or0 x
  | part_000 => to_number x
  end.

(** The quantity of an item as the loop over the items uses it:
    [item.quantity || 0] in main.js, [item.quantity] in part_000. *)
Definition quantity_in (v : Variant) (q : option num) : option num :=
  match v with
  | main_js => Some (or0 q)
  | part_000 => q
  end.

(** part_000 calls [record.items.forEach] without a test. *)
Definition requires_items (v : Variant) : bool :=
  match v with
  | main_js => false
  | part_000 => true
  end.

(** [productIndex] as main.js builds it from [data]. *)
Definition data_productIndex (data : Data num) : gmap string (Product num) :=
  match products data with
  | Some ps => build_productIndex ps
  | None => ∅
  end.

(** The loop over the purchase records of [data], a missing collection
    read as an empty one. *)
Definition aggregate_in (v : Variant) (calculateRevenue : RevenuePolicy num)
    (data : Data num) (sellers_ : list Seller)
  : outcome (list (SellerStat num)) :=
  forEach (process_record_in v calculateRevenue
             (build_sellerIndex (makeSellerStats sellers_))
             (data_productIndex data))
          (default [] (purchase_records data)) (makeSellerStats sellers_).

(** ** Quantities the properties speak about *)

(** What a record does to the accumulator of its seller: the two counters
    of the record, then its items. *)
Definition seller_after (v : Variant) (calculateRevenue : RevenuePolicy num)
    (productIndex : gmap string (Product num)) (record : PurchaseRecord num)
    (seller : SellerStat num) : SellerStat num :=
  fold_left (process_item_in v calculateRevenue productIndex)
    (default [] (items record))
    {| seller_id := seller_id seller;
       name := name seller;
       revenue := revenue seller + amount_in v (total_amount record);
       profit := profit seller;
       sales_count := S (sales_count seller);
       products_sold := products_sold seller |}.

(** What a record does to the store when it does not throw: the accumulator
    that [sellerIndex] holds for its seller identifier changes, no other. *)
Definition store_after (v : Variant) (calculateRevenue : RevenuePolicy num)
    (sellerIndex : gmap string nat) (productIndex : gmap string (Product num))
    (stats : list (SellerStat num)) (record : PurchaseRecord num)
  : list (SellerStat num) :=
  match sellerIndex !! record_seller_id record with
  | Some p =>
      match stats !! p with
      | Some seller =>
          <[p := seller_after v calculateRevenue productIndex record seller]> stats
      | None => stats
      end
  | None => stats
  end.

(** The record ends the call with a TypeError. *)
Definition record_throws (v : Variant) (sellerIndex : gmap string nat)
    (productIndex : gmap string (Product num)) (record : PurchaseRecord num)
  : bool :=
  match js_get sellerIndex (record_seller_id record), items record with
  | Missing, _ => false
  | Own _, None => requires_items v
  | Own _, Some _ => false
  | Inherited _, None => requires_items v
  | Inherited _, Some its => existsb (finds_product productIndex) its
  end.

(** The record's seller identifier is the one of some seller of the input. *)
Definition known_seller (sellers_ : list Seller) (record : PurchaseRecord num)
  : Prop :=
  record_seller_id record ∈ id <$> sellers_.

#[global] Instance known_seller_dec sellers_ record :
  Decision (known_seller sellers_ record).
Proof. unfold known_seller. apply _. Defined.

(** The record's seller identifier is the one of no seller of the input and
    names a property of [Object.prototype]: [sellerIndex] gives a built-in
    object for it. *)
Definition stray_seller (sellers_ : list Seller) (record : PurchaseRecord num)
  : Prop :=
  (record_seller_id record ∉ id <$> sellers_)
  ∧ record_seller_id record ∈ Object_prototype_keys.

#[global] Instance stray_seller_dec sellers_ record :
  Decision (stray_seller sellers_ record).
Proof. unfold stray_seller. apply _. Defined.

(** The item's SKU is the one of some product of the input. *)
Definition known_product (products_ : list (Product num)) (item : Item num)
  : Prop :=
  item_sku item ∈ sku <$> products_.

#[global] Instance known_product_dec products_ item :
  Decision (known_product products_ item).
Proof. unfold known_product. apply _. Defined.

(** The item's SKU is the one of no product of the input and names a
    property of [Object.prototype]: [productIndex] gives a built-in object
    for it. *)
Definition stray_product (products_ : list (Product num)) (item : Item num)
  : Prop :=
  (item_sku item ∉ sku <$> products_) ∧ item_sku item ∈ Object_prototype_keys.

#[global] Instance stray_product_dec products_ item :
  Decision (stray_product products_ item).
Proof. unfold stray_product. apply _. Defined.

(** A key that names no property of [Object.prototype]. *)
Definition plain_key (k : string) : Prop := k ∉ Object_prototype_keys.

(** The record reaches the read of [seller.products_sold]: it has an array
    of items one of which finds a product or a built-in object. *)
Definition reaches_products_sold (products_ : list (Product num))
    (record : PurchaseRecord num) : Prop :=
  Exists (λ item, known_product products_ item ∨ stray_product products_ item)
         (default [] (items record)).

#[global] Instance reaches_products_sold_dec products_ record :
  Decision (reaches_products_sold products_ record).
Proof. unfold reaches_products_sold. apply _. Defined.

(** The records on which main.js throws a TypeError. *)
Definition Main_record_fails (sellers_ : list Seller)
    (products_ : list (Product num)) (record : PurchaseRecord num) : Prop :=
  stray_seller sellers_ record ∧ reaches_products_sold products_ record.

#[global] Instance Main_record_fails_dec sellers_ products_ record :
  Decision (Main_record_fails sellers_ products_ record).
Proof. unfold Main_record_fails. apply _. Defined.

(** The records on which part_000 throws a TypeError. *)
Definition Part000_record_fails (sellers_ : list Seller)
    (products_ : list (Product num)) (record : PurchaseRecord num) : Prop :=
  (known_seller sellers_ record ∨ stray_seller sellers_ record)
  ∧ items record = None
  ∨ Main_record_fails sellers_ products_ record.

(** [record] with other items. *)
Definition with_items (record : PurchaseRecord num) (its : option (list (Item num)))
  : PurchaseRecord num :=
  {| record_seller_id := record_seller_id record;
     total_amount := total_amount record;
     items := its |}.

(** [data] with other purchase records. *)
Definition with_records (data : Data num)
    (records : option (list (PurchaseRecord num))) : Data num :=
  {| sellers := sellers data;
     products := products data;
     purchase_records := records |}.

(** [data] with other products. *)
Definition with_products (data : Data num) (products_ : option (list (Product num)))
  : Data num :=
  {| sellers := sellers data;
     products := products_;
     purchase_records := purchase_records data |}.

(** The accumulator a seller starts with. *)
Definition zero_stat (seller : Seller) : SellerStat num :=
  {| seller_id := id seller;
     name := first_name seller +:+ " " +:+ last_name seller;
     revenue := n0;
     profit := n0;
     sales_count := 0;
     products_sold := [] |}.

(** The records that [sellerIndex] refers to the position [p]. *)
Definition attributed (sellers_ : list Seller) (p : nat)
    (records : list (PurchaseRecord num)) : list (PurchaseRecord num) :=
  filter (λ record, build_sellerIndex (makeSellerStats sellers_)
                      !! record_seller_id record = Some p) records.

(** The records that carry the seller identifier [k]. *)
Definition records_of (k : string) (records : list (PurchaseRecord num))
  : list (PurchaseRecord num) :=
  filter (λ record, record_seller_id record = k) records.

(** The last product of a SKU in the order of [data.products]. *)
Definition last_product (k : string) (products_ : list (Product num))
  : option (Product num) :=
  last (filter (λ product, sku product = k) products_).

(** The revenue accumulated over a list of records, in their order. *)
Definition revenue_over (v : Variant) (records : list (PurchaseRecord num)) : num :=
  fold_left (λ x record, x + amount_in v (total_amount record)) records n0.

(** The profit after one item: an item without product adds nothing. *)
Definition profit_after_item (v : Variant) (calculateRevenue : RevenuePolicy num)
    (productIndex : gmap string (Product num)) (x : num) (item : Item num) : num :=
  match product_of productIndex (item_sku item) with
  | None => x
  | Some product =>
      x + (calculateRevenue item product
           - to_number (purchase_price_of product)
             * to_number (quantity_in v (quantity item)))
  end.

(** The profit accumulated over the items of a list of records, in their
    order. *)
Definition profit_over (v : Variant) (calculateRevenue : RevenuePolicy num)
    (productIndex : gmap string (Product num))
    (records : list (PurchaseRecord num)) : num :=
  fold_left (λ x record,
               fold_left (profit_after_item v calculateRevenue productIndex)
                         (default [] (items record)) x)
            records n0.

(** *** The top products of a report *)








(** ** The conditions of the validation *)

(** main.js accepts [data]: it is present and [sellers] is a non-empty
    array. *)
Definition data_accepted (data : option (Data num)) : Prop :=
  ∃ d s ss, data = Some d ∧ sellers d = Some (s :: ss).

(** [options] is an object whose two policies are functions. *)
Definition options_accepted (options : Options num) : Prop :=
  ∃ r b, options = OptionsObject (Function r) (Function b).

(** [options] is present and both policies are functions, as the claim of
    the specification has it. *)
Definition policies_invocable (options : Options num) : Prop :=
  ∃ r b, options = OptionsObject (Function r) (Function b)
         ∨ options = OptionsFunction (Function r) (Function b).

(** A collection of [data] is absent, not an array, or empty. *)
Definition collection_missing {A : Type} (c : option (list A)) : Prop :=
  c = None ∨ c = Some [].

(** [data] is present and its three collections are non-empty arrays. *)
Definition strict_data_accepted (data : option (Data num)) : Prop :=
  ∃ d s ss p ps r rs,
    data = Some d ∧ sellers d = Some (s :: ss) ∧ products d = Some (p :: ps)
    ∧ purchase_records d = Some (r :: rs).

(** The call of main.js fails after the validation: the run is one the
    embedding follows, and some record of the data fails. *)
Definition Main_aggregation_fails (data : option (Data num)) : Prop :=
  ∃ d, data = Some d ∧ ¬ rewires_prototype d
    ∧ Exists (Main_record_fails (default [] (sellers d)) (default [] (products d)))
             (default [] (purchase_records d)).

(** A record has an array of items. *)
Definition has_items (record : PurchaseRecord num) : Prop := is_Some (items record).

(** A numeric property is present and the default [|| 0] leaves it as it
    is: it is not NaN and not a zero other than the literal [0]. *)
Definition kept (x : option num) : Prop := ∃ y, x = Some y ∧ or0 (Some y) = y.

(** Every record carries a [total_amount], and every item a [quantity],
    that the default [|| 0] leaves as it is. *)
Definition amounts_kept (records : list (PurchaseRecord num)) : Prop :=
  Forall (λ record,
            kept (total_amount record)
            ∧ Forall (λ item, kept (quantity item)) (default [] (items record)))
         records.

(** The entry of a report without its top products. *)
Definition report_core (report : SellerReport num)
  : string * string * num * num * nat * num :=
  (report_seller_id report, report_name report, report_revenue report,
   report_profit report, report_sales_count report, report_bonus report).
End Variants.

(** ** Inputs of the examples

    The examples are computed in the arithmetic without rounding; their
    numbers are small integers and one amount, 0.004, that only [toFixed]
    rounds. *)

(** The rational a number of the examples stands for. *)
Definition rational (a : exact) : option Q :=
  match a with
  | Fin q => Some (this q)
  | NotANumber => None
  end.

(** The report of a call that returned; no entries otherwise. *)
Definition reports_of (o : outcome (list (SellerReport exact)))
  : list (SellerReport exact) :=
  match o with
  | Returned reports => reports
  | _ => []
  end.

(** The accumulators of a loop that came to its end; none otherwise. *)
Definition stats_of (o : outcome (list (SellerStat exact)))
  : list (SellerStat exact) :=
  match o with
  | Returned stats => stats
  | _ => []
  end.

Definition item_20_off : Item exact :=
  {| item_sku := "SKU_001"; quantity := Some (lit 5 1);
     discount := Some (lit 20 1); sale_price := lit 30 1 |}.

Definition item_no_discount : Item exact :=
  {| item_sku := "SKU_001"; quantity := Some (lit 5 1);
     discount := None; sale_price := lit 30 1 |}.

Definition product_001 : Product exact :=
  {| sku := "SKU_001"; purchase_price := lit 10 1 |}.

Definition seller_profit_100 : SellerStat exact :=
  {| seller_id := "seller_1"; name := "Ann Lee"; revenue := lit 500 1;
     profit := lit 100 1; sales_count := 3; products_sold := [] |}.

Definition seller_1 : Seller :=
  {| id := "seller_1"; first_name := "Ann"; last_name := "Lee" |}.

Definition seller_2 : Seller :=
  {| id := "seller_2"; first_name := "Bob"; last_name := "Ray" |}.

(** A second seller under the identifier of [seller_1]. *)
Definition seller_1_again : Seller :=
  {| id := "seller_1"; first_name := "Ann"; last_name := "Roe" |}.

Definition seller_3 : Seller :=
  {| id := "seller_3"; first_name := "Cy"; last_name := "Poe" |}.

Definition seller_4 : Seller :=
  {| id := "seller_4"; first_name := "Di"; last_name := "Moe" |}.

Definition default_options : Options exact :=
  OptionsObject (Function Main.calculateSimpleRevenue)
                (Function Main.calculateBonusByProfit).

(** The default policies as the static methods of a class. *)
Definition policies_class : Options exact :=
  OptionsFunction (Function Main.calculateSimpleRevenue)
                  (Function Main.calculateBonusByProfit).

(** One seller and one receipt of 0.004 without items. *)
Definition data_small_amount : Data exact :=
  {| sellers := Some [seller_1];
     products := Some [product_001];
     purchase_records :=
       Some [ {| record_seller_id := "seller_1"; total_amount := Some (lit 4 1000);
                 items := Some [] |} ] |}.

(** Sellers only: no products, no purchase records. *)
Definition data_sellers_only : Data exact :=
  {| sellers := Some [seller_1; seller_2];
     products := None;
     purchase_records := None |}.

Definition item_unknown_sku : Item exact :=
  {| item_sku := "SKU_404"; quantity := Some (lit 1 1);
     discount := None; sale_price := lit 7 1 |}.

Definition item_known_sku : Item exact :=
  {| item_sku := "SKU_001"; quantity := Some (lit 5 1);
     discount := Some (lit 0 1); sale_price := lit 20 1 |}.

(** An item whose SKU is that of no product and names a method of
    [Object.prototype]. *)
Definition item_toString : Item exact :=
  {| item_sku := "toString"; quantity := Some (lit 1 1);
     discount := None; sale_price := lit 7 1 |}.

(** An item of a known product without a [quantity]. *)
Definition item_without_quantity : Item exact :=
  {| item_sku := "SKU_001"; quantity := None;
     discount := None; sale_price := lit 30 1 |}.

Definition record_seller_1 : PurchaseRecord exact :=
  {| record_seller_id := "seller_1"; total_amount := Some (lit 100 1);
     items := Some [item_unknown_sku; item_known_sku] |}.

Definition record_unknown_seller : PurchaseRecord exact :=
  {| record_seller_id := "seller_9"; total_amount := Some (lit 40 1);
     items := Some [item_20_off] |}.

(** A receipt whose seller identifier is that of no seller and names a
    method of [Object.prototype], with an item of a known product. *)
Definition record_toString : PurchaseRecord exact :=
  {| record_seller_id := "toString"; total_amount := Some (lit 40 1);
     items := Some [item_known_sku] |}.

(** A receipt of [seller_1] with one item, of the SKU "toString". *)
Definition record_item_toString : PurchaseRecord exact :=
  {| record_seller_id := "seller_1"; total_amount := Some (lit 7 1);
     items := Some [item_toString] |}.

(** A receipt of [seller_1] without an array of items. *)
Definition record_without_items : PurchaseRecord exact :=
  {| record_seller_id := "seller_1"; total_amount := Some (lit 10 1);
     items := None |}.

(** The example of the specification, with an item of an unknown product
    and a receipt of an unknown seller added. *)
Definition data_example : Data exact :=
  {| sellers := Some [seller_2; seller_1];
     products := Some [product_001];
     purchase_records := Some [record_seller_1; record_unknown_seller] |}.

(** [data_example] with the receipt of the seller "toString" in the place
    of the receipt of the unknown seller. *)
Definition data_seller_toString : Data exact :=
  {| sellers := Some [seller_2; seller_1];
     products := Some [product_001];
     purchase_records := Some [record_seller_1; record_toString] |}.

(** Two sellers with a receipt each; the item of the first receipt has no
    [quantity]. *)
Definition data_without_quantity : Data exact :=
  {| sellers := Some [seller_1; seller_2];
     products := Some [product_001];
     purchase_records :=
       Some [ {| record_seller_id := "seller_1"; total_amount := Some (lit 150 1);
                 items := Some [item_without_quantity] |};
              {| record_seller_id := "seller_2"; total_amount := Some (lit 100 1);
                 items := Some [item_known_sku] |} ] |}.


(** Two sellers, one product, and a receipt of the first seller without
    items. *)
Definition data_without_items : Data exact :=
  {| sellers := Some [seller_1; seller_2];
     products := Some [product_001];
     purchase_records := Some [record_without_items] |}.

(** Two sellers of one identifier and a receipt of that identifier. *)
Definition data_duplicate_ids : Data exact :=
  {| sellers := Some [seller_1; seller_1_again];
     products := Some [product_001];
     purchase_records := Some [record_seller_1] |}.

(** Four sellers, one of them with a receipt. *)
Definition data_four_sellers : Data exact :=
  {| sellers := Some [seller_1; seller_2; seller_3; seller_4];
     products := Some [product_001];
     purchase_records := Some [record_seller_1] |}.


(** The reports of main.js for these data under the default policies. *)
Definition example_reports : list (SellerReport exact) :=
  reports_of (Main.analyzeSalesData (Some data_example) default_options).

Definition example_stats : list (SellerStat exact) :=
  stats_of (aggregate_in main_js Main.calculateSimpleRevenue data_example
              [seller_2; seller_1]).

Definition without_quantity_reports : list (SellerReport exact) :=
  reports_of (Main.analyzeSalesData (Some data_without_quantity) default_options).

Definition small_amount_reports : list (SellerReport exact) :=
  reports_of (Main.analyzeSalesData (Some data_small_amount) default_options).


Definition duplicate_ids_reports : list (SellerReport exact) :=
  reports_of (Main.analyzeSalesData (Some data_duplicate_ids) default_options).

Definition four_sellers_reports : list (SellerReport exact) :=
  reports_of (Main.analyzeSalesData (Some data_four_sellers) default_options).


Definition sellers_only_reports : list (SellerReport exact) :=
  reports_of (Main.analyzeSalesData (Some data_sellers_only) default_options).

(** A second product under the SKU of [product_001]. *)
Definition product_001_dearer : Product exact :=
  {| sku := "SKU_001"; purchase_price := lit 12 1 |}.


(** ** The laws in the arithmetic without rounding *)

#[global] Instance exact_order : NumberOrder exact.
Proof.
  split.
  - intros [a|] [b|]; try done. intros _ _. cbn.
    apply bool_decide_ext. unfold Qcminus. symmetry. apply Qclt_minus_iff.
  - intros [a|] [b|]; try done. cbn. intros Hab%bool_decide_eq_true.
    apply bool_decide_eq_false. intros Hba.
    by destruct (irreflexivity Qclt a); trans b.
  - intros [a|] [b|] [c|]; try done. cbn. intros _ Hac%bool_decide_eq_true.
    destruct (decide (b < a)%Qc) as [Hba|Hba].
    + left. by apply bool_decide_eq_true.
    + right. apply bool_decide_eq_true. apply Qcnot_lt_le in Hba.
      by apply Qclt_le_trans with a.
Qed.

Lemma Qc_toFixed2_0 : Qc_toFixed2 0 = 0%Qc.
Proof. apply Qc_is_canon. reflexivity. Qed.

#[global] Instance exact_zero : NumberZero exact.
Proof.
  split; try done.
  - cbn. unfold lit. f_equal. apply Qc_toFixed2_0.
  - cbn. unfold lit. f_equal. by apply Qc_is_canon.
  - cbn. unfold lit. f_equal. by apply Qc_is_canon.
  - cbn. unfold lit. f_equal. by apply Qc_is_canon.
Qed.

(** * Properties *)

Section Properties.
Context {num : Type} `{!Number num}.

(** ** The two policies *)

Lemma calculateSimpleRevenue_variants (purchase : Item num)
    (product : product_arg num) :
  Part000.calculateSimpleRevenue purchase product
  = Main.calculateSimpleRevenue purchase product.
Proof. reflexivity. Qed.

Lemma calculateBonusByProfit_variants (index total : Z) (seller : SellerStat num) :
  Part000.calculateBonusByProfit index total seller
  = Main.calculateBonusByProfit index total seller.
Proof. reflexivity. Qed.

(** C4: [calculateSimpleRevenue] returns
    [sale_price * quantity * (1 - discount / 100)] when the item has a
    discount greater than 0 (the test [discount && discount > 0] of the
    source holds), and [sale_price * quantity] when the discount is absent,
    falsy or not greater than 0; in both variants of the source and in every
    arithmetic. *)
Theorem calculateSimpleRevenue_spec (purchase : Item num)
    (product : product_arg num) :
  (∀ d, discount purchase = Some d → truthy d = true → gt d n0 = true →
     Main.calculateSimpleRevenue purchase product
     = sale_price purchase * to_number (quantity purchase) * (n1 - d / n100))
  ∧ ((discount purchase = None
      ∨ ∃ d, discount purchase = Some d ∧ (truthy d = false ∨ gt d n0 = false)) →
     Main.calculateSimpleRevenue purchase product
     = sale_price purchase * to_number (quantity purchase))
  ∧ Part000.calculateSimpleRevenue purchase product
    = Main.calculateSimpleRevenue purchase product.
Proof.
  repeat split.
  - intros d Hd Htruthy Hpos. unfold Main.calculateSimpleRevenue.
    by rewrite Hd, Htruthy, Hpos.
  - intros [Hnone | (d & Hd & Hno)]; unfold Main.calculateSimpleRevenue.
    + by rewrite Hnone.
    + rewrite Hd. by destruct Hno as [-> | ->]; [|rewrite andb_false_r].
Qed.

(** C2: [calculateBonusByProfit] tests its conditions in the order
    index = 0 (15% of the profit), index < 3 (10%), index = total - 1 (0),
    otherwise 5%; with a single seller (total 1, index 0) the first rule
    applies and the bonus is 15% of the profit. *)
Theorem calculateBonusByProfit_order (index total : Z) (seller : SellerStat num) :
  (index = 0%Z →
     Main.calculateBonusByProfit index total seller = profit seller * n0_15)
  ∧ (index ≠ 0%Z → (index < 3)%Z →
     Main.calculateBonusByProfit index total seller = profit seller * n0_1)
  ∧ (¬ (index < 3)%Z → index = (total - 1)%Z →
     Main.calculateBonusByProfit index total seller = n0)
  ∧ (¬ (index < 3)%Z → index ≠ (total - 1)%Z →
     Main.calculateBonusByProfit index total seller = profit seller * n0_05)
  ∧ Main.calculateBonusByProfit 0 1 seller = profit seller * n0_15
  ∧ Part000.calculateBonusByProfit index total seller
    = Main.calculateBonusByProfit index total seller.
Proof.
  unfold Main.calculateBonusByProfit. repeat split.
  - intros ->. done.
  - intros H0 H3. by rewrite bool_decide_eq_false_2, bool_decide_eq_true_2.
  - intros H3 Hlast.
    rewrite (bool_decide_eq_false_2 (index = 0)%Z) by lia.
    by rewrite bool_decide_eq_false_2, bool_decide_eq_true_2.
  - intros H3 Hlast.
    rewrite (bool_decide_eq_false_2 (index = 0)%Z) by lia.
    by rewrite !bool_decide_eq_false_2.
Qed.

(** C3, as the code has it: at rank 1 or 2 the bonus is 10% of the profit
    whatever the number of sellers, also when that rank is the last one; the
    rule for the last seller gives 0 only from rank 3 on. *)
Theorem calculateBonusByProfit_middle_before_last
    (index total : Z) (seller : SellerStat num) :
  ((index = 1 ∨ index = 2)%Z →
     Main.calculateBonusByProfit index total seller = profit seller * n0_1
     ∧ Part000.calculateBonusByProfit index total seller = profit seller * n0_1)
  ∧ ((3 ≤ index)%Z → index = (total - 1)%Z →
     Main.calculateBonusByProfit index total seller = n0
     ∧ Part000.calculateBonusByProfit index total seller = n0).
Proof.
  unfold Part000.calculateBonusByProfit, Main.calculateBonusByProfit. split.
  - intros Hi.
    rewrite (bool_decide_eq_false_2 (index = 0)%Z) by lia.
    by rewrite bool_decide_eq_true_2 by lia.
  - intros Hi Hlast.
    rewrite (bool_decide_eq_false_2 (index = 0)%Z) by lia.
    rewrite (bool_decide_eq_false_2 (index < 3)%Z) by lia.
    by rewrite bool_decide_eq_true_2.
Qed.

(** ** The stable sort by a key, descending *)

Section SortByKey.
Context {A : Type} (key : A → num).

(** The comparators of the source have this shape: [(a, b) => b.key - a.key]. *)
Local Abbreviation cmp := (λ a b : A, key b - key a).

(** [a] may stand before [b] in the descending order of the key. *)
Local Abbreviation desc := (λ a b : A, ge (key a) (key b)).

Lemma sort_insert_perm (x : A) (l : list A) : sort_insert cmp x l ≡ₚ x :: l.
Proof.
  induction l as [|y l IH]; simpl; [done|].
  destruct (gt _ _); [|done]. rewrite IH. apply Permutation_swap.
Qed.

Lemma sort_by_perm (l : list A) : sort_by cmp l ≡ₚ l.
Proof.
  induction l as [|x l IH]; simpl; [done|].
  rewrite sort_insert_perm. by f_equiv.
Qed.

Lemma sort_by_length (l : list A) : length (sort_by cmp l) = length l.
Proof. apply Permutation_length, sort_by_perm. Qed.

Lemma sorted_adjacent (R : A → A → Prop) (l : list A) (i : nat) (a b : A) :
  StronglySorted R l → l !! i = Some a → l !! S i = Some b → R a b.
Proof.
  revert i. induction l as [|x l IH]; intros i Hs Ha Hb; [done|].
  apply StronglySorted_cons in Hs as [Hx Hl].
  destruct i as [|i]; simpl in *.
  - injection Ha as ->. rewrite Forall_forall in Hx. apply Hx.
    by eapply list_elem_of_lookup_2.
  - by eapply IH.
Qed.

Context `{!NumberOrder num}.

Lemma cmp_positive (x y : A) :
  is_NaN (key x) = false → is_NaN (key y) = false →
  gt (cmp x y) n0 = gt (key y) (key x).
Proof. apply gt_sub. Qed.

Lemma desc_trans (a b c : A) : desc a b → desc b c → desc a c.
Proof.
  intros (Ha & Hb & Hab) (_ & Hc & Hbc). split; [done|]. split; [done|].
  destruct (gt (key c) (key a)) eqn:Hca; [|done].
  destruct (gt_cotrans _ (key b) _ Hb Hca); congruence.
Qed.

Lemma sort_insert_sorted (x : A) (l : list A) :
  is_NaN (key x) = false → Forall (λ a, is_NaN (key a) = false) l →
  StronglySorted desc l → StronglySorted desc (sort_insert cmp x l).
Proof.
  intros Hx. induction l as [|y l IH]; simpl; intros Hnum Hs.
  { repeat constructor. }
  apply Forall_cons in Hnum as [Hy Hnum].
  apply StronglySorted_cons in Hs as [Hyl Hl].
  rewrite cmp_positive by done.
  destruct (gt (key y) (key x)) eqn:Hc.
  - apply StronglySorted_cons. split; [|by apply IH].
    rewrite sort_insert_perm. constructor; [|done].
    split; [done|]. split; [done|]. by apply gt_asym.
  - apply StronglySorted_cons. split; [|by apply StronglySorted_cons].
    constructor; [done|].
    eapply Forall_impl; [exact Hyl|]. intros z Hz.
    by apply (desc_trans x y z).
Qed.

Lemma sort_by_sorted (l : list A) :
  Forall (λ a, is_NaN (key a) = false) l → StronglySorted desc (sort_by cmp l).
Proof.
  induction 1 as [|x l Hx Hl IH]; simpl; [constructor|].
  apply sort_insert_sorted; [done| |done].
  by rewrite sort_by_perm.
Qed.

(** Stability: the elements of one key keep their order. *)
Lemma sort_insert_stable (v : num) (x : A) (l : list A) :
  is_NaN v = false →
  is_NaN (key x) = false → Forall (λ a, is_NaN (key a) = false) l →
  filter (λ a, same (key a) v) (sort_insert cmp x l)
  = filter (λ a, same (key a) v) (x :: l).
Proof.
  intros Hv Hx. induction l as [|y l IH]; simpl; intros Hnum; [done|].
  apply Forall_cons in Hnum as [Hy Hnum].
  rewrite cmp_positive by done.
  destruct (gt (key y) (key x)) eqn:Hc; [|done].
  rewrite (filter_cons _ y), IH, !filter_cons by done.
  destruct (decide (same (key y) v)) as [[Hyv Hvy]|Hyv],
    (decide (same (key x) v)) as [[Hxv Hvx]|Hxv]; try done.
  destruct (gt_cotrans _ v _ Hv Hc); congruence.
Qed.

Lemma sort_by_stable (v : num) (l : list A) :
  is_NaN v = false → Forall (λ a, is_NaN (key a) = false) l →
  filter (λ a, same (key a) v) (sort_by cmp l)
  = filter (λ a, same (key a) v) l.
Proof.
  intros Hv. induction 1 as [|x l Hx Hl IH]; simpl; [done|].
  rewrite sort_insert_stable, !filter_cons, IH; [done..|].
  by rewrite sort_by_perm.
Qed.

(** A list of elements of one key is left as it is. *)
Lemma sort_by_same (l : list A) :
  Forall (λ a, is_NaN (key a) = false) l →
  (∀ a b, a ∈ l → b ∈ l → gt (key a) (key b) = false) →
  sort_by cmp l = l.
Proof.
  induction 1 as [|x l Hx Hl IH]; intros Hsame; simpl; [done|].
  rewrite IH by (intros a b Ha Hb; apply Hsame; by right).
  destruct l as [|y l]; simpl; [done|].
  apply Forall_cons in Hl as [Hy _]. rewrite cmp_positive by done.
  rewrite Hsame; [done|right; by left|by left].
Qed.
End SortByKey.

(** ** The two dictionaries *)

Lemma js_get_Own {A : Type} (own : gmap string A) (k : string) (a : A) :
  js_get own k = Own a ↔ own !! k = Some a.
Proof.
  unfold js_get. destruct (own !! k) as [a'|].
  - split; by intros [= ->].
  - by case_decide.
Qed.

Lemma js_get_Missing {A : Type} (own : gmap string A) (k : string) :
  js_get own k = Missing ↔ own !! k = None ∧ plain_key k.
Proof.
  unfold js_get, plain_key. destruct (own !! k) as [a'|].
  - split; [done|by intros [? _]].
  - case_decide; split; try done. by intros [_ ?].
Qed.

Lemma js_get_Inherited {A : Type} (own : gmap string A) (k k' : string) :
  js_get own k = Inherited k'
  ↔ own !! k = None ∧ k ∈ Object_prototype_keys ∧ k' = k.
Proof.
  unfold js_get. destruct (own !! k) as [a'|].
  - split; [done|by intros [? _]].
  - case_decide; split; try done.
    + by intros [= <-].
    + by intros (_ & _ & ->).
    + by intros (_ & ? & _).
Qed.

Lemma makeSellerStats_zero (sellers_ : list Seller) :
  makeSellerStats sellers_ = (zero_stat (num := num)) <$> sellers_.
Proof. reflexivity. Qed.

Lemma makeSellerStats_ids (sellers_ : list Seller) :
  seller_id <$> makeSellerStats (num := num) sellers_ = id <$> sellers_.
Proof. unfold makeSellerStats. rewrite <-list_fmap_compose. done. Qed.

Lemma build_sellerIndex_snoc (stats : list (SellerStat num)) (s : SellerStat num) :
  build_sellerIndex (stats ++ [s])
  = <[seller_id s := length stats]> (build_sellerIndex stats).
Proof.
  unfold build_sellerIndex. rewrite imap_app, fold_left_app. simpl.
  by rewrite Nat.add_0_r.
Qed.

Lemma build_sellerIndex_Some (stats : list (SellerStat num)) (k : string) (p : nat) :
  build_sellerIndex stats !! k = Some p →
  ∃ s, stats !! p = Some s ∧ seller_id s = k.
Proof.
  induction stats as [|s stats IH] using rev_ind; [done|].
  rewrite build_sellerIndex_snoc, lookup_insert. case_decide as Hk.
  - intros [= <-]. exists s. split; [|done].
    by rewrite lookup_app_r, Nat.sub_diag.
  - intros Hp. destruct (IH Hp) as (s' & Hs' & Hid). exists s'. split; [|done].
    by apply lookup_app_l_Some.
Qed.

Lemma build_sellerIndex_None (stats : list (SellerStat num)) (k : string) :
  build_sellerIndex stats !! k = None ↔ k ∉ seller_id <$> stats.
Proof.
  induction stats as [|s stats IH] using rev_ind.
  { split; [intros _; apply not_elem_of_nil | done]. }
  rewrite build_sellerIndex_snoc, lookup_insert, fmap_app. cbn [fmap list_fmap].
  rewrite not_elem_of_app, list_elem_of_singleton. case_decide as Hk.
  - split; [done|]. intros [_ Hne]. by destruct Hne.
  - rewrite IH. split; [by intros ?; split | by intros [? _]].
Qed.

(** With several sellers of one identifier the dictionary refers to the last
    of them; with distinct identifiers, to the seller of that identifier. *)
Lemma build_sellerIndex_last (stats : list (SellerStat num)) (k : string)
    (p q : nat) (s : SellerStat num) :
  build_sellerIndex stats !! k = Some p →
  stats !! q = Some s → seller_id s = k → (q ≤ p)%nat.
Proof.
  induction stats as [|x stats IH] using rev_ind; [done|].
  rewrite build_sellerIndex_snoc, lookup_insert. intros Hp Hq Hk.
  case_decide as Hx.
  - injection Hp as <-. apply lookup_lt_Some in Hq.
    rewrite length_app in Hq. simpl in Hq. lia.
  - apply lookup_app_Some in Hq as [Hq|[Hlen Hq]]; [by apply IH|].
    destruct (q - length stats)%nat; [|done]. injection Hq as <-. congruence.
Qed.

Lemma build_sellerIndex_unique (stats : list (SellerStat num)) (p : nat)
    (s : SellerStat num) :
  NoDup (seller_id <$> stats) →
  stats !! p = Some s → build_sellerIndex stats !! seller_id s = Some p.
Proof.
  intros Hnodup Hp.
  destruct (build_sellerIndex stats !! seller_id s) as [q|] eqn:Hq.
  - destruct (build_sellerIndex_Some _ _ _ Hq) as (s' & Hs' & Hid).
    f_equal. apply (NoDup_lookup _ q p (seller_id s) Hnodup).
    + rewrite list_lookup_fmap, Hs'. simpl. by rewrite Hid.
    + by rewrite list_lookup_fmap, Hp.
  - apply build_sellerIndex_None in Hq. destruct Hq.
    apply list_elem_of_fmap. exists s. split; [done|].
    by eapply list_elem_of_lookup_2.
Qed.

Lemma build_productIndex_snoc (products_ : list (Product num))
    (product : Product num) :
  build_productIndex (products_ ++ [product])
  = <[sku product := product]> (build_productIndex products_).
Proof. unfold build_productIndex. by rewrite fold_left_app. Qed.

Lemma build_productIndex_None (products_ : list (Product num)) (k : string) :
  build_productIndex products_ !! k = None ↔ k ∉ sku <$> products_.
Proof.
  induction products_ as [|product products_ IH] using rev_ind.
  { split; [intros _; apply not_elem_of_nil | done]. }
  rewrite build_productIndex_snoc, lookup_insert, fmap_app. cbn [fmap list_fmap].
  rewrite not_elem_of_app, list_elem_of_singleton. case_decide as Hk.
  - split; [done|]. intros [_ Hne]. by destruct Hne.
  - rewrite IH. split; [by intros ?; split | by intros [? _]].
Qed.

Lemma data_productIndex_None (d : Data num) (k : string) :
  data_productIndex d !! k = None ↔ k ∉ sku <$> default [] (products d).
Proof.
  unfold data_productIndex. destruct (products d) as [ps|]; simpl.
  - apply build_productIndex_None.
  - rewrite lookup_empty. split; [intros _; apply not_elem_of_nil | done].
Qed.

(** The product lookup of an item gives an object exactly when the SKU is
    that of a product or names a property of [Object.prototype]. *)
Lemma product_of_is_Some (d : Data num) (item : Item num) :
  is_Some (product_of (data_productIndex d) (item_sku item))
  ↔ known_product (default [] (products d)) item
    ∨ stray_product (default [] (products d)) item.
Proof.
  unfold product_of, known_product, stray_product.
  pose proof (data_productIndex_None d (item_sku item)) as Hnone.
  unfold js_get.
  destruct (data_productIndex d !! item_sku item) as [product|].
  - split; [intros _|by eexists]. left.
    destruct (decide (item_sku item ∈ sku <$> default [] (products d)));
      [done|]. by apply Hnone in n.
  - apply proj1 in Hnone. specialize (Hnone eq_refl). case_decide.
    + split; [by right|by eexists].
    + split; [by intros [? ?]|]. by intros [?|[_ ?]].
Qed.


Lemma finds_product_true (d : Data num) (item : Item num) :
  finds_product (data_productIndex d) item = true
  ↔ known_product (default [] (products d)) item
    ∨ stray_product (default [] (products d)) item.
Proof.
  unfold finds_product. rewrite bool_decide_eq_true. apply product_of_is_Some.
Qed.

(** ** What a record does to the store *)

Section Store.
Context (v : Variant) (calculateRevenue : RevenuePolicy num).
Context (sellerIndex : gmap string nat) (productIndex : gmap string (Product num)).

Local Abbreviation process_item := (process_item_in v calculateRevenue productIndex).
Local Abbreviation after := (seller_after v calculateRevenue productIndex).
Local Abbreviation step := (store_after v calculateRevenue sellerIndex productIndex).

(** The body of the loop over the items, in both variants. *)
Lemma process_item_in_eq (seller : SellerStat num) (item : Item num) :
  process_item seller item
  = match product_of productIndex (item_sku item) with
    | None => seller
    | Some product =>
        {| seller_id := seller_id seller;
           name := name seller;
           revenue := revenue seller;
           profit :=
             profit_after_item v calculateRevenue productIndex (profit seller) item;
           sales_count := sales_count seller;
           products_sold :=
             add_sold (item_sku item) (quantity_in v (quantity item))
                      (products_sold seller) |}
    end.
Proof.
  unfold profit_after_item.
  destruct v; cbn [process_item_in]; unfold Main.process_item, Part000.process_item;
    by destruct (product_of productIndex (item_sku item)).
Qed.

Lemma process_items_header (its : list (Item num)) (seller : SellerStat num) :
  let seller' := fold_left process_item its seller in
  seller_id seller' = seller_id seller ∧ name seller' = name seller
  ∧ revenue seller' = revenue seller ∧ sales_count seller' = sales_count seller.
Proof.
  revert seller. induction its as [|item its IH]; intros seller; simpl; [done|].
  destruct (IH (process_item seller item)) as (-> & -> & -> & ->).
  rewrite process_item_in_eq.
  by destruct (product_of productIndex (item_sku item)).
Qed.

Lemma process_items_profit (its : list (Item num)) (seller : SellerStat num) :
  profit (fold_left process_item its seller)
  = fold_left (profit_after_item v calculateRevenue productIndex) its
              (profit seller).
Proof.
  revert seller. induction its as [|item its IH]; intros seller; [done|].
  cbn [fold_left]. rewrite IH. f_equal. rewrite process_item_in_eq.
  unfold profit_after_item.
  by destruct (product_of productIndex (item_sku item)).
Qed.

Lemma seller_after_header (record : PurchaseRecord num) (seller : SellerStat num) :
  let seller' := after record seller in
  seller_id seller' = seller_id seller ∧ name seller' = name seller
  ∧ revenue seller' = revenue seller + amount_in v (total_amount record)
  ∧ sales_count seller' = S (sales_count seller).
Proof.
  unfold seller_after.
  by edestruct process_items_header as (-> & -> & -> & ->).
Qed.

Lemma seller_after_profit (record : PurchaseRecord num) (seller : SellerStat num) :
  profit (after record seller)
  = fold_left (profit_after_item v calculateRevenue productIndex)
              (default [] (items record)) (profit seller).
Proof. unfold seller_after. by rewrite process_items_profit. Qed.

(** A record either throws, by [record_throws], or changes the store by
    [store_after]. *)
Lemma process_record_in_eq (stats : list (SellerStat num))
    (record : PurchaseRecord num) :
  (∀ k p, sellerIndex !! k = Some p → is_Some (stats !! p)) →
  process_record_in v calculateRevenue sellerIndex productIndex stats record
  = if record_throws v sellerIndex productIndex record then Threw TypeError
    else Returned (step stats record).
Proof.
  intros Hvalid. unfold record_throws, store_after, seller_after, js_get.
  destruct (sellerIndex !! record_seller_id record) as [p|] eqn:Hp.
  - destruct (Hvalid _ _ Hp) as [seller Hseller].
    destruct v; cbn [process_record_in requires_items amount_in process_item_in];
      unfold Main.process_record, Part000.process_record, js_get;
      rewrite Hp, Hseller; by destruct (items record).
  - destruct v; cbn [process_record_in requires_items];
      unfold Main.process_record, Part000.process_record, js_get;
      rewrite Hp; case_decide; try done;
      destruct (items record) as [its|]; try done;
      by destruct (existsb _ its).
Qed.

Lemma store_after_ids (stats : list (SellerStat num)) (record : PurchaseRecord num) :
  seller_id <$> step stats record = seller_id <$> stats
  ∧ name <$> step stats record = name <$> stats.
Proof.
  unfold store_after.
  destruct (sellerIndex !! _) as [p|]; [|done].
  destruct (stats !! p) as [seller|] eqn:Hp; [|done].
  destruct (seller_after_header record seller) as (Hid & Hname & _).
  rewrite !list_fmap_insert, Hid, Hname.
  split; apply list_insert_id; by rewrite list_lookup_fmap, Hp.
Qed.

Lemma store_after_all_ids (records : list (PurchaseRecord num))
    (stats : list (SellerStat num)) :
  seller_id <$> fold_left step records stats = seller_id <$> stats
  ∧ name <$> fold_left step records stats = name <$> stats.
Proof.
  revert stats. induction records as [|r rs IH]; intros stats; simpl; [done|].
  destruct (IH (step stats r)) as [-> ->].
  apply store_after_ids.
Qed.

Lemma store_after_length (stats : list (SellerStat num))
    (record : PurchaseRecord num) :
  length (step stats record) = length stats.
Proof.
  rewrite <-(length_fmap seller_id), (proj1 (store_after_ids _ _)).
  apply length_fmap.
Qed.

(** The loop over the records: a TypeError when some record throws, and
    otherwise the store after every record. *)
Lemma forEach_records (records : list (PurchaseRecord num))
    (stats : list (SellerStat num)) :
  (∀ k p, sellerIndex !! k = Some p → is_Some (stats !! p)) →
  forEach (process_record_in v calculateRevenue sellerIndex productIndex)
          records stats
  = if existsb (record_throws v sellerIndex productIndex) records
    then Threw TypeError
    else Returned (fold_left step records stats).
Proof.
  revert stats. induction records as [|r rs IH]; intros stats Hvalid; [done|].
  cbn [forEach existsb fold_left]. rewrite process_record_in_eq by done.
  destruct (record_throws v sellerIndex productIndex r); [done|].
  cbn [mbind outcome_bind orb]. apply IH.
  intros k p Hk. apply lookup_lt_is_Some. rewrite store_after_length.
  apply lookup_lt_is_Some. by eapply Hvalid.
Qed.

(** The accumulator at a position after a record: the one before, changed
    when the record is referred to the position. *)
Lemma store_after_at (stats : list (SellerStat num)) (record : PurchaseRecord num)
    (q : nat) (seller' : SellerStat num) :
  step stats record !! q = Some seller' →
  ∃ seller, stats !! q = Some seller
    ∧ seller' = if decide (sellerIndex !! record_seller_id record = Some q)
                then after record seller else seller.
Proof.
  unfold store_after.
  destruct (sellerIndex !! record_seller_id record) as [p|] eqn:Hp.
  2: { intros Hq. exists seller'. by rewrite decide_False. }
  destruct (stats !! p) as [seller|] eqn:Hseller.
  2: { intros Hq. exists seller'. split; [done|]. case_decide; [|done].
       congruence. }
  destruct (decide (p = q)) as [->|Hne].
  - rewrite list_lookup_insert_eq by by eapply lookup_lt_Some.
    intros [= <-]. exists seller. by rewrite decide_True.
  - rewrite list_lookup_insert_ne by done. intros Hq. exists seller'.
    split; [done|]. rewrite decide_False; [done|]. congruence.
Qed.

Lemma store_after_all_at (records : list (PurchaseRecord num))
    (stats : list (SellerStat num)) (q : nat) (seller' : SellerStat num) :
  fold_left step records stats !! q = Some seller' →
  ∃ seller, stats !! q = Some seller
    ∧ seller'
      = fold_left (λ s r, after r s)
          (filter (λ r, sellerIndex !! record_seller_id r = Some q) records)
          seller.
Proof.
  revert stats. induction records as [|r rs IH]; intros stats Hq.
  { by exists seller'. }
  cbn [fold_left] in Hq. apply IH in Hq as (s1 & Hs1 & ->).
  apply store_after_at in Hs1 as (s0 & Hs0 & ->).
  exists s0. split; [done|]. rewrite filter_cons.
  by destruct (decide (sellerIndex !! record_seller_id r = Some q)).
Qed.

(** The counters of an accumulator after a list of its records. *)
Lemma after_records (records : list (PurchaseRecord num)) (seller : SellerStat num) :
  let seller' := fold_left (λ s r, after r s) records seller in
  seller_id seller' = seller_id seller
  ∧ name seller' = name seller
  ∧ sales_count seller' = (sales_count seller + length records)%nat
  ∧ revenue seller'
    = fold_left (λ x record, x + amount_in v (total_amount record)) records
                (revenue seller)
  ∧ profit seller'
    = fold_left (λ x record,
                   fold_left (profit_after_item v calculateRevenue productIndex)
                             (default [] (items record)) x)
                records (profit seller).
Proof.
  revert seller. induction records as [|r rs IH]; intros seller.
  { cbn [fold_left length]. repeat split. lia. }
  cbn [fold_left]. destruct (IH (after r seller)) as (-> & -> & -> & -> & ->).
  destruct (seller_after_header r seller) as (-> & -> & -> & ->).
  rewrite seller_after_profit. cbn [length]. repeat split. lia.
Qed.
End Store.

(** ** The loop over the records of the data *)

Lemma sellerIndex_valid (sellers_ : list Seller) (k : string) (p : nat) :
  build_sellerIndex (makeSellerStats (num := num) sellers_) !! k = Some p →
  is_Some (makeSellerStats (num := num) sellers_ !! p).
Proof. intros Hp. apply build_sellerIndex_Some in Hp as (s & -> & _). by eexists. Qed.

Lemma aggregate_in_eq (v : Variant) (calculateRevenue : RevenuePolicy num)
    (d : Data num) (sellers_ : list Seller) :
  let sellerIndex := build_sellerIndex (makeSellerStats sellers_) in
  aggregate_in v calculateRevenue d sellers_
  = if existsb (record_throws v sellerIndex (data_productIndex d))
               (default [] (purchase_records d))
    then Threw TypeError
    else Returned
           (fold_left (store_after v calculateRevenue sellerIndex
                         (data_productIndex d))
                      (default [] (purchase_records d))
                      (makeSellerStats sellers_)).
Proof. apply forEach_records, sellerIndex_valid. Qed.

Lemma Main_aggregate_in (calculateRevenue : RevenuePolicy num) (d : Data num)
    (sellers_ : list Seller) :
  Main.aggregate calculateRevenue d sellers_
  = aggregate_in main_js calculateRevenue d sellers_.
Proof.
  unfold Main.aggregate, aggregate_in. fold (data_productIndex d).
  by destruct (purchase_records d).
Qed.

Lemma Part000_aggregate_in (calculateRevenue : RevenuePolicy num) (d : Data num)
    (sellers_ : list Seller) (products_ : list (Product num))
    (records : list (PurchaseRecord num)) :
  products d = Some products_ → purchase_records d = Some records →
  Part000.aggregate calculateRevenue sellers_ products_ records
  = aggregate_in part_000 calculateRevenue d sellers_.
Proof.
  intros Hp Hr. unfold Part000.aggregate, aggregate_in, data_productIndex.
  by rewrite Hp, Hr.
Qed.

(** A call that returns a report: the data and the options passed the
    validation, no record threw, and the report is made of the accumulators
    sorted by profit. *)
Lemma analyze_returned (v : Variant) (data : option (Data num))
    (options : Options num) (reports : list (SellerReport num)) :
  analyzeSalesData_in v data options = Returned reports →
  ∃ d s ss calculateRevenue calculateBonus stats,
    data = Some d ∧ sellers d = Some (s :: ss)
    ∧ options = OptionsObject (Function calculateRevenue) (Function calculateBonus)
    ∧ aggregate_in v calculateRevenue d (s :: ss) = Returned stats
    ∧ reports = to_report <$> rank calculateBonus (sort_by by_profit stats).
Proof.
  intros H. destruct data as [d|]; [|by destruct v].
  destruct v; cbn [analyzeSalesData_in] in H.
  - unfold Main.analyzeSalesData in H.
    destruct (sellers d) as [[|s ss]|] eqn:Es; try done.
    destruct options as [| |r0 b0|[| |r] [| |b]]; try done.
    case_decide; [done|]. rewrite Main_aggregate_in in H.
    destruct (aggregate_in main_js r d (s :: ss)) as [stats| |] eqn:Hstats;
      try done.
    injection H as <-. by exists d, s, ss, r, b, stats.
  - unfold Part000.analyzeSalesData in H.
    destruct (sellers d) as [[|s ss]|] eqn:Es; try done.
    destruct (products d) as [[|p ps]|] eqn:Ep; try done.
    destruct (purchase_records d) as [[|r0 rs]|] eqn:Er; try done.
    destruct options as [| |r1 b0|[| |r] [| |b]]; try done.
    case_decide; [done|].
    rewrite (Part000_aggregate_in _ d) in H by done.
    destruct (aggregate_in part_000 r d (s :: ss)) as [stats| |] eqn:Hstats;
      try done.
    injection H as <-. by exists d, s, ss, r, b, stats.
Qed.

(** A report returned by one of the two variants. *)
Lemma returned_by_either (data : option (Data num)) (options : Options num)
    (reports : list (SellerReport num)) :
  Main.analyzeSalesData data options = Returned reports
  ∨ Part000.analyzeSalesData data options = Returned reports →
  ∃ v, analyzeSalesData_in v data options = Returned reports.
Proof. intros [H|H]; [by exists main_js|by exists part_000]. Qed.

Lemma aggregate_returned (v : Variant) (calculateRevenue : RevenuePolicy num)
    (d : Data num) (sellers_ : list Seller) (stats : list (SellerStat num)) :
  aggregate_in v calculateRevenue d sellers_ = Returned stats →
  stats = fold_left (store_after v calculateRevenue
                       (build_sellerIndex (makeSellerStats sellers_))
                       (data_productIndex d))
                    (default [] (purchase_records d))
                    (makeSellerStats sellers_)
  ∧ existsb (record_throws v (build_sellerIndex (makeSellerStats sellers_))
               (data_productIndex d))
            (default [] (purchase_records d)) = false.
Proof.
  rewrite aggregate_in_eq. cbv zeta.
  destruct (existsb _ _); [done|]. by intros [= <-].
Qed.

Lemma aggregate_ids (v : Variant) (calculateRevenue : RevenuePolicy num)
    (d : Data num) (sellers_ : list Seller) (stats : list (SellerStat num)) :
  aggregate_in v calculateRevenue d sellers_ = Returned stats →
  seller_id <$> stats = id <$> sellers_.
Proof.
  intros [-> _]%aggregate_returned.
  rewrite (proj1 (store_after_all_ids _ _ _ _ _ _)). apply makeSellerStats_ids.
Qed.

Lemma aggregate_length (v : Variant) (calculateRevenue : RevenuePolicy num)
    (d : Data num) (sellers_ : list Seller) (stats : list (SellerStat num)) :
  aggregate_in v calculateRevenue d sellers_ = Returned stats →
  length stats = length sellers_.
Proof.
  intros Hstats%aggregate_ids.
  by rewrite <-(length_fmap seller_id), Hstats, length_fmap.
Qed.

(** The accumulator at a position is the one the seller at that position
    starts with, after the records referred to the position, in their
    order. *)
Lemma aggregate_at (v : Variant) (calculateRevenue : RevenuePolicy num)
    (d : Data num) (sellers_ : list Seller) (stats : list (SellerStat num))
    (p : nat) (acc : SellerStat num) :
  aggregate_in v calculateRevenue d sellers_ = Returned stats →
  stats !! p = Some acc →
  ∃ seller, sellers_ !! p = Some seller
    ∧ acc = fold_left
              (λ s r, seller_after v calculateRevenue (data_productIndex d) r s)
              (attributed sellers_ p (default [] (purchase_records d)))
              (zero_stat seller).
Proof.
  intros [-> _]%aggregate_returned Hp.
  apply store_after_all_at in Hp as (acc0 & Hacc0 & ->).
  rewrite makeSellerStats_zero, list_lookup_fmap in Hacc0.
  destruct (sellers_ !! p) as [seller|]; [|done].
  injection Hacc0 as <-. by exists seller.
Qed.

Lemma aggregate_identity (v : Variant) (calculateRevenue : RevenuePolicy num)
    (d : Data num) (sellers_ : list Seller) (stats : list (SellerStat num)) :
  aggregate_in v calculateRevenue d sellers_ = Returned stats →
  (λ acc, (seller_id acc, name acc)) <$> stats
  = (λ s, (id s, first_name s +:+ " " +:+ last_name s)) <$> sellers_.
Proof.
  intros Hstats. apply list_eq. intros p. rewrite !list_lookup_fmap.
  destruct (stats !! p) as [acc|] eqn:Hacc.
  - destruct (aggregate_at _ _ _ _ _ _ _ Hstats Hacc) as (seller & -> & ->).
    edestruct after_records as (Hid & Hname & _).
    cbn [fmap option_fmap option_map]. by rewrite Hid, Hname.
  - apply lookup_ge_None in Hacc.
    rewrite (aggregate_length _ _ _ _ _ Hstats) in Hacc.
    apply lookup_ge_None in Hacc. by rewrite Hacc.
Qed.

(** With distinct identifiers the records of a position are the records that
    carry the identifier of the seller at that position. *)
Lemma attributed_distinct (sellers_ : list Seller) (p : nat) (seller : Seller)
    (records : list (PurchaseRecord num)) :
  NoDup (id <$> sellers_) → sellers_ !! p = Some seller →
  attributed sellers_ p records = records_of (id seller) records.
Proof.
  intros Hnodup Hp. unfold attributed, records_of.
  assert (makeSellerStats sellers_ !! p = Some (zero_stat (num := num) seller))
    as Hacc.
  { by rewrite makeSellerStats_zero, list_lookup_fmap, Hp. }
  rewrite <-(makeSellerStats_ids (sellers_)) in Hnodup.
  induction records as [|r rs IH]; [done|].
  rewrite !filter_cons, IH.
  destruct (decide (record_seller_id r = id seller)) as [Hr|Hr].
  - rewrite decide_True; [done|]. rewrite Hr.
    apply (build_sellerIndex_unique _ _ _ Hnodup Hacc).
  - rewrite decide_False; [done|]. intros Hlookup.
    apply build_sellerIndex_Some in Hlookup as (acc & Hacc' & Hid).
    rewrite Hacc in Hacc'. injection Hacc' as <-. by destruct Hr.
Qed.

(** *** The ranking pass and the report *)

Lemma rank_stats (calculateBonus : BonusPolicy num) (sorted : list (SellerStat num)) :
  stat <$> rank calculateBonus sorted = sorted.
Proof.
  unfold rank. generalize (Z.of_nat (length sorted)). intros total.
  apply list_eq. intros i. rewrite list_lookup_fmap, list_lookup_imap.
  by destruct (sorted !! i).
Qed.

Lemma rank_lookup (calculateBonus : BonusPolicy num) (sorted : list (SellerStat num))
    (i : nat) (report : SellerReport num) :
  (to_report <$> rank calculateBonus sorted) !! i = Some report →
  ∃ seller, sorted !! i = Some seller
    ∧ report
      = to_report
          {| stat := seller;
             bonus := calculateBonus (Z.of_nat i) (Z.of_nat (length sorted)) seller;
             top_products := top_products_of seller |}.
Proof.
  unfold rank. rewrite list_lookup_fmap, list_lookup_imap.
  destruct (sorted !! i) as [seller|]; [|done].
  intros [= <-]. by exists seller.
Qed.

(** Every entry of a returned report is the report of the accumulator of one
    seller of the input, ranked at the entry's position. *)
Lemma report_accumulator (v : Variant) (data : option (Data num))
    (options : Options num) (reports : list (SellerReport num)) :
  analyzeSalesData_in v data options = Returned reports →
  ∃ d s ss calculateRevenue calculateBonus stats,
    data = Some d ∧ sellers d = Some (s :: ss)
    ∧ options = OptionsObject (Function calculateRevenue) (Function calculateBonus)
    ∧ aggregate_in v calculateRevenue d (s :: ss) = Returned stats
    ∧ ∀ i report, reports !! i = Some report →
      ∃ p seller acc,
        (s :: ss) !! p = Some seller
        ∧ stats !! p = Some acc
        ∧ report
          = to_report
              {| stat := acc;
                 bonus := calculateBonus (Z.of_nat i)
                            (Z.of_nat (length (s :: ss))) acc;
                 top_products := top_products_of acc |}.
Proof.
  intros H.
  apply analyze_returned in H as (d & s & ss & r & b & stats & -> & Es & -> & Hstats & ->).
  exists d, s, ss, r, b, stats. do 4 (split; [done|]).
  intros i report Hi. apply rank_lookup in Hi as (acc & Hacc & ->).
  assert (acc ∈ stats) as Hin.
  { rewrite <-(sort_by_perm profit). by eapply list_elem_of_lookup_2. }
  apply list_elem_of_lookup in Hin as [p Hp].
  destruct (aggregate_at _ _ _ _ _ _ _ Hstats Hp) as (seller & Hseller & _).
  exists p, seller, acc. split; [done|]. split; [done|].
  by rewrite (sort_by_length profit), (aggregate_length _ _ _ _ _ Hstats).
Qed.

(** ** The order of the report *)

(** C1, as the code has it: in a report that [analyzeSalesData] returns, in
    either variant, the sellers are the accumulators sorted by the comparator
    [b.profit - a.profit].  When no accumulated profit is NaN, they stand in
    descending order of the profit accumulated before rounding (each one's
    [>=] the next one's), and the sellers of one accumulated profit stand in
    the order they have in [data.sellers]. *)
Theorem report_sorted_by_profit `{!NumberOrder num}
    (v : Variant) (data : option (Data num))
    (calculateRevenue : RevenuePolicy num) (calculateBonus : BonusPolicy num)
    (reports : list (SellerReport num)) :
  analyzeSalesData_in v data
    (OptionsObject (Function calculateRevenue) (Function calculateBonus))
  = Returned reports →
  ∃ d sellers_ (stats sorted : list (SellerStat num)),
    data = Some d ∧ sellers d = Some sellers_
    ∧ aggregate_in v calculateRevenue d sellers_ = Returned stats
    ∧ seller_id <$> stats = id <$> sellers_
    ∧ sorted ≡ₚ stats
    ∧ report_seller_id <$> reports = seller_id <$> sorted
    ∧ report_profit <$> reports = (toFixed2 ∘ profit) <$> sorted
    ∧ (Forall (λ acc, is_NaN (profit acc) = false) stats →
       (∀ i a b, sorted !! i = Some a → sorted !! S i = Some b →
          ge (profit a) (profit b))
       ∧ (∀ x, is_NaN x = false →
            filter (λ s, same (profit s) x) sorted
            = filter (λ s, same (profit s) x) stats)).
Proof.
  intros H.
  apply analyze_returned in H
    as (d & s & ss & r & b & stats & -> & Es & [= <- <-] & Hstats & ->).
  exists d, (s :: ss), stats, (sort_by by_profit stats).
  split; [done|]. split; [done|]. split; [done|].
  split; [by eapply aggregate_ids|].
  split; [apply (sort_by_perm profit)|].
  split.
  { rewrite <-(rank_stats calculateBonus (sort_by _ _)) at 2.
    by rewrite <-!list_fmap_compose. }
  split.
  { rewrite <-(rank_stats calculateBonus (sort_by _ _)) at 2.
    by rewrite <-!list_fmap_compose. }
  intros Hnum. split.
  - intros i a b0. apply (sorted_adjacent (λ a b, ge (profit a) (profit b))).
    by apply (sort_by_sorted profit).
  - intros x Hx. by apply (sort_by_stable profit).
Qed.

(** ** Validation *)

Lemma not_data_accepted_cases (data : option (Data num)) :
  ¬ data_accepted data →
  data = None ∨ ∃ d, data = Some d ∧ (sellers d = None ∨ sellers d = Some []).
Proof.
  intros Hn. destruct data as [d|]; [|by left]. right. exists d. split; [done|].
  destruct (sellers d) as [[|s ss]|] eqn:E; [by right| |by left].
  destruct Hn. by exists d, s, ss.
Qed.

Lemma Main_rejects_data (data : option (Data num)) (options : Options num) :
  ¬ data_accepted data → Main.analyzeSalesData data options = Threw InvalidInput.
Proof.
  intros Hn. apply not_data_accepted_cases in Hn as [->|(d & -> & [E|E])];
    [done|..]; unfold Main.analyzeSalesData; by rewrite E.
Qed.

Lemma Main_rejects_options (data : option (Data num)) (options : Options num) :
  data_accepted data → ¬ options_accepted options →
  Main.analyzeSalesData data options = Threw InvalidOptions.
Proof.
  intros (d & s & ss & -> & E) Hn. unfold Main.analyzeSalesData. rewrite E.
  destruct options as [| |r0 b0|[| |r] [| |b]]; try done.
  destruct Hn. by exists r, b.
Qed.

(** The outcome of main.js on accepted data and options. *)
Lemma Main_outcome (d : Data num) (s : Seller) (ss : list Seller)
    (calculateRevenue : RevenuePolicy num) (calculateBonus : BonusPolicy num) :
  sellers d = Some (s :: ss) →
  Main.analyzeSalesData (Some d)
    (OptionsObject (Function calculateRevenue) (Function calculateBonus))
  = if decide (rewires_prototype d) then Unrepresented
    else
      stats ← aggregate_in main_js calculateRevenue d (s :: ss);
      Returned (to_report <$> rank calculateBonus (sort_by by_profit stats)).
Proof.
  intros Hs. unfold Main.analyzeSalesData. rewrite Hs.
  case_decide; [done|]. by rewrite Main_aggregate_in.
Qed.

(** The outcome of part_000 on data and options that pass its validation. *)
Lemma Part000_outcome (d : Data num) (s : Seller) (ss : list Seller)
    (p : Product num) (ps : list (Product num))
    (r : PurchaseRecord num) (rs : list (PurchaseRecord num))
    (calculateRevenue : RevenuePolicy num) (calculateBonus : BonusPolicy num) :
  sellers d = Some (s :: ss) → products d = Some (p :: ps) →
  purchase_records d = Some (r :: rs) →
  Part000.analyzeSalesData (Some d)
    (OptionsObject (Function calculateRevenue) (Function calculateBonus))
  = if decide (rewires_prototype d) then Unrepresented
    else
      stats ← aggregate_in part_000 calculateRevenue d (s :: ss);
      Returned (to_report <$> rank calculateBonus (sort_by by_profit stats)).
Proof.
  intros Hs Hp Hr. unfold Part000.analyzeSalesData. rewrite Hs, Hp, Hr.
  case_decide; [done|]. by rewrite (Part000_aggregate_in _ d).
Qed.

(** *** The records that throw *)

Lemma js_get_sellerIndex (sellers_ : list Seller) (record : PurchaseRecord num) :
  match js_get (build_sellerIndex (makeSellerStats (num := num) sellers_))
               (record_seller_id record) with
  | Own _ => known_seller sellers_ record
  | Inherited _ => stray_seller sellers_ record
  | Missing => ¬ known_seller sellers_ record ∧ ¬ stray_seller sellers_ record
  end.
Proof.
  unfold js_get, known_seller, stray_seller.
  pose proof (build_sellerIndex_None (makeSellerStats (num := num) sellers_)
                (record_seller_id record)) as Hnone.
  rewrite makeSellerStats_ids in Hnone.
  destruct (build_sellerIndex _ !! record_seller_id record) as [p|].
  - destruct (decide (record_seller_id record ∈ id <$> sellers_)); [done|].
    by apply Hnone in n.
  - apply proj1 in Hnone. specialize (Hnone eq_refl).
    case_decide; [done|]. split; [done|]. by intros [_ ?].
Qed.

Lemma existsb_Exists_iff {X : Type} (f : X → bool) (P : X → Prop) (l : list X) :
  (∀ x, f x = true ↔ P x) → existsb f l = true ↔ Exists P l.
Proof.
  intros Hf. induction l as [|x l IH]; cbn [existsb].
  { split; [done|]. by intros ?%Exists_nil. }
  rewrite Exists_cons, orb_true_iff, IH, Hf. done.
Qed.

Lemma existsb_finds_product (d : Data num) (its : list (Item num)) :
  existsb (finds_product (data_productIndex d)) its = true
  ↔ Exists (λ item, known_product (default [] (products d)) item
                    ∨ stray_product (default [] (products d)) item) its.
Proof. apply existsb_Exists_iff. intros item. apply finds_product_true. Qed.

Lemma Main_record_throws (d : Data num) (sellers_ : list Seller)
    (record : PurchaseRecord num) :
  record_throws main_js (build_sellerIndex (makeSellerStats sellers_))
                (data_productIndex d) record = true
  ↔ Main_record_fails sellers_ (default [] (products d)) record.
Proof.
  unfold record_throws, Main_record_fails, reaches_products_sold.
  pose proof (js_get_sellerIndex sellers_ record) as Hseller.
  destruct (js_get _ (record_seller_id record)) as [p|k|].
  - split; [by destruct (items record)|]. intros [[Hstray _] _]. done.
  - destruct (items record) as [its|]; cbn [requires_items default].
    + rewrite existsb_finds_product. split; [done|by intros [_ ?]].
    + split; [done|]. intros [_ Hex]. by apply Exists_nil in Hex.
  - split; [done|]. intros [? _]. by destruct Hseller.
Qed.

Lemma Part000_record_throws (d : Data num) (sellers_ : list Seller)
    (record : PurchaseRecord num) :
  record_throws part_000 (build_sellerIndex (makeSellerStats sellers_))
                (data_productIndex d) record = true
  ↔ Part000_record_fails sellers_ (default [] (products d)) record.
Proof.
  unfold record_throws, Part000_record_fails, Main_record_fails,
    reaches_products_sold.
  pose proof (js_get_sellerIndex sellers_ record) as Hseller.
  destruct (js_get _ (record_seller_id record)) as [p|k|].
  - destruct (items record) as [its|]; cbn [requires_items].
    + split; [done|]. intros [[_ ?]|[[Hstray _] _]]; [done|]. by destruct Hstray.
    + split; [|done]. intros _. left. split; [by left|done].
  - destruct (items record) as [its|]; cbn [requires_items default].
    + rewrite existsb_finds_product. split; [by right|].
      by intros [[_ ?]|[_ ?]].
    + split; [|done]. intros _. left. split; [by right|done].
  - split; [by destruct (items record)|].
    destruct Hseller as [Hk Hs]. by intros [[[?|?] _]|[? _]].
Qed.

(** main.js throws a TypeError in the loop over the records exactly when
    some record fails, and returns the accumulators otherwise. *)
Lemma Main_aggregate_outcome (calculateRevenue : RevenuePolicy num)
    (d : Data num) (sellers_ : list Seller) :
  (Exists (Main_record_fails sellers_ (default [] (products d)))
          (default [] (purchase_records d)) →
   aggregate_in main_js calculateRevenue d sellers_ = Threw TypeError)
  ∧ (¬ Exists (Main_record_fails sellers_ (default [] (products d)))
              (default [] (purchase_records d)) →
     ∃ stats, aggregate_in main_js calculateRevenue d sellers_ = Returned stats).
Proof.
  rewrite aggregate_in_eq. cbv zeta.
  rewrite <-(existsb_Exists_iff _ _ _ (Main_record_throws d sellers_)).
  destruct (existsb _ _); split; try done. by eexists.
Qed.

Lemma Part000_aggregate_outcome (calculateRevenue : RevenuePolicy num)
    (d : Data num) (sellers_ : list Seller) :
  (Exists (Part000_record_fails sellers_ (default [] (products d)))
          (default [] (purchase_records d)) →
   aggregate_in part_000 calculateRevenue d sellers_ = Threw TypeError)
  ∧ (¬ Exists (Part000_record_fails sellers_ (default [] (products d)))
              (default [] (purchase_records d)) →
     ∃ stats, aggregate_in part_000 calculateRevenue d sellers_ = Returned stats).
Proof.
  rewrite aggregate_in_eq. cbv zeta.
  rewrite <-(existsb_Exists_iff _ _ _ (Part000_record_throws d sellers_)).
  destruct (existsb _ _); split; try done. by eexists.
Qed.

Lemma aggregate_throws (v : Variant) (calculateRevenue : RevenuePolicy num)
    (d : Data num) (sellers_ : list Seller) (e : Error) :
  aggregate_in v calculateRevenue d sellers_ = Threw e → e = TypeError.
Proof.
  rewrite aggregate_in_eq. cbv zeta. destruct (existsb _ _); [|done].
  by intros [= <-].
Qed.

Lemma aggregate_represented (v : Variant) (calculateRevenue : RevenuePolicy num)
    (d : Data num) (sellers_ : list Seller) :
  aggregate_in v calculateRevenue d sellers_ ≠ Unrepresented.
Proof. rewrite aggregate_in_eq. cbv zeta. by destruct (existsb _ _). Qed.

Lemma data_accepted_dec (data : option (Data num)) :
  data_accepted data ∨ ¬ data_accepted data.
Proof.
  destruct data as [d|]; [|right; by intros (? & ? & ? & ? & ?)].
  destruct (sellers d) as [[|s ss]|] eqn:Hs.
  - right. intros (? & ? & ? & [= <-] & ?). congruence.
  - left. by exists d, s, ss.
  - right. intros (? & ? & ? & [= <-] & ?). congruence.
Qed.

Lemma options_accepted_dec (options : Options num) :
  options_accepted options ∨ ¬ options_accepted options.
Proof.
  destruct options as [| |r0 b0|[| |r] [| |b]];
    try (right; by intros (? & ? & ?)).
  left. by exists r, b.
Qed.

(** The outcomes of main.js. *)
Lemma Main_cases (data : option (Data num)) (options : Options num) :
  (¬ data_accepted data ∧ Main.analyzeSalesData data options = Threw InvalidInput)
  ∨ (data_accepted data ∧ ¬ options_accepted options
     ∧ Main.analyzeSalesData data options = Threw InvalidOptions)
  ∨ ∃ d s ss r b,
      data = Some d ∧ sellers d = Some (s :: ss)
      ∧ options = OptionsObject (Function r) (Function b)
      ∧ let fails :=
          Exists (Main_record_fails (s :: ss) (default [] (products d)))
                 (default [] (purchase_records d)) in
        (rewires_prototype d
         ∧ Main.analyzeSalesData data options = Unrepresented)
        ∨ (¬ rewires_prototype d ∧ fails
           ∧ Main.analyzeSalesData data options = Threw TypeError)
        ∨ (¬ rewires_prototype d ∧ ¬ fails
           ∧ ∃ stats, aggregate_in main_js r d (s :: ss) = Returned stats
               ∧ Main.analyzeSalesData data options
                 = Returned (to_report <$> rank b (sort_by by_profit stats))).
Proof.
  destruct (data_accepted_dec data) as [Hd|Hd];
    [|left; split; [done|by apply Main_rejects_data]].
  destruct (options_accepted_dec options) as [Ho|Ho];
    [|right; left; split; [done|]; split; [done|];
      by apply Main_rejects_options].
  right. right. destruct Hd as (d & s & ss & -> & Hs), Ho as (r & b & ->).
  exists d, s, ss, r, b. do 3 (split; [done|]). cbv zeta.
  rewrite (Main_outcome _ _ _ _ _ Hs).
  destruct (decide (rewires_prototype d)) as [Hrep|Hrep]; [by left|right].
  destruct (decide (Exists (Main_record_fails (s :: ss) (default [] (products d)))
                      (default [] (purchase_records d)))) as [Hex|Hex].
  - left. do 2 (split; [done|]).
    by rewrite (proj1 (Main_aggregate_outcome r d (s :: ss)) Hex).
  - right. do 2 (split; [done|]).
    destruct (proj2 (Main_aggregate_outcome r d (s :: ss)) Hex) as [stats Hstats].
    exists stats. by rewrite Hstats.
Qed.

Lemma strict_data_accepted_dec (data : option (Data num)) :
  strict_data_accepted data ∨ ¬ strict_data_accepted data.
Proof.
  destruct data as [d|]; [|right; by intros (? & ? & ? & ? & ? & ? & ? & ? & ?)].
  destruct (sellers d) as [[|s ss]|] eqn:Hs;
    try (right; intros (? & ? & ? & ? & ? & ? & ? & [= <-] & ? & ?); congruence).
  destruct (products d) as [[|p ps]|] eqn:Hp;
    try (right; intros (? & ? & ? & ? & ? & ? & ? & [= <-] & ? & ? & ?);
         congruence).
  destruct (purchase_records d) as [[|r rs]|] eqn:Hr;
    try (right; intros (? & ? & ? & ? & ? & ? & ? & [= <-] & ? & ? & ?);
         congruence).
  left. by exists d, s, ss, p, ps, r, rs.
Qed.

Lemma Part000_rejects_data (data : option (Data num)) (options : Options num) :
  ¬ strict_data_accepted data →
  Part000.analyzeSalesData data options = Threw InvalidInput.
Proof.
  intros Hn. destruct data as [d|]; [|done]. unfold Part000.analyzeSalesData.
  destruct (sellers d) as [[|s ss]|] eqn:Hs; try done.
  destruct (products d) as [[|p ps]|] eqn:Hp; try done.
  destruct (purchase_records d) as [[|r rs]|] eqn:Hr; try done.
  destruct Hn. by exists d, s, ss, p, ps, r, rs.
Qed.

Lemma Part000_rejects_options (data : option (Data num)) (options : Options num) :
  strict_data_accepted data → ¬ options_accepted options →
  Part000.analyzeSalesData data options = Threw InvalidOptions.
Proof.
  intros (d & s & ss & p & ps & r & rs & -> & Hs & Hp & Hr) Hn.
  unfold Part000.analyzeSalesData. rewrite Hs, Hp, Hr.
  destruct options as [| |r0 b0|[| |r'] [| |b]]; try done.
  destruct Hn. by exists r', b.
Qed.

(** The outcomes of part_000. *)
Lemma Part000_cases (data : option (Data num)) (options : Options num) :
  (¬ strict_data_accepted data
   ∧ Part000.analyzeSalesData data options = Threw InvalidInput)
  ∨ (strict_data_accepted data ∧ ¬ options_accepted options
     ∧ Part000.analyzeSalesData data options = Threw InvalidOptions)
  ∨ ∃ d s ss p ps r0 rs r b,
      data = Some d ∧ sellers d = Some (s :: ss) ∧ products d = Some (p :: ps)
      ∧ purchase_records d = Some (r0 :: rs)
      ∧ options = OptionsObject (Function r) (Function b)
      ∧ let fails :=
          Exists (Part000_record_fails (s :: ss) (p :: ps)) (r0 :: rs) in
        (rewires_prototype d
         ∧ Part000.analyzeSalesData data options = Unrepresented)
        ∨ (¬ rewires_prototype d ∧ fails
           ∧ Part000.analyzeSalesData data options = Threw TypeError)
        ∨ (¬ rewires_prototype d ∧ ¬ fails
           ∧ ∃ stats, aggregate_in part_000 r d (s :: ss) = Returned stats
               ∧ Part000.analyzeSalesData data options
                 = Returned (to_report <$> rank b (sort_by by_profit stats))).
Proof.
  destruct (strict_data_accepted_dec data) as [Hd|Hd];
    [|left; split; [done|by apply Part000_rejects_data]].
  destruct (options_accepted_dec options) as [Ho|Ho];
    [|right; left; split; [done|]; split; [done|];
      by apply Part000_rejects_options].
  right. right.
  destruct Hd as (d & s & ss & p & ps & r0 & rs & -> & Hs & Hp & Hr),
    Ho as (r & b & ->).
  exists d, s, ss, p, ps, r0, rs, r, b. do 5 (split; [done|]). cbv zeta.
  rewrite (Part000_outcome _ _ _ _ _ _ _ _ _ Hs Hp Hr).
  pose proof (Part000_aggregate_outcome r d (s :: ss)) as [Hthrows Hreturns].
  rewrite Hp, Hr in Hthrows, Hreturns. cbn [default] in Hthrows, Hreturns.
  destruct (decide (rewires_prototype d)) as [Hrep|Hrep]; [by left|right].
  destruct (decide (Exists (Part000_record_fails (s :: ss) (p :: ps)) (r0 :: rs)))
    as [Hex|Hex].
  - left. do 2 (split; [done|]). by rewrite (Hthrows Hex).
  - right. do 2 (split; [done|]).
    destruct (Hreturns Hex) as [stats Hstats].
    exists stats. by rewrite Hstats.
Qed.

(** C5, as the code has it: [analyzeSalesData] of main.js throws the input
    error when [data] is missing or [sellers] is not a non-empty array, and,
    the data being accepted, the options error when [options] is missing, is
    not of type "object", or one of the two policies is missing or not a
    function.  These two errors are decided by [data.sellers] and [options]
    alone, before the products and the purchase records are looked at.
    With data and options accepted it throws once more, a TypeError in the
    middle of the aggregation, exactly when a purchase record whose seller
    identifier is that of no seller but names a property of
    [Object.prototype] has an item whose SKU is that of a product or names
    such a property; in every other run that the embedding follows it
    returns a report.  So in a run that the embedding follows main.js
    throws exactly when the data are not accepted, the options are not
    accepted, or such a record exists. *)
Theorem Main_throws_iff_precondition_violated
    (data : option (Data num)) (options : Options num) :
  ((∀ d, data = Some d → ¬ rewires_prototype d) →
   ((∃ e, Main.analyzeSalesData data options = Threw e)
      ↔ ¬ data_accepted data ∨ ¬ options_accepted options
        ∨ Main_aggregation_fails data))
  ∧ (¬ data_accepted data →
     Main.analyzeSalesData data options = Threw InvalidInput)
  ∧ (data_accepted data → ¬ options_accepted options →
     Main.analyzeSalesData data options = Threw InvalidOptions)
  ∧ (data_accepted data → options_accepted options →
     Main_aggregation_fails data →
     Main.analyzeSalesData data options = Threw TypeError)
  ∧ (data_accepted data → options_accepted options →
     ¬ Main_aggregation_fails data →
     (∀ d, data = Some d → ¬ rewires_prototype d) →
     ∃ reports, Main.analyzeSalesData data options = Returned reports)
  ∧ (∀ e d d', e ≠ TypeError → data = Some d → sellers d' = sellers d →
     Main.analyzeSalesData data options = Threw e →
     Main.analyzeSalesData (Some d') options = Threw e)
  ∧ (options_accepted options
     ↔ policies_invocable options ∧ ∃ r b, options = OptionsObject r b).
Proof.
  assert (data_accepted data → options_accepted options →
          Main_aggregation_fails data →
          Main.analyzeSalesData data options = Threw TypeError) as Hfails.
  { intros (d & s & ss & -> & Hs) (r & b & ->) (d' & [= <-] & Hrep & Hex).
    rewrite (Main_outcome _ _ _ _ _ Hs), decide_False by done.
    rewrite Hs in Hex. cbn [default] in Hex.
    by rewrite (proj1 (Main_aggregate_outcome r d (s :: ss)) Hex). }
  assert (data_accepted data → options_accepted options →
          ¬ Main_aggregation_fails data →
          (∀ d, data = Some d → ¬ rewires_prototype d) →
          ∃ reports, Main.analyzeSalesData data options = Returned reports)
    as Hreturns.
  { intros (d & s & ss & -> & Hs) (r & b & ->) Hno Hrep.
    rewrite (Main_outcome _ _ _ _ _ Hs), decide_False by by apply Hrep.
    destruct (proj2 (Main_aggregate_outcome r d (s :: ss))) as [stats ->].
    - intros Hex. apply Hno. exists d. split; [done|].
      split; [by apply Hrep|]. by rewrite Hs.
    - by eexists. }
  split; [|split; [|split; [|split; [|split; [|split]]]]].
  - intros _. split.
    + intros [e He].
      destruct (Main_cases data options)
        as [[Hd _]|[(_ & Ho & _)|(d & s & ss & r & b & -> & Hs & -> & Hcases)]];
        [by left|by right; left|].
      right. right. cbv zeta in Hcases.
      destruct Hcases as [[_ Hu]|[(Hrep & Hex & _)|(_ & _ & stats & _ & Hr)]];
        [congruence| |congruence].
      exists d. split; [done|]. split; [done|]. by rewrite Hs.
    + intros [Hd|[Ho|Hf]].
      * exists InvalidInput. by apply Main_rejects_data.
      * destruct (data_accepted_dec data) as [Hd|Hd].
        -- exists InvalidOptions. by apply Main_rejects_options.
        -- exists InvalidInput. by apply Main_rejects_data.
      * destruct (data_accepted_dec data) as [Hd|Hd];
          [|exists InvalidInput; by apply Main_rejects_data].
        destruct (options_accepted_dec options) as [Ho|Ho];
          [|exists InvalidOptions; by apply Main_rejects_options].
        exists TypeError. by apply Hfails.
  - apply Main_rejects_data.
  - apply Main_rejects_options.
  - exact Hfails.
  - exact Hreturns.
  - intros e d d' Hne -> Hss He.
    destruct (Main_cases (Some d) options)
      as [[Hd He']|[(Hd & Ho & He')|(d0 & s & ss & r & b & _ & _ & _ & Hcases)]].
    + rewrite He in He'. injection He' as ->. apply Main_rejects_data.
      intros (d0 & s & ss & [= <-] & Es). apply Hd. exists d, s, ss.
      split; [done|]. congruence.
    + rewrite He in He'. injection He' as ->.
      apply Main_rejects_options; [|done].
      destruct Hd as (d0 & s & ss & [= <-] & Es). exists d', s, ss.
      split; [done|]. congruence.
    + cbv zeta in Hcases.
      destruct Hcases as [[_ Hu]|[(_ & _ & Ht)|(_ & _ & stats & _ & Hr)]];
        congruence.
  - split.
    + intros (r & b & ->). split; [exists r, b; by left|by eexists _, _].
    + intros [(r & b & [->| ->]) (r' & b' & Ho)]; [by exists r, b|done].
Qed.

(** C6, as the code has it: part_000 validates strictly, an input whose
    products or purchase records are absent, not an array or empty makes it
    throw the input error; main.js does not: on accepted data it does not
    throw the input error, it does what it does when each missing collection
    is an empty array, and without purchase records it returns a report. *)
Theorem strict_validation_in_part_000_only (d : Data num) (options : Options num) :
  collection_missing (products d) ∨ collection_missing (purchase_records d) →
  Part000.analyzeSalesData (Some d) options = Threw InvalidInput
  ∧ (data_accepted (Some d) →
     Main.analyzeSalesData (Some d) options ≠ Threw InvalidInput)
  ∧ Main.analyzeSalesData (Some d) options
    = Main.analyzeSalesData
        (Some (with_products
                 (with_records d (Some (default [] (purchase_records d))))
                 (Some (default [] (products d)))))
        options
  ∧ (collection_missing (purchase_records d) →
     data_accepted (Some d) → options_accepted options →
     ∃ reports, Main.analyzeSalesData (Some d) options = Returned reports).
Proof.
  intros Hmissing. split; [|split; [|split]].
  - apply Part000_rejects_data.
    intros (d' & s & ss & p & ps & r & rs & [= <-] & _ & Hp & Hr).
    destruct Hmissing as [[?|?]|[?|?]]; congruence.
  - intros (d' & s & ss & [= <-] & Hs). unfold Main.analyzeSalesData.
    rewrite Hs. destruct options as [| |r0 b0|[| |r] [| |b]]; try done.
    case_decide; [done|]. rewrite Main_aggregate_in.
    pose proof (aggregate_throws main_js r d (s :: ss)) as Ht.
    destruct (aggregate_in main_js r d (s :: ss)) as [stats|e|]; try done.
    cbn. intros [= ->]. by specialize (Ht _ eq_refl).
  - unfold Main.analyzeSalesData, with_products, with_records. cbn [sellers].
    destruct (sellers d) as [[|s ss]|] eqn:Hs; try done.
    destruct options as [| |r0 b0|[| |r] [| |b]]; try done.
    assert (Main.aggregate r d (s :: ss)
            = Main.aggregate r
                {| sellers := Some (s :: ss);
                   products := Some (default [] (products d));
                   purchase_records := Some (default [] (purchase_records d)) |}
                (s :: ss)) as ->.
    { unfold Main.aggregate. cbn [products purchase_records].
      by destruct (products d), (purchase_records d). }
    destruct (decide (rewires_prototype d)) as [Hrep|Hrep];
      [rewrite decide_True|rewrite decide_False]; try done.
    + unfold rewires_prototype in *. cbn [sellers products purchase_records default].
      by rewrite Hs in Hrep.
    + unfold rewires_prototype in *. cbn [sellers products purchase_records default].
      by rewrite Hs in Hrep.
  - intros Hrecords (d' & s & ss & [= <-] & Hs) (r & b & ->).
    rewrite (Main_outcome _ _ _ _ _ Hs).
    assert (default [] (purchase_records d) = []) as Hnone
      by by destruct Hrecords as [-> | ->].
    rewrite decide_False by (unfold rewires_prototype; rewrite Hnone; tauto).
    unfold aggregate_in. rewrite Hnone. by eexists.
Qed.

(** X9: part_000 throws the input error exactly when [data] is missing or one
    of [sellers], [products], [purchase_records] is absent, not an array or
    empty, whatever [options] is; it throws the options error exactly when
    the data pass and [options] is not an object with two functions.  The
    data are checked first. *)
Theorem Part000_validation_errors (data : option (Data num)) (options : Options num) :
  (Part000.analyzeSalesData data options = Threw InvalidInput
     ↔ ¬ strict_data_accepted data)
  ∧ (Part000.analyzeSalesData data options = Threw InvalidOptions
     ↔ strict_data_accepted data ∧ ¬ options_accepted options).
Proof.
  destruct (Part000_cases data options)
    as [[Hd He]|[(Hd & Ho & He)
                |(d & s & ss & p & ps & r0 & rs & r & b
                    & -> & Hs & Hp & Hr & -> & Hcases)]].
  - rewrite He. split; [done|]. split; [done|]. by intros [? _].
  - rewrite He. split; [done|]. done.
  - assert (strict_data_accepted (Some d)) as Hd
      by by exists d, s, ss, p, ps, r0, rs.
    assert (options_accepted (OptionsObject (Function r) (Function b))) as Ho
      by by exists r, b.
    cbv zeta in Hcases.
    destruct Hcases as [[_ ->]|[(_ & _ & ->)|(_ & _ & stats & _ & ->)]];
      (split; (split; [done|]); try done; try (by intros [_ ?]); by intros ?).
Qed.

(** ** The TypeError of the aggregation *)

Lemma Main_fails_Part000_fails (sellers_ : list Seller)
    (products_ : list (Product num)) (records : list (PurchaseRecord num)) :
  Exists (Main_record_fails sellers_ products_) records →
  Exists (Part000_record_fails sellers_ products_) records.
Proof.
  intros Hex. eapply Exists_impl; [exact Hex|]. intros record ?. by right.
Qed.

(** X8: on data that pass its validation, with valid options, in a run that
    the embedding follows, part_000 throws a TypeError exactly when some
    purchase record fails: a record without an array of items whose seller
    identifier is that of a seller or names a property of
    [Object.prototype], or a record on which main.js fails; a record whose
    seller identifier is neither is skipped before its items are looked
    at.  In every other case part_000 returns a report.  main.js throws the
    TypeError only where part_000 does. *)
Theorem Part000_throws_TypeError_iff_a_record_fails
    (d : Data num) (options : Options num)
    (s : Seller) (ss : list Seller) (p : Product num) (ps : list (Product num))
    (r : PurchaseRecord num) (rs : list (PurchaseRecord num)) :
  sellers d = Some (s :: ss) →
  products d = Some (p :: ps) →
  purchase_records d = Some (r :: rs) →
  options_accepted options →
  ¬ rewires_prototype d →
  (Part000.analyzeSalesData (Some d) options = Threw TypeError
     ↔ Exists (Part000_record_fails (s :: ss) (p :: ps)) (r :: rs))
  ∧ (¬ Exists (Part000_record_fails (s :: ss) (p :: ps)) (r :: rs) →
     ∃ reports, Part000.analyzeSalesData (Some d) options = Returned reports)
  ∧ (Main.analyzeSalesData (Some d) options = Threw TypeError
     ↔ Exists (Main_record_fails (s :: ss) (p :: ps)) (r :: rs))
  ∧ (Main.analyzeSalesData (Some d) options = Threw TypeError →
     Part000.analyzeSalesData (Some d) options = Threw TypeError).
Proof.
  intros Hs Hp Hr (calculateRevenue & calculateBonus & ->) Hrep.
  assert (Part000.analyzeSalesData (Some d)
            (OptionsObject (Function calculateRevenue) (Function calculateBonus))
          = Threw TypeError
          ↔ Exists (Part000_record_fails (s :: ss) (p :: ps)) (r :: rs)) as Hpart.
  { rewrite (Part000_outcome _ _ _ _ _ _ _ _ _ Hs Hp Hr), decide_False by done.
    pose proof (Part000_aggregate_outcome calculateRevenue d (s :: ss))
      as [Hthrows Hreturns].
    rewrite Hp, Hr in Hthrows, Hreturns. cbn [default] in Hthrows, Hreturns.
    destruct (decide (Exists (Part000_record_fails (s :: ss) (p :: ps)) (r :: rs)))
      as [Hex|Hex].
    - by rewrite (Hthrows Hex).
    - destruct (Hreturns Hex) as [stats ->]. done. }
  assert (Main.analyzeSalesData (Some d)
            (OptionsObject (Function calculateRevenue) (Function calculateBonus))
          = Threw TypeError
          ↔ Exists (Main_record_fails (s :: ss) (p :: ps)) (r :: rs)) as Hmain.
  { rewrite (Main_outcome _ _ _ _ _ Hs), decide_False by done.
    pose proof (Main_aggregate_outcome calculateRevenue d (s :: ss))
      as [Hthrows Hreturns].
    rewrite Hp, Hr in Hthrows, Hreturns. cbn [default] in Hthrows, Hreturns.
    destruct (decide (Exists (Main_record_fails (s :: ss) (p :: ps)) (r :: rs)))
      as [Hex|Hex].
    - by rewrite (Hthrows Hex).
    - destruct (Hreturns Hex) as [stats ->]. done. }
  split; [done|]. split; [|split; [done|]].
  - intros Hex.
    rewrite (Part000_outcome _ _ _ _ _ _ _ _ _ Hs Hp Hr), decide_False by done.
    pose proof (Part000_aggregate_outcome calculateRevenue d (s :: ss))
      as [_ Hreturns].
    rewrite Hp, Hr in Hreturns. cbn [default] in Hreturns.
    destruct (Hreturns Hex) as [stats ->]. by eexists.
  - rewrite Hmain, Hpart. apply Main_fails_Part000_fails.
Qed.

(** ** The strict variant against the lenient one *)


(** ** The two variants on the domain of part_000 *)

Section Agreement.
Context (calculateRevenue : RevenuePolicy num).
Context (sellerIndex : gmap string nat) (productIndex : gmap string (Product num)).

Lemma process_item_variants (seller : SellerStat num) (item : Item num) :
  kept (quantity item) →
  process_item_in part_000 calculateRevenue productIndex seller item
  = process_item_in main_js calculateRevenue productIndex seller item.
Proof.
  intros (y & Hq & Hy). rewrite !process_item_in_eq. unfold profit_after_item.
  cbn [quantity_in]. by rewrite Hq, Hy.
Qed.

Lemma process_items_variants (its : list (Item num)) (seller : SellerStat num) :
  Forall (λ item, kept (quantity item)) its →
  fold_left (process_item_in part_000 calculateRevenue productIndex) its seller
  = fold_left (process_item_in main_js calculateRevenue productIndex) its seller.
Proof.
  intros Hkept. revert seller.
  induction Hkept as [|item its Hitem _ IH]; intros seller; [done|].
  cbn [fold_left]. by rewrite process_item_variants, IH.
Qed.

Lemma store_after_variants (stats : list (SellerStat num))
    (record : PurchaseRecord num) :
  kept (total_amount record) →
  Forall (λ item, kept (quantity item)) (default [] (items record)) →
  store_after part_000 calculateRevenue sellerIndex productIndex stats record
  = store_after main_js calculateRevenue sellerIndex productIndex stats record.
Proof.
  intros (y & Ha & Hy) Hitems. unfold store_after, seller_after.
  destruct (sellerIndex !! record_seller_id record) as [p|]; [|done].
  destruct (stats !! p) as [seller|]; [|done].
  cbn [amount_in]. rewrite Ha, Hy. cbn [to_number default].
  by rewrite process_items_variants.
Qed.

Lemma record_throws_variants (record : PurchaseRecord num) :
  has_items record →
  record_throws part_000 sellerIndex productIndex record
  = record_throws main_js sellerIndex productIndex record.
Proof.
  intros [its Hits]. unfold record_throws. rewrite Hits.
  by destruct (js_get sellerIndex (record_seller_id record)).
Qed.

Lemma record_throws_main_part (record : PurchaseRecord num) :
  record_throws main_js sellerIndex productIndex record = true →
  record_throws part_000 sellerIndex productIndex record = true.
Proof.
  unfold record_throws.
  by destruct (js_get sellerIndex (record_seller_id record)),
    (items record).
Qed.

Lemma stores_after_variants (records : list (PurchaseRecord num))
    (stats : list (SellerStat num)) :
  amounts_kept records →
  fold_left (store_after part_000 calculateRevenue sellerIndex productIndex)
            records stats
  = fold_left (store_after main_js calculateRevenue sellerIndex productIndex)
              records stats.
Proof.
  intros Hkept. revert stats.
  induction Hkept as [|r rs [Ha Hq] _ IH]; intros stats; [done|].
  cbn [fold_left]. by rewrite store_after_variants, IH.
Qed.

Lemma records_throw_variants (records : list (PurchaseRecord num)) :
  Forall has_items records →
  existsb (record_throws part_000 sellerIndex productIndex) records
  = existsb (record_throws main_js sellerIndex productIndex) records.
Proof.
  induction 1 as [|r rs Hr _ IH]; [done|].
  cbn [existsb]. by rewrite record_throws_variants, IH.
Qed.
End Agreement.

Lemma aggregate_variants (calculateRevenue : RevenuePolicy num) (d : Data num)
    (sellers_ : list Seller) :
  Forall has_items (default [] (purchase_records d)) →
  amounts_kept (default [] (purchase_records d)) →
  aggregate_in part_000 calculateRevenue d sellers_
  = aggregate_in main_js calculateRevenue d sellers_.
Proof.
  intros Hitems Hkept. rewrite !aggregate_in_eq. cbv zeta.
  by rewrite records_throw_variants, stores_after_variants.
Qed.

(** C10, as the code has it: on an input that passes the validation of
    part_000 (non-empty sellers, products and purchase records), whose
    records all have an array of items and a [total_amount], and whose items
    all have a [quantity], each of them a number that the default [|| 0]
    leaves as it is, the two variants of [analyzeSalesData] give the same
    outcome ([Unrepresented] on both sides in a run that the embedding does
    not follow).  That outcome is the options error when the options are not
    valid; with valid options, in a run that the embedding follows, it is
    the same TypeError when a record fails (its seller identifier is that of
    no seller and names a property of [Object.prototype], and an item of it
    finds a product or a built-in object), and the same report otherwise. *)
Theorem variants_agree_on_strict_domain
    (d : Data num) (options : Options num)
    (s : Seller) (ss : list Seller) (p : Product num) (ps : list (Product num))
    (r : PurchaseRecord num) (rs : list (PurchaseRecord num)) :
  sellers d = Some (s :: ss) →
  products d = Some (p :: ps) →
  purchase_records d = Some (r :: rs) →
  Forall has_items (r :: rs) →
  amounts_kept (r :: rs) →
  Part000.analyzeSalesData (Some d) options
  = Main.analyzeSalesData (Some d) options
  ∧ (¬ options_accepted options →
     Part000.analyzeSalesData (Some d) options = Threw InvalidOptions
     ∧ Main.analyzeSalesData (Some d) options = Threw InvalidOptions)
  ∧ (options_accepted options → ¬ rewires_prototype d →
     (Exists (Main_record_fails (s :: ss) (p :: ps)) (r :: rs) →
      Part000.analyzeSalesData (Some d) options = Threw TypeError
      ∧ Main.analyzeSalesData (Some d) options = Threw TypeError)
     ∧ (¬ Exists (Main_record_fails (s :: ss) (p :: ps)) (r :: rs) →
        ∃ reports,
          Part000.analyzeSalesData (Some d) options = Returned reports
          ∧ Main.analyzeSalesData (Some d) options = Returned reports)).
Proof.
  intros Hs Hp Hr Hitems Hkept.
  assert (Part000.analyzeSalesData (Some d) options
          = Main.analyzeSalesData (Some d) options) as Heq.
  { destruct (options_accepted_dec options) as [(cr & cb & ->)|Ho].
    - rewrite (Part000_outcome _ _ _ _ _ _ _ _ _ Hs Hp Hr),
        (Main_outcome _ _ _ _ _ Hs).
      rewrite aggregate_variants; [done|by rewrite Hr..].
    - rewrite Part000_rejects_options, Main_rejects_options; try done.
      + by exists d, s, ss.
      + by exists d, s, ss, p, ps, r, rs. }
  split; [done|]. split.
  { intros Ho. rewrite Heq. split; apply Main_rejects_options; try done;
      by exists d, s, ss. }
  intros (cr & cb & ->) Hrep. rewrite Heq.
  rewrite (Main_outcome _ _ _ _ _ Hs), decide_False by done.
  pose proof (Main_aggregate_outcome cr d (s :: ss)) as [Hthrows Hreturns].
  rewrite Hp, Hr in Hthrows, Hreturns. cbn [default] in Hthrows, Hreturns.
  split.
  - intros Hex. by rewrite (Hthrows Hex).
  - intros Hex. destruct (Hreturns Hex) as [stats ->]. by eexists.
Qed.

(** ** An item whose SKU matches no product *)

Lemma product_of_build_None (products_ : list (Product num)) (k : string) :
  k ∉ sku <$> products_ → plain_key k →
  product_of (build_productIndex products_) k = None.
Proof.
  intros Hk Hplain. unfold product_of, js_get.
  rewrite (proj2 (build_productIndex_None products_ k) Hk).
  by rewrite decide_False.
Qed.

Lemma process_record_in_known (v : Variant) (calculateRevenue : RevenuePolicy num)
    (sellerIndex : gmap string nat) (productIndex : gmap string (Product num))
    (stats : list (SellerStat num)) (record : PurchaseRecord num) (p : nat)
    (seller : SellerStat num) (its : list (Item num)) :
  sellerIndex !! record_seller_id record = Some p →
  stats !! p = Some seller →
  items record = Some its →
  process_record_in v calculateRevenue sellerIndex productIndex stats record
  = Returned
      (<[p := fold_left (process_item_in v calculateRevenue productIndex) its
                {| seller_id := seller_id seller;
                   name := name seller;
                   revenue := revenue seller + amount_in v (total_amount record);
                   profit := profit seller;
                   sales_count := S (sales_count seller);
                   products_sold := products_sold seller |}]> stats).
Proof.
  intros Hp Hs Hitems.
  destruct v; cbn [process_record_in amount_in process_item_in];
    unfold Main.process_record, Part000.process_record;
    by rewrite (proj2 (js_get_Own _ _ _) Hp), Hs, Hitems.
Qed.

(** The body of the loop over the items returns at once on an item whose
    product lookup gives nothing, whatever the dictionaries hold. *)
Lemma item_without_product_skipped
    (v : Variant) (calculateRevenue : RevenuePolicy num)
    (sellerIndex : gmap string nat) (productIndex : gmap string (Product num))
    (stats : list (SellerStat num)) (record : PurchaseRecord num) (p : nat)
    (seller : SellerStat num) (before after : list (Item num)) (item : Item num) :
  sellerIndex !! record_seller_id record = Some p →
  stats !! p = Some seller →
  items record = Some (before ++ item :: after) →
  product_of productIndex (item_sku item) = None →
  ∃ seller' : SellerStat num,
    (∀ acc, process_item_in v calculateRevenue productIndex acc item = acc)
    ∧ process_record_in v calculateRevenue sellerIndex productIndex stats record
      = Returned (<[p := seller']> stats)
    ∧ process_record_in v calculateRevenue sellerIndex productIndex stats
        (with_items record (Some (before ++ after)))
      = Returned (<[p := seller']> stats)
    ∧ seller'
      = fold_left (process_item_in v calculateRevenue productIndex)
          (before ++ after)
          {| seller_id := seller_id seller;
             name := name seller;
             revenue := revenue seller + amount_in v (total_amount record);
             profit := profit seller;
             sales_count := S (sales_count seller);
             products_sold := products_sold seller |}
    ∧ sales_count seller' = S (sales_count seller)
    ∧ revenue seller' = revenue seller + amount_in v (total_amount record).
Proof.
  intros Hp Hs Hitems Hnone.
  assert (∀ acc, process_item_in v calculateRevenue productIndex acc item = acc)
    as Hskip.
  { intros acc. rewrite process_item_in_eq. by rewrite Hnone. }
  eexists. split; [done|]. split; [|split; [|split; [reflexivity|]]].
  - rewrite (process_record_in_known _ _ _ _ _ _ _ _ _ Hp Hs Hitems).
    do 2 f_equal. rewrite !fold_left_app. cbn [fold_left]. by rewrite Hskip.
  - by rewrite (process_record_in_known v calculateRevenue sellerIndex
                  productIndex stats
                  (with_items record (Some (before ++ after))) p seller
                  (before ++ after) Hp Hs eq_refl).
  - by edestruct (process_items_header v calculateRevenue productIndex)
      as (_ & _ & -> & ->).
Qed.

(** X20: when a record of a known seller has an item whose SKU matches no
    product and names no property of [Object.prototype], the code leaves
    the accumulator as it is at that item: the record does to the store
    what the same record without the item does, the other items are
    processed, the profit and the per-SKU quantities get nothing from the
    item, and the record still adds 1 to the seller's [sales_count] and its
    [total_amount] ([|| 0] in main.js) to the seller's [revenue]; in both
    variants.  (No seller and no product is keyed ["__proto__"].) *)
Theorem unknown_sku_skips_item_only
    (v : Variant) (calculateRevenue : RevenuePolicy num)
    (sellers_ : list Seller) (products_ : list (Product num))
    (stats : list (SellerStat num)) (record : PurchaseRecord num) (p : nat)
    (seller : SellerStat num) (before after : list (Item num)) (item : Item num) :
  ("__proto__" ∉ id <$> sellers_) →
  ("__proto__" ∉ sku <$> products_) →
  build_sellerIndex (makeSellerStats sellers_) !! record_seller_id record = Some p →
  stats !! p = Some seller →
  items record = Some (before ++ item :: after) →
  ¬ known_product products_ item →
  plain_key (item_sku item) →
  ∃ seller' : SellerStat num,
    (∀ acc, process_item_in v calculateRevenue (build_productIndex products_)
              acc item = acc)
    ∧ process_record_in v calculateRevenue
        (build_sellerIndex (makeSellerStats sellers_))
        (build_productIndex products_) stats record
      = Returned (<[p := seller']> stats)
    ∧ process_record_in v calculateRevenue
        (build_sellerIndex (makeSellerStats sellers_))
        (build_productIndex products_) stats
        (with_items record (Some (before ++ after)))
      = Returned (<[p := seller']> stats)
    ∧ seller'
      = fold_left (process_item_in v calculateRevenue (build_productIndex products_))
          (before ++ after)
          {| seller_id := seller_id seller;
             name := name seller;
             revenue := revenue seller + amount_in v (total_amount record);
             profit := profit seller;
             sales_count := S (sales_count seller);
             products_sold := products_sold seller |}
    ∧ sales_count seller' = S (sales_count seller)
    ∧ revenue seller' = revenue seller + amount_in v (total_amount record).
Proof.
  intros _ _ Hp Hs Hitems Hunknown Hplain.
  apply item_without_product_skipped; [done..|].
  by apply product_of_build_None.
Qed.

(** ** Each accumulator by itself *)

Section Known.
Context (v : Variant) (calculateRevenue : RevenuePolicy num).
Context (sellers_ : list Seller) (productIndex : gmap string (Product num)).

Local Abbreviation sellerIndex := (build_sellerIndex (makeSellerStats sellers_)).
Local Abbreviation step := (store_after v calculateRevenue sellerIndex productIndex).

Lemma unknown_seller_skipped (stats : list (SellerStat num))
    (r : PurchaseRecord num) :
  ¬ known_seller sellers_ r → step stats r = stats.
Proof.
  unfold known_seller. rewrite <-(makeSellerStats_ids (sellers_)).
  intros Hr. apply build_sellerIndex_None in Hr.
  unfold store_after. by rewrite Hr.
Qed.

Lemma known_records_only (records : list (PurchaseRecord num))
    (stats : list (SellerStat num)) :
  fold_left step (filter (known_seller sellers_) records) stats
  = fold_left step records stats.
Proof.
  revert stats. induction records as [|r rs IH]; intros stats; [done|].
  rewrite filter_cons. case_decide as Hr; simpl; [done|].
  by rewrite unknown_seller_skipped.
Qed.

Lemma attributed_known (p : nat) (records : list (PurchaseRecord num))
    (record : PurchaseRecord num) :
  record ∈ attributed sellers_ p records → known_seller sellers_ record.
Proof.
  unfold attributed. intros [Hp _]%list_elem_of_filter.
  unfold known_seller. rewrite <-(makeSellerStats_ids (sellers_)).
  destruct (decide (record_seller_id record
                      ∈ seller_id <$> makeSellerStats (num := num) sellers_))
    as [|Hn]; [done|].
  apply build_sellerIndex_None in Hn. congruence.
Qed.
End Known.

(** C8, as the code has it, in either variant: the [revenue] of an entry of
    the report is the two-decimal rounding of the revenue its seller
    accumulated, and that is the sum, taken from 0 in the order of the
    records by the addition of the arithmetic, of the [total_amount]
    ([|| 0] in main.js) of the purchase records referred to the seller:
    those that carry the seller's identifier, when the identifiers are
    distinct.  The accumulators are those of the input with the records
    removed whose seller identifier is that of no seller: such records
    contribute to no counter of any seller.  The sum of the rounded
    revenues of the report is not, in general, the sum of the amounts. *)
Theorem revenue_accumulates_known_receipts
    (v : Variant) (data : option (Data num))
    (calculateRevenue : RevenuePolicy num) (calculateBonus : BonusPolicy num)
    (reports : list (SellerReport num)) :
  analyzeSalesData_in v data
    (OptionsObject (Function calculateRevenue) (Function calculateBonus))
  = Returned reports →
  ∃ d sellers_ (stats sorted : list (SellerStat num)),
    data = Some d ∧ sellers d = Some sellers_
    ∧ aggregate_in v calculateRevenue d sellers_ = Returned stats
    ∧ sorted ≡ₚ stats
    ∧ report_seller_id <$> reports = seller_id <$> sorted
    ∧ report_revenue <$> reports = (toFixed2 ∘ revenue) <$> sorted
    ∧ (∀ p acc, stats !! p = Some acc →
         revenue acc
         = revenue_over v (attributed sellers_ p (default [] (purchase_records d)))
         ∧ sales_count acc
           = length (attributed sellers_ p (default [] (purchase_records d))))
    ∧ (∀ p record,
         record ∈ attributed sellers_ p (default [] (purchase_records d)) →
         known_seller sellers_ record)
    ∧ (NoDup (id <$> sellers_) → ∀ p seller, sellers_ !! p = Some seller →
         attributed sellers_ p (default [] (purchase_records d))
         = records_of (id seller) (default [] (purchase_records d)))
    ∧ aggregate_in v calculateRevenue
        (with_records d
           (Some (filter (known_seller sellers_)
                         (default [] (purchase_records d)))))
        sellers_
      = Returned stats.
Proof.
  intros H.
  apply analyze_returned in H
    as (d & s & ss & r & b & stats & -> & Es & [= <- <-] & Hstats & ->).
  exists d, (s :: ss), stats, (sort_by by_profit stats).
  split; [done|]. split; [done|]. split; [done|].
  split; [apply (sort_by_perm profit)|].
  split.
  { rewrite <-(rank_stats calculateBonus (sort_by _ _)) at 2.
    by rewrite <-!list_fmap_compose. }
  split.
  { rewrite <-(rank_stats calculateBonus (sort_by _ _)) at 2.
    by rewrite <-!list_fmap_compose. }
  split.
  { intros p acc Hacc.
    destruct (aggregate_at _ _ _ _ _ _ _ Hstats Hacc) as (seller & Hseller & ->).
    edestruct after_records as (_ & _ & -> & -> & _). done. }
  split; [intros p record; apply attributed_known|].
  split; [intros Hnodup p seller; by apply attributed_distinct|].
  apply aggregate_returned in Hstats as [-> Hthrows].
  rewrite aggregate_in_eq. cbv zeta.
  cbn [with_records purchase_records default from_option Datatypes.id].
  change (data_productIndex (with_records d _)) with (data_productIndex d).
  rewrite known_records_only.
  assert (existsb (record_throws v (build_sellerIndex (makeSellerStats (s :: ss)))
                     (data_productIndex d))
                  (filter (known_seller (s :: ss))
                          (default [] (purchase_records d))) = false) as ->; [|done].
  revert Hthrows. generalize (default [] (purchase_records d)). intros records.
  induction records as [|r0 rs IH]; [done|]. cbn [existsb].
  intros [Hr0 Hrs]%orb_false_elim. rewrite filter_cons.
  case_decide; [|by apply IH]. cbn [existsb]. rewrite Hr0. by apply IH.
Qed.

(** ** Objects with enumerable keys *)

Section JsObjFacts.
Context {V : Type}.
Implicit Types (o : jsobj V) (k : string) (v : V).

Lemma obj_get_None k o : obj_get k o = None ↔ k ∉ o.*1.
Proof.
  induction o as [|[k' v'] o IH]; simpl.
  - split; [intros _; apply not_elem_of_nil | done].
  - rewrite not_elem_of_cons. case_decide as Hk.
    + split; [done|]. intros [Hne _]. by destruct Hne.
    + rewrite IH. split; [by intros ?; split|by intros [_ ?]].
Qed.

Lemma obj_get_set_eq k v o : obj_get k (obj_set k v o) = Some v.
Proof.
  induction o as [|[k' v'] o IH]; simpl.
  - by rewrite decide_True.
  - case_decide as Hk; simpl; [by rewrite decide_True|by rewrite decide_False].
Qed.

Lemma obj_get_set_ne k k' v o : k ≠ k' → obj_get k' (obj_set k v o) = obj_get k' o.
Proof.
  intros Hne. induction o as [|[k0 v0] o IH]; simpl.
  - by rewrite decide_False.
  - destruct (decide (k0 = k)) as [->|Hk0]; simpl.
    + by rewrite !decide_False.
    + by rewrite IH.
Qed.









End JsObjFacts.






(** ** The keys and the values of [products_sold] *)




Section SoldFold.
Context (v : Variant) (calculateRevenue : RevenuePolicy num).
Context (productIndex : gmap string (Product num)).

(** A quantity [f] read off [products_sold] that each processed item changes
    by [g]. *)
Context {B : Type} (f : jsobj (sold_value num) → B) (g : B → Item num → B).
Hypothesis f_add_sold :
  ∀ item sold,
    f (add_sold (item_sku item) (quantity_in v (quantity item)) sold)
    = g (f sold) item.

Local Abbreviation process_item := (process_item_in v calculateRevenue productIndex).
Local Abbreviation after := (seller_after v calculateRevenue productIndex).
Local Abbreviation measure := (λ seller : SellerStat num, f (products_sold seller)).


End SoldFold.




(** ** The top products of a report *)


Lemma obj_get_elem_of {V : Type} (k : string) (x : V) (o : jsobj V) :
  NoDup (o.*1) → (k, x) ∈ o → obj_get k o = Some x.
Proof.
  induction o as [|[k' x'] o IH]; intros Hnodup Hin.
  { by apply elem_of_nil in Hin. }
  cbn [fmap list_fmap fst] in Hnodup. apply NoDup_cons in Hnodup as [Hk' Hnodup].
  cbn [obj_get]. apply elem_of_cons in Hin as [[= <- <-]|Hin].
  - by rewrite decide_True.
  - rewrite decide_False; [by apply IH|]. intros ->. apply Hk'.
    apply list_elem_of_fmap. by exists (k, x).
Qed.



(** * Further properties of the code *)

(** ** The report as a function of the input *)

(** X1: a returned report has exactly one entry for every seller of the
    input, under the seller's identifier and the name made of first and last
    name; in both variants. *)
Theorem report_lists_every_seller_once
    (d : Data num) (options : Options num) (sellers_ : list Seller)
    (reports : list (SellerReport num)) :
  Main.analyzeSalesData (Some d) options = Returned reports
  ∨ Part000.analyzeSalesData (Some d) options = Returned reports →
  sellers d = Some sellers_ →
  length reports = length sellers_
  ∧ (λ report, (report_seller_id report, report_name report)) <$> reports
    ≡ₚ (λ s, (id s, first_name s +:+ " " +:+ last_name s)) <$> sellers_.
Proof.
  intros [v H]%returned_by_either Hs.
  apply analyze_returned in H
    as (d' & s & ss & r & b & stats & [= <-] & Es & -> & Hstats & ->).
  rewrite Hs in Es. injection Es as ->.
  assert ((λ report, (report_seller_id report, report_name report))
            <$> (to_report <$> rank b (sort_by by_profit stats))
          = (λ acc, (seller_id acc, name acc)) <$> sort_by by_profit stats)
    as Hfields.
  { rewrite <-(rank_stats b (sort_by _ _)) at 2.
    by rewrite <-!list_fmap_compose. }
  split.
  - rewrite length_fmap. unfold rank. rewrite length_imap.
    by rewrite (sort_by_length profit), (aggregate_length _ _ _ _ _ Hstats).
  - rewrite Hfields, <-(aggregate_identity _ _ _ _ _ Hstats).
    apply fmap_Permutation, (sort_by_perm profit).
Qed.

Lemma report_sales_revenue_profit
    (v : Variant) (d : Data num) (calculateRevenue : RevenuePolicy num)
    (calculateBonus : BonusPolicy num) (sellers_ : list Seller)
    (reports : list (SellerReport num)) (report : SellerReport num) :
  analyzeSalesData_in v (Some d)
    (OptionsObject (Function calculateRevenue) (Function calculateBonus))
  = Returned reports →
  sellers d = Some sellers_ →
  NoDup (id <$> sellers_) →
  report ∈ reports →
  let records := records_of (report_seller_id report)
                   (default [] (purchase_records d)) in
  report_sales_count report = length records
  ∧ report_revenue report = toFixed2 (revenue_over v records)
  ∧ report_profit report
    = toFixed2 (profit_over v calculateRevenue (data_productIndex d) records).
Proof.
  intros H Hs Hnodup Hin.
  apply report_accumulator in H
    as (d' & s & ss & r & b & stats & [= <-] & Es & [= <- <-] & Hstats & Hreports).
  rewrite Hs in Es. injection Es as ->.
  apply list_elem_of_lookup in Hin as [i Hi].
  destruct (Hreports i report Hi) as (p & seller & acc & Hseller & Hacc & ->).
  destruct (aggregate_at _ _ _ _ _ _ _ Hstats Hacc) as (seller' & Hseller' & ->).
  rewrite Hseller in Hseller'. injection Hseller' as <-.
  rewrite (attributed_distinct _ _ _ _ Hnodup Hseller).
  edestruct after_records as (Hid & _ & Hcount & Hrevenue & Hprofit).
  cbn [to_report report_seller_id report_sales_count report_revenue
       report_profit stat].
  rewrite Hid, Hcount, Hrevenue, Hprofit.
  by cbn [zero_stat seller_id sales_count revenue profit].
Qed.

(** X2: when the sellers have distinct identifiers, the [sales_count] of
    every entry of a returned report is the number of purchase records that
    carry the entry's seller identifier; in both variants. *)
Theorem report_sales_count_counts_records
    (d : Data num) (options : Options num) (sellers_ : list Seller)
    (reports : list (SellerReport num)) (report : SellerReport num) :
  Main.analyzeSalesData (Some d) options = Returned reports
  ∨ Part000.analyzeSalesData (Some d) options = Returned reports →
  sellers d = Some sellers_ →
  NoDup (id <$> sellers_) →
  report ∈ reports →
  report_sales_count report
  = length (records_of (report_seller_id report) (default [] (purchase_records d))).
Proof.
  intros [v H]%returned_by_either Hs Hnodup Hin.
  assert (∃ r b, options = OptionsObject (Function r) (Function b))
    as (r & b & ->).
  { apply analyze_returned in H as (_ & _ & _ & r & b & _ & _ & _ & -> & _).
    by exists r, b. }
  by destruct (report_sales_revenue_profit _ _ _ _ _ _ _ H Hs Hnodup Hin)
    as (Hcount & _).
Qed.

(** X3: when the sellers have distinct identifiers, the [revenue] of every
    entry of a returned report is the two-decimal rounding of the sum, taken
    from 0 in the order of the records, of the [total_amount] ([|| 0] in
    main.js) of the purchase records that carry the entry's seller
    identifier; the prices of the items play no part in it; in both
    variants. *)
Theorem report_revenue_sums_records
    (v : Variant) (d : Data num) (options : Options num) (sellers_ : list Seller)
    (reports : list (SellerReport num)) (report : SellerReport num) :
  analyzeSalesData_in v (Some d) options = Returned reports →
  sellers d = Some sellers_ →
  NoDup (id <$> sellers_) →
  report ∈ reports →
  report_revenue report
  = toFixed2
      (revenue_over v
         (records_of (report_seller_id report) (default [] (purchase_records d)))).
Proof.
  intros H Hs Hnodup Hin.
  assert (∃ r b, options = OptionsObject (Function r) (Function b))
    as (r & b & ->).
  { apply analyze_returned in H as (_ & _ & _ & r & b & _ & _ & _ & -> & _).
    by exists r, b. }
  by destruct (report_sales_revenue_profit _ _ _ _ _ _ _ H Hs Hnodup Hin)
    as (_ & Hrevenue & _).
Qed.

(** X4: when the sellers have distinct identifiers, the [profit] of every
    entry of a returned report is the two-decimal rounding of the sum, taken
    from 0 over the purchase records that carry the entry's seller
    identifier and over their items, in order, of what the revenue policy
    gives the item minus the purchase price of its product times its
    quantity; an item whose product lookup gives nothing adds nothing; in
    both variants. *)
Theorem report_profit_sums_items
    (v : Variant) (d : Data num) (calculateRevenue : RevenuePolicy num)
    (calculateBonus : BonusPolicy num)
    (sellers_ : list Seller) (reports : list (SellerReport num))
    (report : SellerReport num) :
  analyzeSalesData_in v (Some d)
    (OptionsObject (Function calculateRevenue) (Function calculateBonus))
  = Returned reports →
  sellers d = Some sellers_ →
  NoDup (id <$> sellers_) →
  report ∈ reports →
  report_profit report
  = toFixed2
      (profit_over v calculateRevenue (data_productIndex d)
         (records_of (report_seller_id report) (default [] (purchase_records d)))).
Proof.
  intros H Hs Hnodup Hin.
  by destruct (report_sales_revenue_profit _ _ _ _ _ _ _ H Hs Hnodup Hin)
    as (_ & _ & Hprofit).
Qed.

(** ** Repeated keys *)

(** X5: a read of [productIndex] gives, for every SKU, the last product of
    that SKU in [data.products]; for a SKU of no product it gives the
    built-in object of that name when the SKU names a property of
    [Object.prototype], and nothing otherwise.  (No product is keyed
    ["__proto__"].) *)
Theorem productIndex_keeps_last_product (products_ : list (Product num))
    (k : string) :
  "__proto__" ∉ sku <$> products_ →
  js_get (build_productIndex products_) k
  = match last_product k products_ with
    | Some product => Own product
    | None => if decide (k ∈ Object_prototype_keys) then Inherited k else Missing
    end.
Proof.
  intros _. unfold js_get.
  assert (build_productIndex products_ !! k = last_product k products_) as ->;
    [|done].
  unfold last_product.
  induction products_ as [|product products_ IH] using rev_ind; [done|].
  rewrite build_productIndex_snoc, lookup_insert, filter_app, filter_cons.
  rewrite filter_nil. case_decide as Hk.
  - by rewrite last_snoc.
  - by rewrite app_nil_r.
Qed.

Lemma attributed_shadowed (sellers_ : list Seller) (p p' : nat)
    (seller seller' : Seller) (records : list (PurchaseRecord num)) :
  sellers_ !! p = Some seller → sellers_ !! p' = Some seller' →
  (p < p')%nat → id seller = id seller' →
  attributed sellers_ p records = [].
Proof.
  intros Hp Hp' Hlt Hid. unfold attributed.
  induction records as [|r rs IH]; [done|].
  rewrite filter_cons, IH. rewrite decide_False; [done|]. intros Hlookup.
  pose proof (build_sellerIndex_Some _ _ _ Hlookup) as (acc & Hacc & Hk).
  rewrite makeSellerStats_zero, list_lookup_fmap, Hp in Hacc.
  injection Hacc as <-.
  assert (p' ≤ p)%nat; [|lia].
  eapply (build_sellerIndex_last _ _ _ _ (zero_stat seller') Hlookup).
  - by rewrite makeSellerStats_zero, list_lookup_fmap, Hp'.
  - rewrite <-Hk. cbn [zero_stat seller_id]. by rewrite Hid.
Qed.

(** X6: when two sellers of the input have the same identifier, all purchase
    records of that identifier go to the later one: the accumulator of the
    earlier one stays as it started, and the report has an entry of that
    identifier with no sales, revenue 0, profit 0 and no top products; in
    both variants. *)
Theorem earlier_seller_of_an_identifier_gets_nothing `{!NumberZero num}
    (d : Data num) (calculateRevenue : RevenuePolicy num)
    (calculateBonus : BonusPolicy num)
    (sellers_ : list Seller) (reports : list (SellerReport num))
    (p p' : nat) (seller seller' : Seller) :
  Main.analyzeSalesData (Some d)
    (OptionsObject (Function calculateRevenue) (Function calculateBonus))
  = Returned reports
  ∨ Part000.analyzeSalesData (Some d)
      (OptionsObject (Function calculateRevenue) (Function calculateBonus))
    = Returned reports →
  sellers d = Some sellers_ →
  sellers_ !! p = Some seller → sellers_ !! p' = Some seller' →
  (p < p')%nat → id seller = id seller' →
  (∃ v stats, aggregate_in v calculateRevenue d sellers_ = Returned stats
      ∧ analyzeSalesData_in v (Some d)
          (OptionsObject (Function calculateRevenue) (Function calculateBonus))
        = Returned reports
      ∧ stats !! p = Some (zero_stat seller))
  ∧ ∃ report, report ∈ reports
      ∧ report_seller_id report = id seller
      ∧ report_sales_count report = 0%nat
      ∧ report_revenue report = n0
      ∧ report_profit report = n0
      ∧ report_top_products report = [].
Proof.
  intros [v H]%returned_by_either Hs Hp Hp' Hlt Hid.
  pose proof H as Hreturned.
  apply analyze_returned in H
    as (d' & s & ss & r & b & stats & [= <-] & Es & [= <- <-] & Hstats & ->).
  rewrite Hs in Es. injection Es as ->.
  assert (stats !! p = Some (zero_stat seller)) as Hzero.
  { destruct (lookup_lt_is_Some_2 stats p) as [acc Hacc].
    { rewrite (aggregate_length _ _ _ _ _ Hstats). by eapply lookup_lt_Some. }
    destruct (aggregate_at _ _ _ _ _ _ _ Hstats Hacc) as (seller0 & Hseller0 & ->).
    rewrite Hp in Hseller0. injection Hseller0 as <-.
    by rewrite (attributed_shadowed _ _ _ _ _ _ Hp Hp' Hlt Hid) in Hacc. }
  split; [by exists v, stats|].
  assert (zero_stat seller ∈ sort_by by_profit stats) as Hin.
  { rewrite (sort_by_perm profit). by eapply list_elem_of_lookup_2. }
  apply list_elem_of_lookup in Hin as [i Hi].
  eexists. split.
  - apply list_elem_of_lookup. exists i.
    unfold rank. by rewrite list_lookup_fmap, list_lookup_imap, Hi.
  - cbn. by rewrite toFixed2_n0.
Qed.

(** ** No purchase records *)

Lemma gt_irrefl `{!NumberOrder num} (a : num) : gt a a = false.
Proof.
  destruct (gt a a) eqn:Ha; [|done]. by rewrite (gt_asym _ _ Ha) in Ha.
Qed.

(** X7: on data without purchase records (the property absent, not an array
    or empty), main.js returns the sellers in the order of the input, each
    with no sales, revenue 0, profit 0, no top products and the bonus the
    policy gives the untouched accumulator at that rank; under the default
    policy every bonus is 0. *)
Theorem Main_report_without_records `{!NumberOrder num} `{!NumberZero num}
    (d : Data num) (calculateRevenue : RevenuePolicy num)
    (calculateBonus : BonusPolicy num) (s : Seller) (ss : list Seller) :
  sellers d = Some (s :: ss) →
  collection_missing (purchase_records d) →
  Main.analyzeSalesData (Some d)
    (OptionsObject (Function calculateRevenue) (Function calculateBonus))
  = Returned
      (imap (λ i seller,
               {| report_seller_id := id seller;
                  report_name := first_name seller +:+ " " +:+ last_name seller;
                  report_revenue := n0;
                  report_profit := n0;
                  report_sales_count := 0;
                  report_top_products := [];
                  report_bonus :=
                    toFixed2 (calculateBonus (Z.of_nat i)
                                (Z.of_nat (length (s :: ss))) (zero_stat seller)) |})
            (s :: ss))
  ∧ ∀ i seller,
      toFixed2 (Main.calculateBonusByProfit i (Z.of_nat (length (s :: ss)))
                  (zero_stat seller)) = n0.
Proof.
  intros Hs Hmissing. split.
  - assert (default [] (purchase_records d) = []) as Hnone
      by by destruct Hmissing as [-> | ->].
    rewrite (Main_outcome _ _ _ _ _ Hs).
    rewrite decide_False by (unfold rewires_prototype; rewrite Hnone; tauto).
    unfold aggregate_in. rewrite Hnone. cbn [forEach mbind outcome_bind]. f_equal.
    rewrite makeSellerStats_zero.
    rewrite (sort_by_same profit).
    2: { apply Forall_fmap, Forall_true. intros s'. apply n0_number. }
    2: { intros a b0 (sa & -> & _)%list_elem_of_fmap (sb & -> & _)%list_elem_of_fmap.
         apply gt_irrefl. }
    unfold rank. rewrite length_fmap.
    apply list_eq. intros i.
    rewrite list_lookup_fmap, !list_lookup_imap, list_lookup_fmap.
    destruct ((s :: ss) !! i) as [seller|]; [|done].
    cbn [fmap option_fmap option_map]. f_equal. unfold to_report.
    cbn [stat bonus top_products zero_stat seller_id name revenue profit
         sales_count].
    by rewrite toFixed2_n0.
  - intros i seller. unfold Main.calculateBonusByProfit. cbn [zero_stat profit].
    repeat case_bool_decide;
      rewrite ?n0_mul_n0_15, ?n0_mul_n0_1, ?n0_mul_n0_05; apply toFixed2_n0.
Qed.

(** ** The default bonus policy along the ranking *)

Lemma sorted_lookup_le {A : Type} (R : A → A → Prop) (l : list A)
    (i j : nat) (a b : A) :
  StronglySorted R l → Forall (λ a, R a a) l →
  l !! i = Some a → l !! j = Some b → (i ≤ j)%nat → R a b.
Proof.
  revert i j. induction l as [|x l IH]; intros i j Hs Hrefl Ha Hb Hij; [done|].
  apply StronglySorted_cons in Hs as [Hx Hl].
  apply Forall_cons in Hrefl as [Hxx Hrefl].
  destruct i as [|i], j as [|j]; simpl in *; try lia.
  - injection Ha as ->. by injection Hb as ->.
  - injection Ha as ->. rewrite Forall_forall in Hx. apply Hx.
    by eapply list_elem_of_lookup_2.
  - eapply IH; [done..|lia].
Qed.

Lemma profits_ranked `{!NumberOrder num} (stats : list (SellerStat num))
    (i j : nat) (a b : SellerStat num) :
  Forall (λ acc, is_NaN (profit acc) = false) stats →
  sort_by by_profit stats !! i = Some a →
  sort_by by_profit stats !! j = Some b →
  (i ≤ j)%nat → ge (profit a) (profit b).
Proof.
  intros Hnum. apply (sorted_lookup_le (λ a b, ge (profit a) (profit b))).
  - by apply (sort_by_sorted profit).
  - rewrite (sort_by_perm profit). eapply Forall_impl; [exact Hnum|].
    intros acc Hacc. split; [done|]. split; [done|]. apply gt_irrefl.
Qed.

(** X12: under the default bonus policy, the bonus of the first entry of a
    returned report is 15% of the profit its seller accumulated, rounded to
    two decimals; when no accumulated profit is NaN, no other seller
    accumulated more; in both variants. *)
Theorem first_of_report_has_the_largest_profit `{!NumberOrder num}
    (v : Variant) (d : Data num) (calculateRevenue : RevenuePolicy num)
    (sellers_ : list Seller) (reports : list (SellerReport num))
    (top : SellerReport num) :
  analyzeSalesData_in v (Some d)
    (OptionsObject (Function calculateRevenue)
                   (Function Main.calculateBonusByProfit))
  = Returned reports →
  sellers d = Some sellers_ →
  reports !! 0%nat = Some top →
  ∃ stats acc,
    aggregate_in v calculateRevenue d sellers_ = Returned stats
    ∧ acc ∈ stats
    ∧ report_seller_id top = seller_id acc
    ∧ report_profit top = toFixed2 (profit acc)
    ∧ report_bonus top = toFixed2 (profit acc * n0_15)
    ∧ (Forall (λ acc, is_NaN (profit acc) = false) stats →
       ∀ acc', acc' ∈ stats → ge (profit acc) (profit acc')).
Proof.
  intros H Hs Htop.
  apply analyze_returned in H
    as (d' & s & ss & r & b & stats & [= <-] & Es & [= <- <-] & Hstats & ->).
  rewrite Hs in Es. injection Es as ->.
  apply rank_lookup in Htop as (acc & Hacc & ->). exists stats, acc.
  split; [done|]. split.
  { rewrite <-(sort_by_perm profit). by eapply list_elem_of_lookup_2. }
  do 3 (split; [done|]).
  intros Hnum acc' Hin. rewrite <-(sort_by_perm profit) in Hin.
  apply list_elem_of_lookup in Hin as [j Hj].
  eapply profits_ranked; [done..|lia].
Qed.

(** X13: under the default bonus policy, in a returned report of four or
    more sellers the bonus of the last entry is 0; when no accumulated
    profit is NaN, no other seller accumulated less than the seller of that
    entry; in both variants. *)
Theorem last_of_four_or_more_gets_no_bonus `{!NumberOrder num} `{!NumberZero num}
    (v : Variant) (d : Data num) (calculateRevenue : RevenuePolicy num)
    (sellers_ : list Seller) (reports : list (SellerReport num))
    (bottom : SellerReport num) :
  analyzeSalesData_in v (Some d)
    (OptionsObject (Function calculateRevenue)
                   (Function Main.calculateBonusByProfit))
  = Returned reports →
  sellers d = Some sellers_ →
  (4 ≤ length sellers_)%nat →
  last reports = Some bottom →
  report_bonus bottom = n0
  ∧ ∃ stats acc,
      aggregate_in v calculateRevenue d sellers_ = Returned stats
      ∧ acc ∈ stats
      ∧ report_seller_id bottom = seller_id acc
      ∧ report_profit bottom = toFixed2 (profit acc)
      ∧ (Forall (λ acc, is_NaN (profit acc) = false) stats →
         ∀ acc', acc' ∈ stats → ge (profit acc') (profit acc)).
Proof.
  intros H Hs Hfour Hlast.
  apply analyze_returned in H
    as (d' & s & ss & r & b & stats & [= <-] & Es & [= <- <-] & Hstats & ->).
  rewrite Hs in Es. injection Es as ->.
  pose proof (aggregate_length _ _ _ _ _ Hstats) as Hlength.
  rewrite last_lookup in Hlast.
  assert (length (to_report <$> rank Main.calculateBonusByProfit
                    (sort_by by_profit stats))
          = length (s :: ss)) as Hlen.
  { rewrite length_fmap. unfold rank. rewrite length_imap.
    by rewrite (sort_by_length profit). }
  rewrite Hlen in Hlast.
  apply rank_lookup in Hlast as (acc & Hacc & ->).
  rewrite (sort_by_length profit), Hlength.
  split.
  - cbn [to_report report_bonus bonus]. unfold Main.calculateBonusByProfit.
    rewrite (bool_decide_eq_false_2 (_ = 0)%Z) by lia.
    rewrite (bool_decide_eq_false_2 (_ < 3)%Z) by lia.
    rewrite bool_decide_eq_true_2 by lia. apply toFixed2_n0.
  - exists stats, acc. split; [done|]. split.
    { rewrite <-(sort_by_perm profit). by eapply list_elem_of_lookup_2. }
    do 2 (split; [done|]).
    intros Hnum acc' Hin. rewrite <-(sort_by_perm profit) in Hin.
    apply list_elem_of_lookup in Hin as [j Hj].
    eapply profits_ranked; [done|exact Hj|exact Hacc|].
    apply lookup_lt_Some in Hj.
    rewrite (sort_by_length profit), Hlength in Hj. lia.
Qed.

(** ** Conservation of the number of sales *)

Lemma sum_list_insert (f : SellerStat num → nat) (l : list (SellerStat num))
    (p : nat) (s s' : SellerStat num) :
  l !! p = Some s → (f s ≤ f s')%nat →
  sum_list (f <$> <[p := s']> l) = (sum_list (f <$> l) + (f s' - f s))%nat.
Proof.
  revert p. induction l as [|x l IH]; intros [|p] Hp Hle; simplify_eq/=.
  - lia.
  - rewrite (IH p Hp Hle). lia.
Qed.

Section Totals.
Context (v : Variant) (calculateRevenue : RevenuePolicy num).
Context (sellers_ : list Seller) (productIndex : gmap string (Product num)).

Local Abbreviation sellerIndex := (build_sellerIndex (makeSellerStats sellers_)).
Local Abbreviation step := (store_after v calculateRevenue sellerIndex productIndex).

Lemma known_seller_counted (stats : list (SellerStat num))
    (r : PurchaseRecord num) :
  seller_id <$> stats = id <$> sellers_ →
  known_seller sellers_ r →
  ∃ p seller, sellerIndex !! record_seller_id r = Some p
    ∧ stats !! p = Some seller
    ∧ step stats r
      = <[p := seller_after v calculateRevenue productIndex r seller]> stats.
Proof.
  unfold known_seller. rewrite <-(makeSellerStats_ids (sellers_)). intros Hids Hr.
  destruct (sellerIndex !! record_seller_id r) as [p|] eqn:Hp.
  2: { by apply build_sellerIndex_None in Hp. }
  destruct (build_sellerIndex_Some _ _ _ Hp) as (s0 & Hs0 & _).
  assert (p < length stats)%nat as Hlt.
  { apply lookup_lt_Some in Hs0.
    by rewrite <-(length_fmap seller_id stats), Hids, length_fmap. }
  destruct (lookup_lt_is_Some_2 stats p Hlt) as [seller Hseller].
  exists p, seller. split; [done|]. split; [done|].
  unfold store_after. by rewrite Hp, Hseller.
Qed.

Lemma sales_counted (records : list (PurchaseRecord num))
    (stats : list (SellerStat num)) :
  seller_id <$> stats = id <$> sellers_ →
  sum_list (sales_count <$> fold_left step records stats)
  = (sum_list (sales_count <$> stats)
     + length (filter (known_seller sellers_) records))%nat.
Proof.
  revert stats. induction records as [|r rs IH]; intros stats Hids.
  { cbn [fold_left filter list_filter length]. lia. }
  cbn [fold_left]. rewrite IH.
  2: { by rewrite (proj1 (store_after_ids _ _ _ _ _ _)). }
  rewrite filter_cons. destruct (decide (known_seller sellers_ r)) as [Hr|Hr].
  - destruct (known_seller_counted stats r Hids Hr)
      as (p & seller & _ & Hseller & ->).
    destruct (seller_after_header v calculateRevenue productIndex r seller)
      as (_ & _ & _ & Hcount).
    rewrite (sum_list_insert sales_count _ _ _ _ Hseller) by (rewrite Hcount; lia).
    rewrite Hcount. cbn [length]. lia.
  - by rewrite unknown_seller_skipped.
Qed.
End Totals.

(** X18: the [sales_count] fields of a returned report sum to the number of
    purchase records whose seller identifier is that of a seller of the
    input; in both variants. *)
Theorem sales_count_is_conserved
    (v : Variant) (d : Data num) (options : Options num) (sellers_ : list Seller)
    (reports : list (SellerReport num)) :
  analyzeSalesData_in v (Some d) options = Returned reports →
  sellers d = Some sellers_ →
  sum_list (report_sales_count <$> reports)
  = length (filter (known_seller sellers_) (default [] (purchase_records d))).
Proof.
  intros H Hs.
  apply analyze_returned in H
    as (d' & s & ss & r & b & stats & [= <-] & Es & -> & Hstats & ->).
  rewrite Hs in Es. injection Es as ->.
  assert (report_sales_count
            <$> (to_report <$> rank b (sort_by by_profit stats))
          = sales_count <$> sort_by by_profit stats) as ->.
  { rewrite <-(rank_stats b (sort_by _ _)) at 2.
    by rewrite <-!list_fmap_compose. }
  assert (sales_count <$> sort_by by_profit stats ≡ₚ sales_count <$> stats) as ->.
  { apply fmap_Permutation, (sort_by_perm profit). }
  apply aggregate_returned in Hstats as [-> _].
  rewrite sales_counted by apply makeSellerStats_ids.
  assert (sum_list (sales_count <$> makeSellerStats (num := num) (s :: ss)) = 0%nat)
    as ->; [|done].
  generalize (s :: ss). intros l. induction l as [|x l IH]; [done|].
  rewrite makeSellerStats_zero, fmap_cons, <-makeSellerStats_zero.
  cbn [fmap list_fmap sum_list_with zero_stat sales_count].
  by rewrite IH.
Qed.

(** ** Records whose items find no product *)



End Properties.

(** * The default revenue policy in the arithmetic without rounding *)

Lemma this_plus (x y : Qc) : (this (x + y) == this x + this y)%Q.
Proof. apply Qred_correct. Qed.

Lemma this_mult (x y : Qc) : (this (x * y) == this x * this y)%Q.
Proof. apply Qred_correct. Qed.

Lemma this_opp (x : Qc) : (this (- x) == - this x)%Q.
Proof. apply Qred_correct. Qed.

Lemma this_minus (x y : Qc) : (this (x - y) == this x - this y)%Q.
Proof. unfold Qcminus. rewrite this_plus, this_opp. reflexivity. Qed.

Lemma this_percent (d : Qc) : (this (d / Q2Qc 100) == this d * (1 # 100))%Q.
Proof.
  unfold Qcdiv. rewrite this_mult. apply Qmult_comp; [reflexivity|].
  by vm_compute.
Qed.

Lemma discounted_value (price qty d : Qc) :
  (this (price * qty * (1 - d / Q2Qc 100))
   == this price * this qty * (1 - this d * (1 # 100)))%Q.
Proof. rewrite !this_mult, this_minus, this_percent. reflexivity. Qed.

(** [discount && discount > 0] on a rational. *)
Lemma exact_discount_test (d : Qc) :
  truthy (Fin d) && gt (Fin d) n0 = bool_decide (0 < d)%Qc.
Proof.
  unfold truthy. cbn. destruct (decide (0 < d)%Qc) as [Hpos|Hnot].
  - rewrite (bool_decide_eq_true_2 _ Hpos), andb_true_r, orb_false_r.
    apply negb_true_iff, bool_decide_eq_false. intros ->.
    by apply (irreflexivity Qclt 0%Qc).
  - rewrite (bool_decide_eq_false_2 _ Hnot). apply andb_false_r.
Qed.

Lemma exact_percent (d : Qc) : Fin d / n100 = Fin (d / Q2Qc 100)%Qc.
Proof. cbn. by rewrite decide_False. Qed.

Lemma exact_discounted (item : Item exact) (product : product_arg exact)
    (price qty d : Qc) :
  sale_price item = Fin price → quantity item = Some (Fin qty) →
  discount item = Some (Fin d) →
  Main.calculateSimpleRevenue item product
  = Fin (if bool_decide (0 < d)%Qc
         then (price * qty * (1 - d / Q2Qc 100))%Qc
         else (price * qty)%Qc).
Proof.
  intros Hprice Hqty Hd. unfold Main.calculateSimpleRevenue.
  rewrite Hd, Hprice, Hqty, exact_discount_test.
  case_bool_decide; [|done].
  cbv zeta. by rewrite exact_percent.
Qed.

(** X10: for an item of non-negative price and quantity,
    [calculateSimpleRevenue] with a discount between 0 and 100 gives a
    revenue between 0 and [sale_price * quantity]; a discount above 100 is
    not clamped and gives a revenue that is not positive; in both variants.
    (In the arithmetic without rounding.) *)
Theorem calculateSimpleRevenue_bounds (item : Item exact)
    (product : product_arg exact) (price qty d : Qc) :
  sale_price item = Fin price → quantity item = Some (Fin qty) →
  discount item = Some (Fin d) →
  (0 ≤ price)%Qc → (0 ≤ qty)%Qc →
  ∃ revenue_ : Qc,
    Main.calculateSimpleRevenue item product = Fin revenue_
    ∧ ((0 ≤ d)%Qc → (d ≤ Q2Qc 100)%Qc →
       (0 ≤ revenue_)%Qc ∧ (revenue_ ≤ price * qty)%Qc)
    ∧ ((Q2Qc 100 < d)%Qc → (revenue_ ≤ 0)%Qc)
    ∧ Part000.calculateSimpleRevenue item product
      = Main.calculateSimpleRevenue item product.
Proof.
  intros Hprice Hqty Hd Hp Hq.
  assert (0 <= this price * this qty)%Q as Hfull.
  { unfold Qcle in *. change (this 0) with 0%Q in *. by apply Qmult_le_0_compat. }
  eexists. split; [by apply exact_discounted|]. split; [|split; [|done]].
  - intros H0 H100. case_bool_decide as Hpos.
    + unfold Qcle in *. rewrite discounted_value, this_mult.
      change (this 0) with 0%Q in *. change (this (Q2Qc 100)) with (100 # 1)%Q in *.
      revert Hfull. generalize (this price * this qty)%Q.
      intros t Ht. split; nra.
    + unfold Qcle in *. rewrite this_mult. change (this 0) with 0%Q in *.
      split; [done|apply Qle_refl].
  - intros Hover.
    assert (0 < d)%Qc as Hpos.
    { eapply Qclt_trans; [|exact Hover]. by vm_compute. }
    rewrite (bool_decide_eq_true_2 _ Hpos).
    unfold Qcle, Qclt in *. rewrite discounted_value.
    change (this 0) with 0%Q in *. change (this (Q2Qc 100)) with (100 # 1)%Q in *.
    revert Hfull. generalize (this price * this qty)%Q.
    intros t Ht. nra.
Qed.

Lemma calculateSimpleRevenue_bounds_witness :
  ∃ revenue_ : Qc,
    Main.calculateSimpleRevenue item_20_off (OwnProduct product_001) = Fin revenue_
    ∧ (0 ≤ revenue_)%Qc ∧ (revenue_ ≤ Q2Qc 30 * Q2Qc 5)%Qc.
Proof.
  destruct (calculateSimpleRevenue_bounds item_20_off (OwnProduct product_001)
              (Q2Qc 30) (Q2Qc 5) (Q2Qc 20) eq_refl eq_refl eq_refl)
    as (revenue_ & Hrevenue & Hbounds & _); [by vm_compute..|].
  exists revenue_. split; [exact Hrevenue|].
  apply Hbounds; by vm_compute.
Defined.

(** * The properties on the examples *)

(** A proposition decided by computation. *)
Ltac decided := apply (bool_decide_unpack _); vm_compute; exact I.

Lemma example_returned :
  Main.analyzeSalesData (Some data_example) default_options
  = Returned example_reports.
Proof. reflexivity. Qed.

Lemma example_aggregate :
  aggregate_in main_js Main.calculateSimpleRevenue data_example [seller_2; seller_1]
  = Returned example_stats.
Proof. reflexivity. Qed.

Lemma example_sellers_distinct : NoDup (id <$> [seller_2; seller_1]).
Proof. decided. Qed.

Lemma example_accepted : data_accepted (Some data_example).
Proof. exists data_example, seller_2, [seller_1]. by split. Qed.

Lemma default_options_accepted : options_accepted default_options.
Proof. by eexists _, _. Qed.

Lemma example_kept (x : exact) : or0 (Some x) = x → kept (Some x).
Proof. intros Hx. by exists x. Qed.

(** ** The two default policies *)

Lemma calculateSimpleRevenue_spec_witness :
  Main.calculateSimpleRevenue item_20_off (OwnProduct product_001)
  = lit 30 1 * lit 5 1 * (n1 - lit 20 1 / n100)
  ∧ Main.calculateSimpleRevenue item_no_discount (OwnProduct product_001)
    = lit 30 1 * lit 5 1.
Proof.
  split.
  - apply (proj1 (calculateSimpleRevenue_spec item_20_off (OwnProduct product_001))
             (lit 20 1)); [reflexivity | by vm_compute..].
  - apply (proj1 (proj2 (calculateSimpleRevenue_spec item_no_discount
                           (OwnProduct product_001)))).
    left. reflexivity.
Defined.

Lemma calculateBonusByProfit_order_witness :
  Main.calculateBonusByProfit 0 5 seller_profit_100 = lit 100 1 * n0_15
  ∧ Main.calculateBonusByProfit 2 5 seller_profit_100 = lit 100 1 * n0_1
  ∧ Main.calculateBonusByProfit 4 5 seller_profit_100 = n0
  ∧ Main.calculateBonusByProfit 3 5 seller_profit_100 = lit 100 1 * n0_05.
Proof.
  destruct (calculateBonusByProfit_order 0 5 seller_profit_100) as (H0 & _).
  destruct (calculateBonusByProfit_order 2 5 seller_profit_100) as (_ & H1 & _).
  destruct (calculateBonusByProfit_order 4 5 seller_profit_100) as (_ & _ & H2 & _).
  destruct (calculateBonusByProfit_order 3 5 seller_profit_100)
    as (_ & _ & _ & H3 & _).
  split; [|split; [|split]].
  - apply H0. reflexivity.
  - apply H1; lia.
  - apply H2; lia.
  - apply H3; lia.
Defined.

(** C3, at a concrete input: with two sellers the seller of rank 1 is the
    last one, and [calculateBonusByProfit] gives 10% of the profit 100, that
    is 10, not 0; in both variants. *)
Lemma last_of_two_gets_ten_percent :
  (2 ≤ 3)%Z ∧ (1 = 2 - 1)%Z
  ∧ rational (Main.calculateBonusByProfit 1 2 seller_profit_100) = Some (10 # 1)%Q
  ∧ rational (Part000.calculateBonusByProfit 1 2 seller_profit_100)
    = Some (10 # 1)%Q
  ∧ rational n0 = Some (0 # 1)%Q.
Proof. split; [lia|]. split; [lia|]. by vm_compute. Qed.

Lemma calculateBonusByProfit_middle_before_last_witness :
  Main.calculateBonusByProfit 1 2 seller_profit_100 = lit 100 1 * n0_1
  ∧ Main.calculateBonusByProfit 3 4 seller_profit_100 = n0.
Proof.
  split.
  - apply (proj1 (calculateBonusByProfit_middle_before_last 1 2 seller_profit_100)).
    left. reflexivity.
  - apply (proj2 (calculateBonusByProfit_middle_before_last 3 4 seller_profit_100));
      [lia | reflexivity].
Defined.

(** ** The order of the report *)

(** C1, at a concrete input: two sellers with a receipt each; the item of
    the first seller's receipt has no [quantity], so the revenue policy
    multiplies the price by [undefined] and the seller's profit is NaN.  The
    data pass the validation of both variants, both return, and the seller
    of profit NaN stands before the seller of profit 50: the profits of the
    two adjacent entries are not in the relation [>=]. *)
Lemma profit_NaN_is_not_ordered :
  strict_data_accepted (Some data_without_quantity)
  ∧ Main.analyzeSalesData (Some data_without_quantity) default_options
    = Returned without_quantity_reports
  ∧ report_seller_id <$> without_quantity_reports = ["seller_1"; "seller_2"]
  ∧ rational <$> (report_profit <$> without_quantity_reports)
    = [None; Some (50 # 1)%Q]
  ∧ (report_seller_id <$>
       reports_of (Part000.analyzeSalesData (Some data_without_quantity)
                     default_options)
     = ["seller_1"; "seller_2"])
  ∧ (rational <$>
       (report_profit <$>
          reports_of (Part000.analyzeSalesData (Some data_without_quantity)
                        default_options))
     = [None; Some (50 # 1)%Q])
  ∧ ¬ (∀ i a b,
         without_quantity_reports !! i = Some a →
         without_quantity_reports !! S i = Some b →
         ge (report_profit a) (report_profit b)).
Proof.
  split.
  { eexists data_without_quantity, _, _, _, _, _, _.
    repeat split; reflexivity. }
  split; [reflexivity|]. split; [by vm_compute|]. split; [by vm_compute|].
  split; [by vm_compute|]. split; [by vm_compute|].
  intros Hsorted.
  destruct (without_quantity_reports !! 0%nat) as [a|] eqn:Ha; [|discriminate Ha].
  destruct (without_quantity_reports !! 1%nat) as [b|] eqn:Hb; [|discriminate Hb].
  destruct (Hsorted 0%nat a b Ha Hb) as (Hnan & _).
  injection Ha as <-. discriminate Hnan.
Qed.

Lemma report_sorted_by_profit_witness :
  ∃ sorted : list (SellerStat exact),
    report_seller_id <$> example_reports = seller_id <$> sorted
    ∧ sorted ≡ₚ example_stats
    ∧ ∀ i a b, sorted !! i = Some a → sorted !! S i = Some b →
        ge (profit a) (profit b).
Proof.
  destruct (report_sorted_by_profit main_js (Some data_example)
              Main.calculateSimpleRevenue Main.calculateBonusByProfit
              example_reports example_returned)
    as (d & sellers_ & stats & sorted & Hd & Hs & Hagg & _ & Hperm & Hid & _
        & Horder).
  injection Hd as <-. injection Hs as <-.
  rewrite example_aggregate in Hagg. injection Hagg as <-.
  exists sorted. split; [exact Hid|]. split; [exact Hperm|].
  apply Horder. decided.
Defined.

(** ** Validation and the errors of the aggregation *)

(** C5, at concrete inputs.  A class that carries the two default policies
    as static methods is present and both policies are functions, yet
    main.js throws the options error: [typeof options] is not "object".
    And on accepted data with accepted options main.js throws a TypeError
    when a purchase record names the seller "toString" and has an item of a
    known product. *)
Lemma Main_throws_on_structurally_valid_input :
  data_accepted (Some data_example)
  ∧ policies_invocable policies_class
  ∧ Main.analyzeSalesData (Some data_example) policies_class
    = Threw InvalidOptions
  ∧ data_accepted (Some data_seller_toString)
  ∧ options_accepted default_options
  ∧ Main.analyzeSalesData (Some data_seller_toString) default_options
    = Threw TypeError.
Proof.
  split; [exact example_accepted|]. split.
  { exists Main.calculateSimpleRevenue, Main.calculateBonusByProfit. by right. }
  split; [reflexivity|]. split.
  { exists data_seller_toString, seller_2, [seller_1]. by split. }
  split; [exact default_options_accepted | reflexivity].
Qed.

Lemma Main_throws_iff_precondition_violated_witness :
  Main.analyzeSalesData None default_options = Threw InvalidInput
  ∧ Main.analyzeSalesData (Some data_example) OptionsFalsy = Threw InvalidOptions
  ∧ Main.analyzeSalesData (Some data_seller_toString) default_options
    = Threw TypeError
  ∧ ∃ reports,
      Main.analyzeSalesData (Some data_example) default_options = Returned reports.
Proof.
  assert (data_accepted (Some data_seller_toString)) as Hd'.
  { exists data_seller_toString, seller_2, [seller_1]. by split. }
  split; [|split; [|split]].
  - apply (Main_throws_iff_precondition_violated None default_options).
    intros (d & s & ss & Hnone & _). discriminate Hnone.
  - apply (Main_throws_iff_precondition_violated (Some data_example) OptionsFalsy).
    + exact example_accepted.
    + intros (r & b & Ho). discriminate Ho.
  - apply (Main_throws_iff_precondition_violated (Some data_seller_toString)
             default_options).
    + exact Hd'.
    + exact default_options_accepted.
    + exists data_seller_toString. split; [reflexivity|]. split; decided.
  - apply (Main_throws_iff_precondition_violated (Some data_example)
             default_options).
    + exact example_accepted.
    + exact default_options_accepted.
    + intros (d & [= <-] & _ & Hfails). revert Hfails. decided.
    + intros d [= <-]. decided.
Defined.

(** C6, at a concrete input: main.js returns a report for data that have
    sellers only, no products and no purchase records; part_000 throws the
    input error. *)
Lemma Main_accepts_missing_collections :
  collection_missing (products data_sellers_only)
  ∧ collection_missing (purchase_records data_sellers_only)
  ∧ Main.analyzeSalesData (Some data_sellers_only) default_options
    = Returned sellers_only_reports
  ∧ report_seller_id <$> sellers_only_reports = ["seller_1"; "seller_2"]
  ∧ Part000.analyzeSalesData (Some data_sellers_only) default_options
    = Threw InvalidInput.
Proof.
  split; [by left|]. split; [by left|]. split; [reflexivity|].
  split; [by vm_compute | reflexivity].
Qed.

Lemma strict_validation_in_part_000_only_witness :
  Part000.analyzeSalesData (Some data_sellers_only) default_options
  = Threw InvalidInput.
Proof.
  apply (strict_validation_in_part_000_only data_sellers_only default_options).
  left. left. reflexivity.
Defined.

Lemma Part000_validation_errors_witness :
  Part000.analyzeSalesData (Some data_sellers_only) OptionsFalsy
  = Threw InvalidInput
  ∧ Part000.analyzeSalesData (Some data_example) OptionsFalsy
    = Threw InvalidOptions.
Proof.
  split.
  - apply (proj1 (Part000_validation_errors (Some data_sellers_only) OptionsFalsy)).
    intros (d & s & ss & p & ps & r & rs & [= <-] & _ & Hproducts & _).
    discriminate Hproducts.
  - apply (proj2 (Part000_validation_errors (Some data_example) OptionsFalsy)).
    split.
    + eexists _, _, _, _, _, _, _. repeat split; reflexivity.
    + intros (r & b & Ho). discriminate Ho.
Defined.

Lemma Part000_throws_TypeError_iff_a_record_fails_witness :
  Part000.analyzeSalesData (Some data_without_items) default_options
  = Threw TypeError.
Proof.
  assert (¬ rewires_prototype data_without_items) as Hplain by decided.
  apply (proj1 (Part000_throws_TypeError_iff_a_record_fails
                  data_without_items default_options seller_1 [seller_2]
                  product_001 [] record_without_items []
                  eq_refl eq_refl eq_refl default_options_accepted Hplain)).
  apply Exists_cons_hd. left. split; [|reflexivity]. left. decided.
Defined.


(** ** Items and records that the loops skip *)

(** C7, at a concrete input: an item whose SKU, "toString", is that of no
    product is not skipped.  [productIndex["toString"]] is the method
    inherited from [Object.prototype], which is truthy: the item is
    processed, its cost is NaN, the seller's profit becomes NaN, and
    [products_sold] gets the key "toString" with a string made of the text
    of the method and the quantity 1; in both variants. *)
Lemma item_of_SKU_toString_is_processed :
  ¬ known_product [product_001] item_toString
  ∧ (∀ v,
       profit (process_item_in v Main.calculateSimpleRevenue
                 (build_productIndex [product_001]) (zero_stat seller_1)
                 item_toString)
       = NotANumber
       ∧ products_sold (process_item_in v Main.calculateSimpleRevenue
                          (build_productIndex [product_001]) (zero_stat seller_1)
                          item_toString)
         = [("toString", Text "toString" [Some (lit 1 1)])])
  ∧ (∀ v,
       rational <$>
         (report_profit <$>
            reports_of (analyzeSalesData_in v
                          (Some {| sellers := Some [seller_1];
                                   products := Some [product_001];
                                   purchase_records := Some [record_item_toString] |})
                          default_options))
       = [None]).
Proof.
  split; [decided|]. split.
  - intros []; split; by vm_compute.
  - intros []; by vm_compute.
Qed.

Lemma unknown_sku_skips_item_only_witness :
  ∃ seller' : SellerStat exact,
    Main.process_record Main.calculateSimpleRevenue
      (build_sellerIndex (makeSellerStats [seller_2; seller_1]))
      (build_productIndex [product_001])
      (makeSellerStats [seller_2; seller_1]) record_seller_1
    = Returned (<[1%nat := seller']> (makeSellerStats [seller_2; seller_1]))
    ∧ Main.process_record Main.calculateSimpleRevenue
        (build_sellerIndex (makeSellerStats [seller_2; seller_1]))
        (build_productIndex [product_001])
        (makeSellerStats [seller_2; seller_1])
        (with_items record_seller_1 (Some [item_known_sku]))
      = Returned (<[1%nat := seller']> (makeSellerStats [seller_2; seller_1]))
    ∧ sales_count seller' = 1%nat.
Proof.
  destruct (unknown_sku_skips_item_only main_js Main.calculateSimpleRevenue
              [seller_2; seller_1] [product_001]
              (makeSellerStats [seller_2; seller_1])
              record_seller_1 1 (zero_stat seller_1)
              [] [item_known_sku] item_unknown_sku)
    as (seller' & _ & Hrecord & Hwithout & _ & Hcount & _).
  - decided.
  - decided.
  - by vm_compute.
  - reflexivity.
  - reflexivity.
  - decided.
  - decided.
  - exists seller'. split; [exact Hrecord|]. split; [exact Hwithout | exact Hcount].
Defined.

(** ** The revenue of the report *)

(** C8, at a concrete input: one seller with one receipt of 0.004; the
    revenue of the report is 0, the amount rounded to two decimals. *)
Lemma rounding_breaks_revenue_conservation :
  Main.analyzeSalesData (Some data_small_amount) default_options
  = Returned small_amount_reports
  ∧ rational <$> (report_revenue <$> small_amount_reports) = [Some (0 # 1)%Q]
  ∧ (rational ∘ to_number ∘ total_amount)
      <$> filter (known_seller [seller_1])
            (default [] (purchase_records data_small_amount))
    = [Some (1 # 250)%Q].
Proof. split; [reflexivity|]. split; by vm_compute. Qed.

Lemma revenue_accumulates_known_receipts_witness :
  ∃ sorted : list (SellerStat exact),
    report_revenue <$> example_reports = (toFixed2 ∘ revenue) <$> sorted
    ∧ sorted ≡ₚ example_stats
    ∧ ∀ p acc, example_stats !! p = Some acc →
        revenue acc
        = revenue_over main_js
            (attributed [seller_2; seller_1] p
               [record_seller_1; record_unknown_seller]).
Proof.
  destruct (revenue_accumulates_known_receipts main_js (Some data_example)
              Main.calculateSimpleRevenue Main.calculateBonusByProfit
              example_reports example_returned)
    as (d & sellers_ & stats & sorted & Hd & Hs & Hagg & Hperm & _ & Hrev
        & Hsum & _).
  injection Hd as <-. injection Hs as <-.
  rewrite example_aggregate in Hagg. injection Hagg as <-.
  exists sorted. split; [exact Hrev|]. split; [exact Hperm|].
  intros p acc Hacc. exact (proj1 (Hsum p acc Hacc)).
Defined.

(** ** The top products *)




(** ** The two variants *)

(** C10, at concrete inputs of the claim's domain: the three collections
    are not empty, every record has a [total_amount] and an array of items,
    and every item has a [quantity].  With a receipt of the seller
    "toString" both variants throw a TypeError and neither returns a
    report.  With a [total_amount] that is NaN both return, and the
    revenues differ: main.js reads [NaN || 0], part_000 adds NaN. *)
Lemma variants_without_identical_reports :
  strict_data_accepted (Some data_seller_toString)
  ∧ Forall has_items [record_seller_1; record_toString]
  ∧ Forall (λ record,
              is_Some (total_amount record)
              ∧ Forall (λ item, is_Some (quantity item))
                       (default [] (items record)))
           [record_seller_1; record_toString]
  ∧ Part000.analyzeSalesData (Some data_seller_toString) default_options
    = Threw TypeError
  ∧ Main.analyzeSalesData (Some data_seller_toString) default_options
    = Threw TypeError
  ∧ rational <$>
      (report_revenue <$>
         reports_of (Main.analyzeSalesData
                       (Some {| sellers := Some [seller_1];
                                products := Some [product_001];
                                purchase_records :=
                                  Some [ {| record_seller_id := "seller_1";
                                            total_amount := Some NotANumber;
                                            items := Some [item_known_sku] |} ] |})
                       default_options))
    = [Some (0 # 1)%Q]
  ∧ rational <$>
      (report_revenue <$>
         reports_of (Part000.analyzeSalesData
                       (Some {| sellers := Some [seller_1];
                                products := Some [product_001];
                                purchase_records :=
                                  Some [ {| record_seller_id := "seller_1";
                                            total_amount := Some NotANumber;
                                            items := Some [item_known_sku] |} ] |})
                       default_options))
    = [None].
Proof.
  split.
  { eexists data_seller_toString, _, _, _, _, _, _. repeat split; reflexivity. }
  split; [unfold has_items; decided|].
  split; [decided|].
  split; [reflexivity|]. split; [reflexivity|]. split; by vm_compute.
Qed.

Lemma variants_agree_on_strict_domain_witness :
  Part000.analyzeSalesData (Some data_example) default_options
  = Main.analyzeSalesData (Some data_example) default_options.
Proof.
  refine (proj1 (variants_agree_on_strict_domain data_example default_options
            seller_2 [seller_1] product_001 []
            record_seller_1 [record_unknown_seller] _ _ _ _ _)).
  - reflexivity.
  - reflexivity.
  - reflexivity.
  - unfold has_items. decided.
  - repeat (first [apply Forall_nil_2 | apply Forall_cons_2 | split]);
      by apply example_kept.
Defined.

(** ** The report as a function of the input *)

Lemma report_lists_every_seller_once_witness :
  length example_reports = length [seller_2; seller_1]
  ∧ (λ report, (report_seller_id report, report_name report)) <$> example_reports
    ≡ₚ (λ s, (id s, first_name s +:+ " " +:+ last_name s)) <$> [seller_2; seller_1].
Proof.
  apply (report_lists_every_seller_once data_example default_options
           [seller_2; seller_1] example_reports); [left|]; reflexivity.
Defined.

Lemma report_sales_count_counts_records_witness :
  ∃ report, example_reports !! 0%nat = Some report
    ∧ report_sales_count report
      = length (records_of (report_seller_id report)
                  [record_seller_1; record_unknown_seller]).
Proof.
  destruct (example_reports !! 0%nat) as [report|] eqn:Hi; [|discriminate Hi].
  exists report. split; [reflexivity|].
  apply (report_sales_count_counts_records data_example default_options
           [seller_2; seller_1] example_reports report).
  - left. reflexivity.
  - reflexivity.
  - exact example_sellers_distinct.
  - exact (list_elem_of_lookup_2 _ _ _ Hi).
Defined.

Lemma report_revenue_sums_records_witness :
  ∃ report, example_reports !! 0%nat = Some report
    ∧ report_revenue report
      = toFixed2
          (revenue_over main_js
             (records_of (report_seller_id report)
                [record_seller_1; record_unknown_seller])).
Proof.
  destruct (example_reports !! 0%nat) as [report|] eqn:Hi; [|discriminate Hi].
  exists report. split; [reflexivity|].
  apply (report_revenue_sums_records main_js data_example default_options
           [seller_2; seller_1] example_reports report).
  - exact example_returned.
  - reflexivity.
  - exact example_sellers_distinct.
  - exact (list_elem_of_lookup_2 _ _ _ Hi).
Defined.

Lemma report_profit_sums_items_witness :
  ∃ report, example_reports !! 0%nat = Some report
    ∧ report_profit report
      = toFixed2
          (profit_over main_js Main.calculateSimpleRevenue
             (data_productIndex data_example)
             (records_of (report_seller_id report)
                [record_seller_1; record_unknown_seller])).
Proof.
  destruct (example_reports !! 0%nat) as [report|] eqn:Hi; [|discriminate Hi].
  exists report. split; [reflexivity|].
  apply (report_profit_sums_items main_js data_example Main.calculateSimpleRevenue
           Main.calculateBonusByProfit [seller_2; seller_1] example_reports report).
  - exact example_returned.
  - reflexivity.
  - exact example_sellers_distinct.
  - exact (list_elem_of_lookup_2 _ _ _ Hi).
Defined.

Lemma productIndex_keeps_last_product_witness :
  js_get (build_productIndex [product_001; product_001_dearer]) "SKU_001"
  = Own product_001_dearer
  ∧ js_get (build_productIndex [product_001; product_001_dearer]) "toString"
    = Inherited "toString".
Proof.
  split.
  - apply (productIndex_keeps_last_product [product_001; product_001_dearer]
             "SKU_001"). decided.
  - apply (productIndex_keeps_last_product [product_001; product_001_dearer]
             "toString"). decided.
Defined.

Lemma earlier_seller_of_an_identifier_gets_nothing_witness :
  ∃ report, report ∈ duplicate_ids_reports
    ∧ report_seller_id report = "seller_1"
    ∧ report_sales_count report = 0%nat
    ∧ report_top_products report = [].
Proof.
  destruct (earlier_seller_of_an_identifier_gets_nothing
              data_duplicate_ids Main.calculateSimpleRevenue
              Main.calculateBonusByProfit [seller_1; seller_1_again]
              duplicate_ids_reports 0 1 seller_1 seller_1_again)
    as (_ & report & Hin & Hid & Hcount & _ & _ & Htop).
  - left. reflexivity.
  - reflexivity.
  - reflexivity.
  - reflexivity.
  - lia.
  - reflexivity.
  - exists report. split; [exact Hin|]. split; [exact Hid|].
    split; [exact Hcount | exact Htop].
Defined.

Lemma Main_report_without_records_witness :
  ∃ reports,
    Main.analyzeSalesData (Some data_sellers_only) default_options
    = Returned reports
    ∧ report_seller_id <$> reports = ["seller_1"; "seller_2"]
    ∧ report_sales_count <$> reports = [0; 0]%nat.
Proof.
  eexists. split.
  - apply (Main_report_without_records data_sellers_only
             Main.calculateSimpleRevenue Main.calculateBonusByProfit
             seller_1 [seller_2]); [reflexivity|]. left. reflexivity.
  - split; reflexivity.
Defined.

(** ** The default bonus policy along the ranking *)

Lemma first_of_report_has_the_largest_profit_witness :
  ∃ top acc, example_reports !! 0%nat = Some top
    ∧ report_seller_id top = seller_id acc
    ∧ report_bonus top = toFixed2 (profit acc * n0_15).
Proof.
  destruct (example_reports !! 0%nat) as [top|] eqn:H0; [|discriminate H0].
  destruct (first_of_report_has_the_largest_profit main_js data_example
              Main.calculateSimpleRevenue [seller_2; seller_1] example_reports
              top example_returned eq_refl H0)
    as (stats & acc & _ & _ & Hid & _ & Hbonus & _).
  exists top, acc. split; [reflexivity|]. split; [exact Hid | exact Hbonus].
Defined.

Lemma last_of_four_or_more_gets_no_bonus_witness :
  ∃ bottom, last four_sellers_reports = Some bottom ∧ report_bonus bottom = n0.
Proof.
  destruct (last four_sellers_reports) as [bottom|] eqn:Hlast;
    [|discriminate Hlast].
  exists bottom. split; [reflexivity|].
  refine (proj1 (last_of_four_or_more_gets_no_bonus main_js data_four_sellers
            Main.calculateSimpleRevenue [seller_1; seller_2; seller_3; seller_4]
            four_sellers_reports bottom eq_refl eq_refl _ Hlast)).
  simpl. lia.
Defined.

(** ** Totals over the report *)

Lemma sales_count_is_conserved_witness :
  sum_list (report_sales_count <$> example_reports)
  = length (filter (known_seller [seller_2; seller_1])
              [record_seller_1; record_unknown_seller]).
Proof.
  apply (sales_count_is_conserved main_js data_example default_options
           [seller_2; seller_1] example_reports).
  - exact example_returned.
  - reflexivity.
Defined.

